(* ===== verification/_CoqProject ===== *)
-Q . S2P
Prelude.v
Python.v
Web.v
Routing.v
Datastore.v
ImageHost.v
World.v
Config.v
Listing.v
Detail.v
Upload.v
App.v
Server.v
Browser.v
Lifecycle.v
Concurrency.v
Refinement.v
