(* ===== verification/Prelude.v ===== *)
(** * A verification development for the content-publishing web application

    The program ([src/app.py], about one hundred lines of Python) is a
    Flask application with three request handlers that talk to two remote
    services, a Supabase/PostgREST database and the ImgBB image host:

    - module-level code (lines 8-20) loads [.env] into the environment,
      sets the session secret key (with a literal fallback), builds the
      Supabase client (which raises when its URL or key is missing) and
      reads [IMGBB_API_KEY];
    - [index] (route [/], lines 24-34) selects the approved content rows
      with their category name, newest first, and renders them; a database
      error is printed and replaced by an empty list;
    - [single_content] (route [/content/<slug>], lines 37-44) selects the
      rows with the slug and renders the first, or aborts with 404;
    - [upload_content] (route [/upload], lines 47-96) renders the category
      list on GET; on POST it reads the form and the file, posts the bytes
      to ImgBB, inserts a content row with the returned URL, the fixed
      user ["DEFAULT_USER_ID"] and [is_approved = True], and redirects
      with a flashed notice; every failure redirects back to the form;
    - run as a script (lines 99-101) the file starts the development
      server on port 5000.

    The handlers keep no state of their own.  What persists between
    requests is the database, the images stored at the host, the session's
    flashed messages and standard output: the record [world] of [World].

    ** Files and what they model

    - [Prelude] (this file): the state and exception monad [M] (an
      exception keeps the effects before it, as in Python), its notation
      [x <- m ;; k] in [app_scope], the lemmas that run it, the hint
      databases [app] and [app_rw], list lemmas.
    - [Python]: Python values ([pyval]: None, bool, int, str, list, dict),
      truthiness ([truthy]), subscription [getitem] with [KeyError] and
      [TypeError], the exceptions [exn] and their [str()] ([str_exn]).
    - [Web]: what the handlers use of Flask/Werkzeug: [request] with its
      MultiDicts ([md_get], [form_get]), [FileStorage] and its truthiness
      ([fs_truthy], [file_present]), [response] (render, redirect, error
      page, 308 redirect, the answer to OPTIONS), [flash_msg],
      [url_for_index].
    - [Routing]: the three [@app.route] rules as data ([rule_index],
      [rule_content], [rule_upload], [url_map]); Werkzeug's matcher
      [werkzeug_match] (the path rewritten with its leading slashes
      reduced to one, [path_part]; static parts, the default converter, HEAD added to
      GET rules, OPTIONS added to every rule and answered with the
      methods the path allows ([allowed_methods]), 405 versus 404,
      [merge_slashes] and its 308 redirect);
      the three-way split [match_route]/[allowed] the handler theorems use.
    - [Datastore]: the query values the Supabase client builds
      ([Builder.table], [Builder.select], [Builder.eq], [Builder.order]);
      the select-list parser [parse_select]; the reference evaluator
      [eval_select] (equality filters with SQL nulls, [ORDER BY] with
      nulls first when descending, projection, many-to-one embedding
      checked before any row is read); the interface [Datastore] with its
      laws [DatastoreLaws] (a select returns what [eval_select] computes
      or fails with a client error, and never changes the tables; an
      insert appends to an existing table one row that stores the given
      one, each value cast to its column's type ([stored], [cast],
      [column_type]), and that keeps the foreign keys ([fk_violates]),
      or fails and changes nothing); the in-memory model [memdb]
      ([mem_execute], [mem_insert]: network switch, the casts of
      [int8in] (sign, digits, 64-bit range) and [boolin], [id]/[created_at]
      defaults, sequence consumed on a constraint failure, unique
      constraints, the foreign key of [contents.category_id]), the
      instance [memdb_laws] that discharges the interface, and its
      invariant [memdb_inv].
    - [ImageHost]: [http_response], [resp_json] ([.json()]), the
      [requests] encoding of [params] ([encode_params] drops [None]), the
      interface [ImageHost] with its laws [ImageHostLaws], and the
      in-memory ImgBB [imgbb] that satisfies them (success payload, 400
      error payload without [success], 503 page that is not JSON,
      unreachable host).
    - [World]: [world], the configuration [config] ([IMGBB_API_KEY]), the
      handler monad [AppM] and the client calls lifted into it
      ([db_execute], [db_insert], [http_post], [flash], [print],
      [abort]); the concrete worlds the witnesses run on.
    - [Config]: process start: the environment as a [gmap string string],
      [load_dotenv] without override, [getenv], [create_client] with its
      checks, [startup] (lines 8-20, an outcome because the import may
      raise), and the [__main__] guard [main] (lines 99-101).
    - [Listing], [Detail], [Upload]: one file per handler: its query
      values, the handler as a definition following the source line by
      line, and its theorems, proved against the two interfaces.  [Upload]
      also states the abstract contract [upload_spec] (spec section 4.3).
    - [App]: [view] and [dispatch] (the endpoint's view, or the router's
      answer), [serve] (an [HTTPException] becomes its error page, any
      other exception a 500 page), [serve_all] ([app.run] answering a
      request sequence), and [reachable].
    - [Server]: the shapes of every response ([response_ok]) and the
      growth bounds of a request sequence ([grows_by]).
    - [Browser]: a client of the development server at [origin] that
      follows redirects as the Fetch standard does ([follow], [fetch]
      with the redirects left as fuel, Fetch's [redirect_limit] of 20).
    - [Lifecycle]: the counters of the in-memory database ([counters_inv])
      and the life of a submission from the upload to the listing and the
      detail page, or to the database's refusal of its [category_id].
    - [Concurrency]: the [try] block of the upload split at its two
      remote calls ([host_phase], [db_phase], equal to [submit] in a row:
      [submit_phases]), submission threads ([phase], [step_thread]) and
      their interleaving on one world by a schedule ([run_sched]), as the
      threaded development server runs them.
    - [Refinement]: the abstract content site of the spec ([site],
      [site_step], [site_run]), the abstraction [abs] of a world and the
      simulation [serve_site_step].

    ** What the theorems show (claims C1-C35, most important first)

    - The whole application (C1): for every database and image host that
      satisfy their laws, every run of the server is a run of the
      abstract content site written from the spec ([Refinement]).
    - Upload (C2, C6-C8, C19, C20, C29): every POST refines the abstract
      contract [upload_spec] and never raises (C2); each branch: success
      adds one approved row owned by the placeholder with the host's URL
      and the form values, as the database casts them (C6); a host
      refusal inserts nothing (C7); no file calls nothing (C8); an insert
      failure after a hosted image inserts nothing and keeps the image
      (C19); a non-JSON refusal is reported as an exception (C20); GET
      renders every category (C29).
    - Listing (C3, C14, C15): the page shows exactly the approved rows,
      each joined with its category, as a sorted permutation of the
      filtered table; a database error gives an empty page and one log
      line; the handler never raises.
    - Detail (C4, C5, C28): 404 exactly when no row has the slug; the
      first row with the slug, approved or not, is rendered with every
      column as stored; the query's exception propagates.
    - Lifecycle (C9, C21, C26, C33): a valid submission to a working
      ImgBB and database is created and listed first by the next [GET /],
      with the name of its category (C9); a submission reusing a stored
      slug is accepted when the database does not make slugs unique, but
      the slug's detail page stays the older row's (C21); the application
      never sets [id] or [created_at], so the in-memory database's rows
      stay stamped below its counters (C26); a [category_id] that is not
      a [bigint] (the empty choice among them) fails at the insert after
      the image was hosted (C33).
    - Concurrency (C22): two concurrent submissions of one slug under a
      unique constraint, in each of the six interleavings of their host
      calls and inserts, store both images; the one whose insert runs
      first is redirected to the listing and has its row added, the
      other is sent back to its form with the database's duplicate-key
      error, flashed after the success notice.
    - Routing (C10, C30, C34): Werkzeug's matcher on the source's rules
      computes exactly [match_route] and [allowed] on the path with its
      leading slashes reduced to one, with the 308 redirect for doubled
      slashes inside the path (C10); the detail route matches exactly
      [content/<s>] after any leading slashes, for a non-empty [s]
      without a slash (C30); a request is served the same with any number
      of leading slashes (C34).
    - Browser (C32, C35): a browser following the application's
      redirects gets a final page after at most one of them, from any URL
      (C32); every POST to the upload view is answered with a redirect
      that the browser follows with a GET, whose answer is final (C35).
    - Responses and effects (C11, C13, C16, C17, C25, C31): every
      response is one of the three templates with its context, a redirect
      to [/] or back to the form, an error page 404, 405 or 500, the 308
      redirect, or the answer to OPTIONS listing GET and OPTIONS; a 500
      page comes only from the two unguarded queries; each request makes
      at most one database call, whose only write is the submission's
      insert; only a POST that routes to [/upload] changes a table, an
      image or a notice; [n] requests append at most [n] notices, log
      lines and rows; a detail page only shows slugs that are non-empty
      and hold no slash.
    - Request sequences (C12, C18, C27): the application only appends
      approved rows owned by the placeholder to [contents], never changes
      [categories], and the host gains at least one image per created row
      (orphans possible).
    - Process start (C23, C24): the import succeeds exactly when the
      Supabase URL and key are present and the URL is http(s), and then
      holds the secret key or its literal fallback, the client and the
      ImgBB key as read; without [SUPABASE_URL] the import raises.

    ** Findings

    The detail view ignores the approval flag; a non-JSON refusal from the
    host yields the exception notice, not the upload-problem notice; an
    unset [IMGBB_API_KEY] yields the upload-problem notice, not a runtime
    failure; absent text fields are inserted as [None]; the spec's
    property 8 (duplicates create two records) holds only when the
    database does not enforce the slug uniqueness the spec delegates to
    it, and then the second record has no detail page; a missing [SUPABASE_URL] or [SUPABASE_KEY] stops the import
    instead of failing on first use; a missing [FLASK_SECRET_KEY] falls
    back to a key published in the source; a path with doubled slashes
    inside it is redirected by Werkzeug, and one with several leading
    slashes is served as with one, cases the spec's HTTP surface does not
    list;
    an item whose slug is empty or holds a slash is listed but has no
    reachable detail page; the form's [category_id] is sent as text to a
    column that references a [bigint], so an empty or unknown choice
    fails at the insert after the image was uploaded; two concurrent
    submissions of one slug race on the database, the order of their
    inserts (not of their requests) decides which one is kept, and the
    other one's image stays hosted.

    ** Bounds and fuel

    Nothing in the program loops: every definition of the application is
    structural ([serve_all] recurses on the request list).  The one loop
    of the system is the client's: [fetch] follows redirects with the
    number left as fuel, and C32 shows that fuel one suffices for every
    request (a chain is the 302 of a submission, or a 308 from doubled
    slashes, then a final answer: Werkzeug strips leading slashes before
    matching, so no merged path leads to [/upload]), so Fetch's limit of
    20 is never reached; [fetch_one_redirect] shows the bound is
    reached.
    Timestamps and ids of the database model are integers drawn from
    counters; Python's integers are unbounded ([Z]); the database's
    [bigint] is checked against [-2^63] and [2^63 - 1] when it casts a
    value ([int8_of_text]).

    ** Not modelled

    Not modelled: template rendering (responses keep the template name and
    its context, so flashed messages are never consumed: the templates are
    not in the repository); the session cookie and the use of the secret
    key to sign it (the world keeps one list of notices, so requests from
    several browsers share it); the
    interpolation of [${VAR}] in [.env] values and the search for the
    [.env] file; sockets, threads and the debugger of the development
    server; the imports of lines 1-5.  The database's column types are
    those the code implies (the real schema is not in the repository):
    [category_id] a [bigint] referencing [categories.id], [is_approved] a
    boolean, [created_at] the model's clock, the rest text; blanks around
    a number, upper-case booleans and arrays sent to a scalar column are
    not modelled.  A browser's percent-decoding of paths and relative
    locations other than absolute paths are not modelled (the
    application sends neither).  Concurrent requests interleave at the
    remote calls of a submission only; the reads of the other handlers
    are single calls and interleave as whole requests ([reachable]).
    The text of a database error is its message ([str_exn]); the exact
    [str()] of postgrest-py's [APIError] (its error dict, or a form
    with the code and hint, depending on the release) is not modelled.
    The database, ImgBB and Flask are services and libraries the code
    only calls: they are modelled by the interfaces the handlers use and
    one in-memory instance each, which is as much as the repository
    determines of them. *)

From stdpp Require Export base list strings.
From Stdlib Require Export ZArith.

Declare Scope app_scope.
Delimit Scope app_scope with app.
Open Scope app_scope.

Create HintDb app.
Create Rewrite HintDb app_rw.

(** ** Outcomes and the state/exception monad

    Python code raises exceptions without undoing the side effects that
    happened before: an outcome is paired with the state reached. *)

Inductive outcome (E A : Type) : Type :=
| Ok (a : A)
| Raise (e : E).
Arguments Ok {E A} a.
Arguments Raise {E A} e.

Definition M (E S A : Type) : Type := S -> outcome E A * S.

Section Monad.
Context {E S : Type}.

Definition m_ret {A} (a : A) : M E S A := fun s => (Ok a, s).

Definition m_bind {A B} (m : M E S A) (k : A -> M E S B) : M E S B :=
  fun s =>
    match m s with
    | (Ok a, s') => k a s'
    | (Raise e, s') => (Raise e, s')
    end.

Definition raise {A} (e : E) : M E S A := fun s => (Raise e, s).

(** [try: m except e: h e] *)
Definition try_catch {A} (m : M E S A) (h : E -> M E S A) : M E S A :=
  fun s =>
    match m s with
    | (Ok a, s') => (Ok a, s')
    | (Raise e, s') => h e s'
    end.

Definition modify (f : S -> S) : M E S unit := fun s => (Ok tt, f s).

Definition gets {A} (f : S -> A) : M E S A := fun s => (Ok (f s), s).
End Monad.

Notation "x <- m ;; k" := (m_bind m (fun x => k))
  (at level 100, m at next level, right associativity) : app_scope.
Notation "m ;; k" := (m_bind m (fun _ => k))
  (at level 100, right associativity) : app_scope.

(** ** Running the monad *)

Section MonadLemmas.
Context {E S A B : Type}.
Implicit Types (s : S) (e : E).

Lemma m_bind_ok (m : M E S A) (k : A -> M E S B) s a s' :
  m s = (Ok a, s') -> m_bind m k s = k a s'.
Proof. intros Hm. unfold m_bind. by rewrite Hm. Qed.

Lemma m_bind_raise (m : M E S A) (k : A -> M E S B) s e s' :
  m s = (Raise e, s') -> m_bind m k s = (Raise e, s').
Proof. intros Hm. unfold m_bind. by rewrite Hm. Qed.

Lemma try_catch_ok (m : M E S A) h s a s' :
  m s = (Ok a, s') -> try_catch m h s = (Ok a, s').
Proof. intros Hm. unfold try_catch. by rewrite Hm. Qed.

Lemma try_catch_raise (m : M E S A) h s e s' :
  m s = (Raise e, s') -> try_catch m h s = h e s'.
Proof. intros Hm. unfold try_catch. by rewrite Hm. Qed.

Lemma m_bind_assoc {C} (m : M E S A) (k : A -> M E S B) (k' : B -> M E S C) s :
  m_bind (m_bind m k) k' s = m_bind m (fun a => m_bind (k a) k') s.
Proof. unfold m_bind. destruct (m s) as [[a|e] s']; done. Qed.

(** A handler whose exception handler never raises never raises. *)
Lemma try_catch_total (m : M E S A) h s :
  (forall e s0, exists a s1, h e s0 = (Ok a, s1)) ->
  exists a s', try_catch m h s = (Ok a, s').
Proof.
  intros Hh. unfold try_catch. destruct (m s) as [[a|e] s']; eauto.
Qed.
End MonadLemmas.

#[export] Hint Resolve m_bind_ok m_bind_raise try_catch_ok try_catch_raise : app.

(** ** Generic list lemmas *)

Lemma filter_nil_iff {A} (P : A -> Prop) `{!forall x, Decision (P x)} (l : list A) :
  filter P l = [] <-> Forall (fun x => ~ P x) l.
Proof.
  induction l as [|x l IH]; simpl; [split; auto|].
  rewrite filter_cons. case_decide.
  - split; [done|]. intros Hf. inversion Hf; contradiction.
  - rewrite IH, Forall_cons. naive_solver.
Qed.

Lemma filter_all {A} (P : A -> Prop) `{!forall x, Decision (P x)} (l : list A) :
  (forall x, P x) -> filter P l = l.
Proof. intros HP. induction l as [|x l IH]; [done|]. by rewrite filter_cons_True, IH. Qed.
