(* ===== verification/Python.v ===== *)
(** * Python values and exceptions

    The handlers of [src/app.py] manipulate the data of the remote
    services as Python values: [response.data] is a list of dicts,
    [imgbb_response.json()] a dict parsed from JSON, [new_content] a dict
    literal, [request.form.get] a string or [None].  This file gives those
    values a type, Python's truthiness (used by [if not response.data],
    [if not file] and [... and imgbb_data['success']]), subscription
    [d[k]] with the exceptions it raises, and the exceptions that reach
    the handlers together with their [str()]. *)

From S2P Require Import Prelude.
Open Scope string_scope.

(** ** Values *)

Inductive pyval : Type :=
| PNone
| PBool (b : bool)
| PInt (z : Z)
| PStr (s : string)
| PList (xs : list pyval)
| PDict (kvs : list (string * pyval)).

(** Dict lookup: the first binding of the key (dicts built by the program
    and by a JSON parser have one binding per key). *)
Fixpoint dict_lookup (k : string) (kvs : list (string * pyval)) : option pyval :=
  match kvs with
  | [] => None
  | (k', v) :: kvs' => if String.eqb k k' then Some v else dict_lookup k kvs'
  end.

(** [bool(v)]: [None], [False], [0], [""], [[]] and [{}] are false. *)
Definition truthy (v : pyval) : bool :=
  match v with
  | PNone => false
  | PBool b => b
  | PInt z => negb (Z.eqb z 0)
  | PStr s => negb (String.eqb s "")
  | PList xs => negb (Nat.eqb (length xs) 0)
  | PDict kvs => negb (Nat.eqb (length kvs) 0)
  end.

(** [None] for a missing optional string, as [request.form.get] returns. *)
Definition of_opt_str (o : option string) : pyval :=
  match o with Some s => PStr s | None => PNone end.

(** ** Exceptions *)

Inductive exn : Type :=
| KeyError (k : string)
| IndexError (msg : string)
| TypeError (msg : string)
| JSONDecodeError (msg : string)      (** requests.exceptions.JSONDecodeError *)
| ConnectionError (msg : string)      (** requests/httpx transport errors *)
| APIError (msg : string)             (** postgrest.exceptions.APIError *)
| SupabaseException (msg : string)    (** supabase's client construction errors *)
| HTTPException (code : Z).           (** werkzeug's abort(code) *)

(** [str(e)]: a [KeyError] prints its key quoted, the others their message. *)
Definition str_exn (e : exn) : string :=
  match e with
  | KeyError k => "'" ++ k ++ "'"
  | IndexError m | TypeError m | JSONDecodeError m | ConnectionError m | APIError m
  | SupabaseException m => m
  | HTTPException 404 => "404 Not Found: The requested URL was not found on the server."
  | HTTPException _ => "HTTP error"
  end.

(** The type name Python prints in "'X' object is not subscriptable". *)
Definition type_name (v : pyval) : string :=
  match v with
  | PNone => "NoneType" | PBool _ => "bool" | PInt _ => "int"
  | PStr _ => "str" | PList _ => "list" | PDict _ => "dict"
  end.

(** [v[k]] for a string key [k]. *)
Definition getitem (v : pyval) (k : string) : outcome exn pyval :=
  match v with
  | PDict kvs =>
      match dict_lookup k kvs with
      | Some x => Ok x
      | None => Raise (KeyError k)
      end
  | PList _ => Raise (TypeError "list indices must be integers or slices, not str")
  | PStr _ => Raise (TypeError "string indices must be integers, not 'str'")
  | _ => Raise (TypeError ("'" ++ type_name v ++ "' object is not subscriptable"))
  end.

(** ** Lemmas *)

Lemma dict_lookup_cons_eq k v kvs : dict_lookup k ((k, v) :: kvs) = Some v.
Proof. simpl. by rewrite String.eqb_refl. Qed.

Lemma dict_lookup_cons_ne k k' v kvs :
  k <> k' -> dict_lookup k ((k', v) :: kvs) = dict_lookup k kvs.
Proof. intros Hne. simpl. destruct (String.eqb_spec k k'); congruence. Qed.

Lemma dict_lookup_app k kvs1 kvs2 :
  dict_lookup k (kvs1 ++ kvs2) =
  match dict_lookup k kvs1 with Some v => Some v | None => dict_lookup k kvs2 end.
Proof.
  induction kvs1 as [|[k' v] kvs1 IH]; simpl; [done|].
  destruct (String.eqb k k'); auto.
Qed.

Lemma dict_lookup_In k v kvs : dict_lookup k kvs = Some v -> In (k, v) kvs.
Proof.
  induction kvs as [|[k' v'] kvs IH]; simpl; [done|].
  destruct (String.eqb_spec k k') as [->|]; [intros [= ->]|]; auto.
Qed.

Lemma getitem_dict_Some k kvs v :
  dict_lookup k kvs = Some v -> getitem (PDict kvs) k = Ok v.
Proof. intros H. simpl. by rewrite H. Qed.

(** Subscription succeeds exactly on a dict that has the key. *)
Lemma getitem_Ok v k x :
  getitem v k = Ok x <-> exists kvs, v = PDict kvs /\ dict_lookup k kvs = Some x.
Proof.
  split.
  - destruct v; simpl; try discriminate.
    destruct (dict_lookup k kvs) eqn:E; [intros [= ->]; eauto | discriminate].
  - intros (kvs & -> & H). by apply getitem_dict_Some.
Qed.

#[export] Hint Rewrite dict_lookup_cons_eq : app_rw.
#[export] Hint Resolve getitem_dict_Some dict_lookup_In : app.
