(* ===== verification/Web.v ===== *)
(** * The web framework as the handlers use it

    Flask and Werkzeug are libraries the program only calls; this file
    models the part of their behaviour the handlers of [src/app.py] depend
    on: the incoming request ([request.method], [request.url],
    [request.form], [request.files], MultiDicts whose [get] returns the
    first value or [None]), the truthiness of an uploaded [FileStorage]
    (Werkzeug: [bool(self.filename)]), the responses a view returns
    ([render_template], [redirect], and the error page [abort] leads to;
    the router's 308 redirect and its answer to OPTIONS),
    [flash] (which appends a (category, message) pair to the session) and
    [url_for('index')]. *)

From S2P Require Import Prelude Python.
Open Scope string_scope.

Inductive method : Type := GET | HEAD | POST | PUT | PATCH | DELETE | OPTIONS.

#[export] Instance method_eq_dec : EqDecision method.
Proof. solve_decision. Defined.

(** An uploaded file: [file.filename] and the bytes [file.read()] returns. *)
Record FileStorage : Type := mkFile {
  fs_filename : string;
  fs_data : list Byte.byte
}.

(** [bool(file)]: a [FileStorage] is false when its file name is empty,
    which is what a browser sends for a file input left empty. *)
Definition fs_truthy (f : FileStorage) : bool := negb (String.eqb (fs_filename f) "").

Record request : Type := mkRequest {
  req_method : method;
  req_path : string;                          (** the decoded path *)
  req_url : string;                           (** [request.url] *)
  req_form : list (string * string);          (** [request.form] *)
  req_files : list (string * FileStorage)     (** [request.files] *)
}.

(** [MultiDict.get(k)]: the first value bound to [k], or [None]. *)
Fixpoint md_get {V} (k : string) (md : list (string * V)) : option V :=
  match md with
  | [] => None
  | (k', v) :: md' => if String.eqb k k' then Some v else md_get k md'
  end.

(** [request.form.get(k)] as a Python value: a string or [None]. *)
Definition form_get (r : request) (k : string) : pyval := of_opt_str (md_get k (req_form r)).

(** [request.files.get('file')] followed by [if not file]: [None] and an
    empty file name are both "no file". *)
Definition file_present (o : option FileStorage) : option FileStorage :=
  match o with
  | Some f => if fs_truthy f then Some f else None
  | None => None
  end.

Inductive response : Type :=
| Render (template : string) (ctx : list (string * pyval))   (** render_template *)
| Redirect (location : string)                              (** redirect, 302 *)
| ErrorPage (code : Z)                                      (** abort / error handler *)
| PermanentRedirect (path : string)                         (** Werkzeug's RequestRedirect, 308 *)
| Options (allow : list method).                            (** automatic OPTIONS: 200 with Allow *)

(** The session's flashed messages, oldest first. *)
Definition flashes := list (string * string).

(** [flash(message, category)] *)
Definition flash_msg (message category : string) (fl : flashes) : flashes :=
  (fl ++ [(category, message)])%list.

(** [url_for('index')]: the rule of [index] is [/]. *)
Definition url_for_index : string := "/".

Lemma md_get_Some {V} k (md : list (string * V)) v : md_get k md = Some v -> In (k, v) md.
Proof.
  induction md as [|[k' v'] md IH]; simpl; [done|].
  destruct (String.eqb_spec k k') as [->|]; [intros [= ->]|]; auto.
Qed.

Lemma file_present_Some o f : file_present o = Some f <-> o = Some f /\ fs_filename f <> "".
Proof.
  destruct o as [f'|]; simpl.
  - unfold fs_truthy. destruct (String.eqb_spec (fs_filename f') "") as [E|E]; simpl.
    + split; [discriminate | intros [[= ->] ?]; contradiction].
    + split; [intros [= ->]; auto | intros [[= ->] _]; done].
  - split; [discriminate | intros [? _]; discriminate].
Qed.

Lemma file_present_None o :
  file_present o = None <-> o = None \/ exists f, o = Some f /\ fs_filename f = "".
Proof.
  destruct o as [f|]; simpl.
  - unfold fs_truthy. destruct (String.eqb_spec (fs_filename f) "") as [E|E]; simpl.
    + split; [intros _; right; eauto | done].
    + split; [discriminate | intros [?|(f' & [= <-] & ?)]; [discriminate | contradiction]].
  - split; auto.
Qed.
