(* ===== verification/Routing.v ===== *)
(** * URL routing: the rules of [src/app.py] and Werkzeug's matcher

    The program declares three rules with [@app.route] (lines 24, 37 and
    47).  [url_map] holds them as the source writes them: the rule
    string, the endpoint (the view's name) and the [methods] argument.
    Flask adds HEAD to a rule that allows GET, and OPTIONS to every rule,
    answering an OPTIONS request itself with the methods of the rules
    that match the path ([allowed_methods]).  [werkzeug_match] is the
    matcher of Werkzeug 2.2 and later on a list of rules: rewrite the
    path as [MapAdapter.match] does, its leading slashes reduced to one
    ([path_part], [path_info.lstrip("/")]), split it at ['/'], take the first rule whose parts match and whose methods
    allow the request's; failing that, merge doubled slashes
    ([re.sub("/{2,}?", "/", path)]) and, when the merged path matches,
    redirect to it (308); otherwise 405 when some rule matched the path,
    404 when none did.  So [//upload] is the upload view, while
    [/content//x] is redirected to [/content/x].

    [match_route] and [allowed] are the three-way case split the
    theorems of [App] work with; [route_request] assembles them into the
    matcher's result.  [werkzeug_match_url_map] shows that Werkzeug's
    matcher on [url_map] computes exactly [route_request] (C10), and
    [match_route_content] characterises the detail paths (C30). *)

From S2P Require Import Prelude Python Web.
From Stdlib Require Import Ascii.
Open Scope string_scope.

(** ** Paths *)

(** [path.split("/")] *)
Fixpoint split_on (c : ascii) (s : string) : list string :=
  match s with
  | EmptyString => [""]
  | String a s' =>
      if Ascii.eqb a c then "" :: split_on c s'
      else match split_on c s' with
           | [] => [String a ""]
           | x :: xs => String a x :: xs
           end
  end.

Fixpoint has_char (c : ascii) (s : string) : bool :=
  match s with
  | EmptyString => false
  | String a s' => Ascii.eqb a c || has_char c s'
  end.

(** [re.sub("/{2,}?", "/", path)]: the lazy quantifier matches exactly two
    slashes, so each pair becomes one slash (["///"] becomes ["//"]). *)
Fixpoint merge_slashes (s : string) : string :=
  match s with
  | String a s0 =>
      match s0 with
      | String b s' =>
          if Ascii.eqb a "/"%char && Ascii.eqb b "/"%char then String "/"%char (merge_slashes s')
          else String a (merge_slashes s0)
      | EmptyString => s
      end
  | EmptyString => s
  end.

(** [path_info.lstrip("/")] *)
Fixpoint lstrip_slash (s : string) : string :=
  match s with
  | String a s' => if Ascii.eqb a "/"%char then lstrip_slash s' else s
  | EmptyString => s
  end.

(** [MapAdapter.match] rewrites the path before matching it:
    [path_part = f"/{path_info.lstrip('/')}" if path_info else ""]. *)
Definition path_part (path_info : string) : string :=
  match path_info with
  | EmptyString => ""
  | String _ _ => String "/"%char (lstrip_slash path_info)
  end.

(** [k] slashes. *)
Fixpoint slashes (k : nat) : string :=
  match k with
  | O => ""
  | S k' => String "/" (slashes k')
  end.

(** ** Rules *)

Inductive rule_part : Type :=
| Static (s : string)
| Var (name : string).

Record rule : Type := mkRule {
  rule_string : string;
  rule_endpoint : string;
  rule_methods : list method
}.

(** The decorators of lines 24, 37 and 47; [methods] defaults to GET;
    the endpoint is the name of the decorated function. *)
Definition rule_index : rule := mkRule "/" "index" [GET].
Definition rule_content : rule := mkRule "/content/<slug>" "single_content" [GET].
Definition rule_upload : rule := mkRule "/upload" "upload_content" [GET; POST].

(** [app.url_map], in the order the rules are registered. *)
Definition url_map : list rule := [rule_index; rule_content; rule_upload].

(** A part [<name>] is a variable with the default converter. *)
Definition parse_part (p : string) : rule_part :=
  match p with
  | String "<"%char rest =>
      match String.get (String.length rest - 1) rest with
      | Some ">"%char => Var (String.substring 0 (String.length rest - 1) rest)
      | _ => Static p
      end
  | _ => Static p
  end.

Definition rule_parts (r : rule) : list rule_part := parse_part <$> split_on "/"%char (rule_string r).

(** The methods of a rule as registered: Werkzeug adds HEAD to a rule
    that allows GET, Flask adds OPTIONS to every rule (its automatic
    OPTIONS answer). *)
Definition rule_allow_list (r : rule) : list method :=
  rule_methods r ++ (if bool_decide (GET ∈ rule_methods r) then [HEAD] else []) ++ [OPTIONS].

Definition rule_allows (r : rule) (m : method) : bool := bool_decide (m ∈ rule_allow_list r).

(** The parts of a path against the parts of a rule: a static part
    matches itself, a variable any non-empty part (the default
    converter is [[^/]+] and the parts hold no slash).  The result is
    the view's arguments. *)
Fixpoint match_parts (rps : list rule_part) (ps : list string) : option (list (string * string)) :=
  match rps, ps with
  | [], [] => Some []
  | Static s :: rps', p :: ps' => if String.eqb s p then match_parts rps' ps' else None
  | Var n :: rps', p :: ps' =>
      if String.eqb p "" then None else (fun args => (n, p) :: args) <$> match_parts rps' ps'
  | _, _ => None
  end.

(** The first rule that matches the parts and allows the method. *)
Fixpoint match_rules (rules : list rule) (ps : list string) (m : method)
    : option (string * list (string * string)) :=
  match rules with
  | [] => None
  | r :: rules' =>
      match match_parts (rule_parts r) ps with
      | Some args => if rule_allows r m then Some (rule_endpoint r, args) else match_rules rules' ps m
      | None => match_rules rules' ps m
      end
  end.

(** Some rule matches the parts, whatever the method ([have_match_for]). *)
Definition path_matched (rules : list rule) (ps : list string) : bool :=
  existsb (fun r => bool_decide (is_Some (match_parts (rule_parts r) ps))) rules.

(** [adapter.allowed_methods()]: the methods of every rule whose parts
    match. *)
Definition allowed_methods (rules : list rule) (ps : list string) : list method :=
  rules ≫= (fun r => if match_parts (rule_parts r) ps is Some _ then rule_allow_list r else []).

Inductive match_result : Type :=
| Matched (endpoint : string) (args : list (string * string))
| NotFound
| MethodNotAllowed
| RequestRedirect (path : string).

(** [MapAdapter.match] with [merge_slashes] on: the rewritten path is
    matched, and the redirect goes to the rewritten path merged. *)
Definition werkzeug_match (rules : list rule) (path_info : string) (m : method) : match_result :=
  let path := path_part path_info in
  let ps := split_on "/"%char path in
  match match_rules rules ps m with
  | Some (ep, args) => Matched ep args
  | None =>
      let path' := merge_slashes path in
      let ps' := split_on "/"%char path' in
      match match_rules rules ps' m with
      | Some _ => RequestRedirect path'
      | None => if path_matched rules ps || path_matched rules ps' then MethodNotAllowed else NotFound
      end
  end.

(** ** The three routes *)

Inductive route : Type :=
| RIndex
| RContent (slug : string)
| RUpload.

Definition match_segments (ps : list string) : option route :=
  match ps with
  | [a; b] =>
      if String.eqb a "" && String.eqb b "" then Some RIndex
      else if String.eqb a "" && String.eqb b "upload" then Some RUpload
      else None
  | [a; b; s] =>
      if String.eqb a "" && String.eqb b "content" && negb (String.eqb s "")
      then Some (RContent s) else None
  | _ => None
  end.

(** The route of a request path, after [MapAdapter.match]'s rewriting. *)
Definition match_route (path : string) : option route :=
  match_segments (split_on "/"%char (path_part path)).

(** [methods=['GET', 'POST']] for [/upload]; GET elsewhere; HEAD and
    OPTIONS everywhere. *)
Definition allowed (r : route) (m : method) : bool :=
  match r, m with
  | _, GET | _, HEAD | _, OPTIONS => true
  | RUpload, POST => true
  | _, _ => false
  end.

(** The Allow list of each route. *)
Definition route_methods (r : route) : list method :=
  match r with
  | RUpload => [GET; POST; HEAD; OPTIONS]
  | _ => [GET; HEAD; OPTIONS]
  end.

Definition endpoint_of (r : route) : string * list (string * string) :=
  match r with
  | RIndex => ("index", [])
  | RContent s => ("single_content", [("slug", s)])
  | RUpload => ("upload_content", [])
  end.

Definition route_request (path : string) (m : method) : match_result :=
  match match_route path with
  | Some r => if allowed r m then Matched (endpoint_of r).1 (endpoint_of r).2 else MethodNotAllowed
  | None =>
      let path' := merge_slashes (path_part path) in
      match match_route path' with
      | Some r => if allowed r m then RequestRedirect path' else MethodNotAllowed
      | None => NotFound
      end
  end.

(** ** Paths *)


Lemma split_on_no_char c s : has_char c s = false -> split_on c s = [s].
Proof.
  induction s as [|a s IH]; simpl; [done|].
  destruct (Ascii.eqb a c); simpl; [discriminate|]. intros H. by rewrite IH.
Qed.

(** Join segments with ['/'], the inverse of [split_on]. *)
Fixpoint join_on (c : ascii) (xs : list string) : string :=
  match xs with
  | [] => ""
  | [x] => x
  | x :: xs' => x ++ String c (join_on c xs')
  end.

Lemma split_on_cons c s : exists x xs, split_on c s = x :: xs.
Proof.
  induction s as [|a s (x & xs & IH)]; simpl; [by eexists _, _|].
  destruct (Ascii.eqb a c); rewrite ?IH; by eexists _, _.
Qed.

Lemma join_split_on c s : join_on c (split_on c s) = s.
Proof.
  induction s as [|a s IH]; simpl; [done|].
  destruct (Ascii.eqb_spec a c) as [->|Hne].
  - destruct (split_on_cons c s) as (x & xs & Hs). rewrite Hs in IH |- *.
    rewrite <- IH. reflexivity.
  - destruct (split_on_cons c s) as (x & xs & Hs). rewrite Hs in IH |- *.
    rewrite <- IH. destruct xs; reflexivity.
Qed.

Lemma split_on_segments c s : Forall (fun x => has_char c x = false) (split_on c s).
Proof.
  induction s as [|a s IH]; simpl; [by repeat constructor|].
  destruct (Ascii.eqb a c) eqn:Ha; [by constructor|].
  destruct (split_on c s) as [|x xs]; [constructor; [simpl; by rewrite Ha | constructor]|].
  inversion IH; subst. constructor; [simpl; by rewrite Ha|done].
Qed.


(** The path of each route. *)
Definition route_path (r : route) : string :=
  match r with
  | RIndex => "/"
  | RContent s => "/content/" ++ s
  | RUpload => "/upload"
  end.

(** Segments that route are those of the route's path, and a slug is
    one non-empty segment. *)
Lemma match_segments_path q r :
  match_segments (split_on "/" q) = Some r ->
  q = route_path r /\ forall s, r = RContent s -> s <> "" /\ has_char "/" s = false.
Proof.
  unfold match_segments. intros Hm.
  pose proof (join_split_on "/" q) as Hj. pose proof (split_on_segments "/" q) as Hseg.
  destruct (split_on "/" q) as [|a [|b [|s' [|]]]]; try discriminate.
  - destruct (String.eqb_spec a ""), (String.eqb_spec b ""), (String.eqb_spec b "upload");
      simpl in Hm; try discriminate; injection Hm as <-; subst; split; done.
  - destruct (String.eqb_spec a ""), (String.eqb_spec b "content"), (String.eqb_spec s' "");
      simpl in Hm; try discriminate. injection Hm as <-. subst a b.
    rewrite !Forall_cons in Hseg. destruct Hseg as (_ & _ & Hs & _).
    split; [by rewrite <- Hj | by intros ? [= <-]].
Qed.

(** A path that routes is, once rewritten, the path of its route. *)
Lemma match_route_path path r :
  match_route path = Some r ->
  path_part path = route_path r /\ forall s, r = RContent s -> s <> "" /\ has_char "/" s = false.
Proof. apply match_segments_path. Qed.

Lemma lstrip_slash_slashes k t : lstrip_slash (slashes k ++ t) = lstrip_slash t.
Proof. induction k as [|k IH]; simpl; [done|]. exact IH. Qed.

(** A path is its leading slashes followed by what [lstrip] leaves. *)
Lemma lstrip_slash_spec s : exists k, s = slashes k ++ lstrip_slash s.
Proof.
  induction s as [|a s (k & Hk)]; [by exists 0|]. simpl.
  destruct (Ascii.eqb_spec a "/") as [->|]; [exists (S k); rewrite Hk at 1; reflexivity | exists 0; reflexivity].
Qed.

Lemma lstrip_slash_head s :
  lstrip_slash s = "" \/ exists b t, lstrip_slash s = String b t /\ b <> "/"%char.
Proof.
  induction s as [|a s IH]; [by left|]. simpl.
  destruct (Ascii.eqb_spec a "/"); [done | right; by eexists _, _].
Qed.

(** The rewritten path is empty, the root, or a slash followed by
    something other than a slash. *)
Lemma path_part_cases path :
  (path = "" /\ path_part path = "") \/ path_part path = "/" \/
  exists b t, path_part path = String "/" (String b t) /\ b <> "/"%char.
Proof.
  destruct path as [|a s]; [by left|]. right. unfold path_part.
  destruct (lstrip_slash_head (String a s)) as [-> | (b & t & -> & Hb)]; [by left | right; eauto].
Qed.

Lemma path_part_slashes k b t :
  b <> "/"%char -> path_part (slashes k ++ String b t) = String "/" (String b t).
Proof.
  intros Hb. assert (Hl : lstrip_slash (String b t) = String b t)
    by (simpl; by destruct (Ascii.eqb_spec b "/")).
  unfold path_part. destruct (slashes k ++ String b t) as [|a s] eqn:E; [by destruct k|].
  by rewrite <- E, lstrip_slash_slashes, Hl.
Qed.

(** Leading slashes, one or more, are rewritten to one. *)
Lemma path_part_slashes_app k p : path_part (slashes (S k) ++ p) = path_part (String "/" p).
Proof. unfold path_part. simpl. by rewrite lstrip_slash_slashes. Qed.

Lemma path_part_normal b t :
  b <> "/"%char -> path_part (String "/" (String b t)) = String "/" (String b t).
Proof. intros Hb. apply (path_part_slashes 1 b t Hb). Qed.

Lemma merge_slashes_cons a s :
  Ascii.eqb a "/" = false -> merge_slashes (String a s) = String a (merge_slashes s).
Proof. intros Ha. destruct s as [|b s]; [done|]. unfold merge_slashes at 1. by rewrite Ha. Qed.

Lemma merge_slashes_no_slash s : has_char "/" s = false -> merge_slashes s = s.
Proof.
  induction s as [|a s IH]; [done|]. intros H. simpl in H.
  apply orb_false_iff in H as [Ha Hs]. rewrite merge_slashes_cons by done. by rewrite IH.
Qed.

(** A rewritten path that routes has no doubled slash. *)
Lemma match_segments_merge q r : match_segments (split_on "/" q) = Some r -> merge_slashes q = q.
Proof.
  intros (-> & Hok)%match_segments_path. destruct r as [|s|]; [done| |done].
  destruct (Hok s eq_refl) as [Hne Hc]. destruct s as [|c s']; [done|].
  simpl in Hc |- *. apply orb_false_iff in Hc as [Hc Hs]. rewrite Hc. simpl.
  destruct s' as [|d s'']; [done|]. rewrite merge_slashes_no_slash by done. reflexivity.
Qed.

Lemma merge_slashes_two a b s :
  merge_slashes (String a (String b s)) =
  if Ascii.eqb a "/" && Ascii.eqb b "/" then String "/" (merge_slashes s)
  else String a (merge_slashes (String b s)).
Proof. reflexivity. Qed.

(** Merging slashes keeps every character (a pair of slashes leaves one). *)
Lemma has_char_merge c s : has_char c (merge_slashes s) = has_char c s.
Proof.
  remember (String.length s) as n eqn:Hn. revert s Hn.
  induction n as [n IH] using lt_wf_ind. intros [|a [|b s']] Hn; [done|done|].
  rewrite merge_slashes_two. simpl in Hn.
  assert (H1 : has_char c (merge_slashes s') = has_char c s')
    by (apply (IH (String.length s')); [lia | done]).
  assert (H2 : has_char c (merge_slashes (String b s')) = has_char c (String b s'))
    by (apply (IH (S (String.length s'))); [lia | done]).
  cbn [has_char] in H1, H2 |- *.
  destruct (Ascii.eqb_spec a "/") as [->|Ha], (Ascii.eqb_spec b "/") as [->|Hb]; cbn [andb];
    cbn [has_char]; rewrite ?H1, ?H2; try done.
  by destruct (Ascii.eqb "/" c).
Qed.

(** The merged rewritten path is already rewritten. *)
Lemma merge_path_part path : path_part (merge_slashes (path_part path)) = merge_slashes (path_part path).
Proof.
  destruct (path_part_cases path) as [[_ ->] | [-> | (b & t & -> & Hb)]]; [done | done |].
  rewrite merge_slashes_two, Ascii.eqb_refl, (proj2 (Ascii.eqb_neq b "/") Hb). cbn [andb].
  rewrite merge_slashes_cons by (by apply Ascii.eqb_neq). by apply path_part_normal.
Qed.

(** The rewriting and the merging keep every character but the slash. *)
Lemma has_char_lstrip c s : c <> "/"%char -> has_char c (lstrip_slash s) = has_char c s.
Proof.
  intros Hc. induction s as [|a s IH]; [done|]. simpl.
  destruct (Ascii.eqb_spec a "/") as [->|]; [|done].
  rewrite IH, (proj2 (Ascii.eqb_neq "/" c)) by congruence. done.
Qed.

Lemma has_char_path_part c s : c <> "/"%char -> has_char c (path_part s) = has_char c s.
Proof.
  intros Hc. destruct s as [|a s]; [done|]. unfold path_part. cbn [has_char].
  rewrite (proj2 (Ascii.eqb_neq "/" c)) by congruence. by apply has_char_lstrip.
Qed.

(** The merged rewritten path is empty or starts with a slash. *)
Lemma merge_path_part_head path :
  merge_slashes (path_part path) = "" \/ exists rest, merge_slashes (path_part path) = String "/" rest.
Proof.
  destruct (path_part_cases path) as [[_ ->] | [-> | (b & t & -> & Hb)]]; [by left | right; by exists "" |].
  rewrite merge_slashes_two, Ascii.eqb_refl, (proj2 (Ascii.eqb_neq b "/") Hb). right. by eexists.
Qed.

(** Merging slashes leads to [/upload] only from a path that routes to
    [/upload] already: the router never redirects to the upload view. *)
Lemma merge_route_upload path :
  match_route (merge_slashes (path_part path)) = Some RUpload -> match_route path = Some RUpload.
Proof.
  destruct (path_part_cases path) as [[_ Hq] | [Hq | (b & t & Hq & Hb)]];
    unfold match_route at 2; rewrite Hq; [discriminate | discriminate |].
  rewrite merge_slashes_two, Ascii.eqb_refl, (proj2 (Ascii.eqb_neq b "/") Hb). cbn [andb].
  rewrite merge_slashes_cons by (by apply Ascii.eqb_neq).
  intros (Hp & _)%match_route_path. rewrite path_part_normal in Hp by done.
  injection Hp as -> Ht.
  assert (Hc : has_char "/" t = false) by (rewrite <- has_char_merge, Ht; reflexivity).
  rewrite merge_slashes_no_slash in Ht by done. by subst t.
Qed.

(** ** Werkzeug's matcher on the rules of the source *)

(** A local tactic: split on every string comparison of the goal. *)
Ltac string_cases :=
  repeat match goal with
  | |- context [String.eqb ?x ?y] =>
      destruct (String.eqb_spec x y); subst; cbn -[String.eqb rule_allows]
  end.

Lemma match_rules_url_map ps m :
  match_rules url_map ps m =
    match match_segments ps with
    | Some r => if allowed r m then Some (endpoint_of r) else None
    | None => None
    end.
Proof.
  destruct ps as [|a [|b [|c [|d ps]]]]; cbn -[String.eqb rule_allows]; string_cases; try done.
  all: destruct m; try reflexivity.
  all: exfalso; congruence.
Qed.

Lemma path_matched_url_map ps :
  path_matched url_map ps = match match_segments ps with Some _ => true | None => false end.
Proof.
  destruct ps as [|a [|b [|c [|d ps]]]]; cbn -[String.eqb]; string_cases; try done.
  all: exfalso; congruence.
Qed.

Lemma allowed_methods_url_map ps :
  allowed_methods url_map ps = match match_segments ps with Some r => route_methods r | None => [] end.
Proof.
  destruct ps as [|a [|b [|c [|d ps]]]]; cbn -[String.eqb]; string_cases; try done.
  all: exfalso; congruence.
Qed.

(** Werkzeug's matcher on [url_map] is [route_request]. *)
Lemma url_map_routes path m : werkzeug_match url_map path m = route_request path m.
Proof.
  unfold werkzeug_match, route_request, match_route. rewrite merge_path_part.
  rewrite !match_rules_url_map, !path_matched_url_map.
  destruct (match_segments (split_on "/" (path_part path))) as [r|] eqn:Hr.
  - destruct (allowed r m) eqn:Ha; [by destruct r|].
    rewrite (match_segments_merge _ r Hr), Hr, Ha. done.
  - destruct (match_segments (split_on "/" (merge_slashes (path_part path)))) as [r'|];
      [destruct (allowed r' m)|]; done.
Qed.

(** C10: Werkzeug's matcher run on the three rules of the source
    computes exactly the three-way split [match_route]/[allowed] on the
    path with its leading slashes reduced to one: the route's view when
    its methods allow the request's, 405 when they do not, a 308 redirect
    when only the path with merged slashes routes, 404 otherwise. *)
Theorem werkzeug_match_url_map path m : werkzeug_match url_map path m = route_request path m.
Proof. apply url_map_routes. Qed.

Lemma werkzeug_match_url_map_witness :
  werkzeug_match url_map "//content//golpo" GET = RequestRedirect "/content/golpo" /\
  werkzeug_match url_map "//upload" POST = Matched "upload_content" [] /\
  werkzeug_match url_map "///content/x" GET = Matched "single_content" [("slug", "x")] /\
  werkzeug_match url_map "/upload" DELETE = MethodNotAllowed.
Proof. split_and!; rewrite werkzeug_match_url_map; reflexivity. Defined.

(** C30: routing round trip: a path dispatches to the detail view of [s]
    exactly when it is ["content/" ++ s] after any number of leading
    slashes (Werkzeug strips them, and adds one), for a non-empty [s]
    without a slash. *)
Theorem match_route_content (path s : string) :
  match_route path = Some (RContent s) <->
  (exists k, path = slashes k ++ "content/" ++ s) /\ s <> "" /\ has_char "/" s = false.
Proof.
  split.
  - intros Hm. destruct (match_route_path _ _ Hm) as [Hp Hok]. destruct (Hok s eq_refl) as [Hne Hc].
    split_and!; [|done|done].
    assert (Hl : lstrip_slash path = "content/" ++ s)
      by (destruct path as [|a p]; [discriminate | injection Hp as Hl; exact Hl]).
    destruct (lstrip_slash_spec path) as [k Hk]. exists k. rewrite Hk at 1. by rewrite Hl.
  - intros ((k & ->) & Hne & Hc). unfold match_route.
    change ("content/" ++ s) with (String "c" ("ontent/" ++ s)).
    rewrite (path_part_slashes k "c") by done. simpl. change (String.append "" s) with s.
    rewrite (split_on_no_char _ _ Hc). simpl.
    by destruct (String.eqb_spec s "").
Qed.

Lemma match_route_content_witness :
  match_route "//content/golpo" = Some (RContent "golpo") <->
  (exists k, "//content/golpo" = slashes k ++ "content/" ++ "golpo") /\ "golpo" <> "" /\
    has_char "/" "golpo" = false.
Proof. apply match_route_content. Defined.
