(* ===== verification/Datastore.v ===== *)
(** * The remote database: query builder, interface, in-memory model

    [src/app.py] reaches its data through the Supabase client:
    [supabase.table(t).select(cols).eq(col, v).order(col, desc=...).execute()]
    and [supabase.table(t).insert(row).execute()].  The client and the
    database are not code of the repository; this file states what the
    handlers rely on:

    - [Builder]: the query values the client's builder methods produce,
      so that the chains written in the handlers are values of the model;
    - [parse_select]: PostgREST's reading of a select list such as
      ["*, categories(name_bn)"];
    - [eval_select]: the reference semantics of a select request on a set
      of tables: equality filters with SQL's null semantics, [ORDER BY]
      with nulls first for descending order, the projection and the
      many-to-one embedding along a foreign key;
    - [Datastore], [DatastoreLaws]: the interface the handlers' theorems
      are proved against;
    - [cast], [column_type]: how PostgreSQL reads each value of an
      inserted JSON object as its column's type, and the foreign key
      check [fk_violates];
    - [MemDB]: an in-memory model with an on/off switch for the network,
      the casts, id and timestamp defaults, a primary key, an optional
      unique constraint on [slug] and the foreign key of [contents],
      which satisfies the laws. *)

From stdpp Require Import sorting.
From S2P Require Import Prelude Python.
From Stdlib Require Import Ascii DecimalString.
Open Scope string_scope.

(** ** The query builder *)

Record select_query : Type := mkSelect {
  q_table : string;
  q_columns : string;
  q_filters : list (string * pyval);
  q_order : option (string * bool)          (** column, descending *)
}.

Module Builder.
(** [supabase.table(name)]: a request on every column of [name]. *)
Definition table (name : string) : select_query := mkSelect name "*" [] None.
(** [.select(columns)] *)
Definition select (columns : string) (q : select_query) : select_query :=
  mkSelect (q_table q) columns (q_filters q) (q_order q).
(** [.eq(column, value)]: one more conjunct of the filter. *)
Definition eq (column : string) (v : pyval) (q : select_query) : select_query :=
  mkSelect (q_table q) (q_columns q) (q_filters q ++ [(column, v)])%list (q_order q).
(** [.order(column, desc=desc)] *)
Definition order (column : string) (desc : bool) (q : select_query) : select_query :=
  mkSelect (q_table q) (q_columns q) (q_filters q) (Some (column, desc)).
End Builder.

(** ** Select lists *)

Inductive sel_item : Type :=
| SelStar
| SelCol (c : string)
| SelEmbed (rel : string) (cols : list string).

(** Split at the commas that are not inside parentheses. *)
Fixpoint split_top (depth : nat) (cur : list Ascii.ascii) (cs : list Ascii.ascii)
  : list (list Ascii.ascii) :=
  match cs with
  | [] => [rev cur]
  | c :: cs' =>
      if Ascii.eqb c ","%char && Nat.eqb depth 0 then rev cur :: split_top depth [] cs'
      else if Ascii.eqb c "("%char then split_top (S depth) (c :: cur) cs'
      else if Ascii.eqb c ")"%char then split_top (pred depth) (c :: cur) cs'
      else split_top depth (c :: cur) cs'
  end.

(** [name(inner)] is split into [name] and [inner]; no parenthesis gives
    [None]. *)
Fixpoint break_paren (acc : list Ascii.ascii) (cs : list Ascii.ascii)
  : list Ascii.ascii * option (list Ascii.ascii) :=
  match cs with
  | [] => (rev acc, None)
  | c :: cs' =>
      if Ascii.eqb c "("%char then (rev acc, Some (removelast cs'))
      else break_paren (c :: acc) cs'
  end.

Definition parse_item (cs : list Ascii.ascii) : sel_item :=
  match break_paren [] cs with
  | (name, None) =>
      let s := String.string_of_list_ascii name in
      if String.eqb s "*" then SelStar else SelCol s
  | (name, Some inner) =>
      SelEmbed (String.string_of_list_ascii name)
               (map String.string_of_list_ascii (split_top 0 [] inner))
  end.

(** PostgREST ignores blanks in a select list. *)
Definition parse_select (s : string) : list sel_item :=
  let cs := filter (fun c => negb (Ascii.eqb c " "%char)) (String.list_ascii_of_string s) in
  map parse_item (split_top 0 [] cs).

(** ** Tables and the reference evaluator *)

(** Tables by name, each a list of rows (dicts) in insertion order. *)
Definition tables := list (string * list pyval).

(** A many-to-one foreign key: [fk_col] of [fk_from] references
    [fk_ref] of [fk_to]. *)
Record foreign_key : Type := mkFK {
  fk_from : string; fk_col : string; fk_to : string; fk_ref : string
}.

Definition schema := list foreign_key.

Fixpoint table_rows (name : string) (ts : tables) : option (list pyval) :=
  match ts with
  | [] => None
  | (n, rows) :: ts' => if String.eqb name n then Some rows else table_rows name ts'
  end.

(** The value of a column; a column the row lacks reads as NULL. *)
Definition col (row : pyval) (c : string) : pyval :=
  match row with
  | PDict kvs => match dict_lookup c kvs with Some v => v | None => PNone end
  | _ => PNone
  end.

(** SQL equality on scalars: NULL equals nothing. *)
Definition sql_eqb (a b : pyval) : bool :=
  match a, b with
  | PBool x, PBool y => Bool.eqb x y
  | PInt x, PInt y => Z.eqb x y
  | PStr x, PStr y => String.eqb x y
  | _, _ => false
  end.

Definition matches (filters : list (string * pyval)) (row : pyval) : bool :=
  forallb (fun '(c, v) => sql_eqb (col row c) v) filters.

(** Sort order on column values; NULL sorts after every value, so that
    a descending order puts it first, as PostgreSQL does by default. *)
Definition rank (v : pyval) : nat :=
  match v with
  | PBool _ => 0 | PInt _ => 1 | PStr _ => 2 | PList _ | PDict _ => 3 | PNone => 4
  end.

Definition value_le (a b : pyval) : bool :=
  match a, b with
  | PBool x, PBool y => implb x y
  | PInt x, PInt y => Z.leb x y
  | PStr x, PStr y => String.leb x y
  | _, _ => Nat.leb (rank a) (rank b)
  end.

(** [row_before c desc a b]: [a] may come before [b] in [ORDER BY c]. *)
Definition row_before (c : string) (desc : bool) (a b : pyval) : Prop :=
  if desc then value_le (col b c) (col a c) = true else value_le (col a c) (col b c) = true.

#[export] Instance row_before_dec c desc : RelDecision (row_before c desc).
Proof. intros a b. unfold row_before. destruct desc; apply _. Defined.

Definition sort_rows (o : option (string * bool)) (rows : list pyval) : list pyval :=
  match o with
  | None => rows
  | Some (c, desc) => merge_sort (row_before c desc) rows
  end.

Fixpoint find_row (c : string) (v : pyval) (rows : list pyval) : option pyval :=
  match rows with
  | [] => None
  | r :: rows' => if sql_eqb (col r c) v then Some r else find_row c v rows'
  end.

Definition project_cols (cols : list string) (row : pyval) : pyval :=
  PDict (map (fun c => (c, col row c)) cols).

Fixpoint find_fk (from to : string) (sch : schema) : option foreign_key :=
  match sch with
  | [] => None
  | fk :: sch' =>
      if String.eqb (fk_from fk) from && String.eqb (fk_to fk) to then Some fk
      else find_fk from to sch'
  end.

(** The columns one select item contributes to one row. *)
Definition project_item (sch : schema) (ts : tables) (from : string) (row : pyval)
    (it : sel_item) : outcome exn (list (string * pyval)) :=
  match it with
  | SelStar => Ok (match row with PDict kvs => kvs | _ => [] end)
  | SelCol c => Ok [(c, col row c)]
  | SelEmbed rel cols =>
      match find_fk from rel sch, table_rows rel ts with
      | Some fk, Some target =>
          Ok [(rel, match find_row (fk_ref fk) (col row (fk_col fk)) target with
                    | Some r => project_cols cols r
                    | None => PNone
                    end)]
      | _, _ => Raise (APIError ("Could not find a relationship between '" ++ from
                                 ++ "' and '" ++ rel ++ "' in the schema cache"))
      end
  end.

Fixpoint project_items (sch : schema) (ts : tables) (from : string) (row : pyval)
    (its : list sel_item) : outcome exn (list (string * pyval)) :=
  match its with
  | [] => Ok []
  | it :: its' =>
      match project_item sch ts from row it, project_items sch ts from row its' with
      | Ok kvs, Ok kvs' => Ok (kvs ++ kvs')%list
      | Raise e, _ | _, Raise e => Raise e
      end
  end.

Fixpoint project_rows (sch : schema) (ts : tables) (from : string) (its : list sel_item)
    (rows : list pyval) : outcome exn (list pyval) :=
  match rows with
  | [] => Ok []
  | r :: rows' =>
      match project_items sch ts from r its, project_rows sch ts from its rows' with
      | Ok kvs, Ok out => Ok (PDict kvs :: out)
      | Raise e, _ | _, Raise e => Raise e
      end
  end.

(** PostgREST resolves every embedded relation while planning the request,
    before it reads a row. *)
Fixpoint check_items (sch : schema) (ts : tables) (from : string) (its : list sel_item)
  : option exn :=
  match its with
  | [] => None
  | SelEmbed rel _ :: its' =>
      match find_fk from rel sch, table_rows rel ts with
      | Some _, Some _ => check_items sch ts from its'
      | _, _ => Some (APIError ("Could not find a relationship between '" ++ from
                                ++ "' and '" ++ rel ++ "' in the schema cache"))
      end
  | _ :: its' => check_items sch ts from its'
  end.

(** The rows a select request returns: filter, order, project. *)
Definition eval_select (sch : schema) (ts : tables) (q : select_query) : outcome exn (list pyval) :=
  match table_rows (q_table q) ts with
  | None => Raise (APIError ("relation public." ++ q_table q ++ " does not exist"))
  | Some rows =>
      let its := parse_select (q_columns q) in
      match check_items sch ts (q_table q) its with
      | Some e => Raise e
      | None =>
          project_rows sch ts (q_table q) its
            (sort_rows (q_order q) (filter (fun r => matches (q_filters q) r = true) rows))
      end
  end.

(** ** Inserting rows *)

(** Append a row to the named table. *)
Fixpoint add_row (name : string) (r : pyval) (ts : tables) : tables :=
  match ts with
  | [] => []
  | (n, rows) :: ts' =>
      if String.eqb name n then (n, rows ++ [r])%list :: ts' else (n, rows) :: add_row name r ts'
  end.

(** ** Column types and the casts of an insert

    PostgREST inserts a JSON object with [json_to_recordset], which reads
    each value as its column's type: the text of a scalar goes through
    the type's input function ([int8in], [boolin]), NULL stays NULL. *)

Inductive coltype : Type := TText | TInt8 | TBool | TAny.

Definition int8_min : Z := - 2 ^ 63.
Definition int8_max : Z := 2 ^ 63 - 1.

Definition dq : string := String "034"%char EmptyString.

Definition string_of_Z (z : Z) : string := NilZero.string_of_int (Z.to_int z).

(** [int8in]: an optional sign, then decimal digits (blanks around the
    number are not modelled). *)
Definition parse_int8 (s : string) : option Z :=
  match s with
  | String c r =>
      if Ascii.eqb c "+" then Z.of_uint <$> NilZero.uint_of_string r
      else Z.of_int <$> NilZero.int_of_string s
  | EmptyString => None
  end.

Definition int8_of_text (s : string) : outcome exn pyval :=
  match parse_int8 s with
  | None => Raise (APIError ("invalid input syntax for type bigint: " ++ dq ++ s ++ dq))
  | Some z =>
      if Z.leb int8_min z && Z.leb z int8_max then Ok (PInt z)
      else Raise (APIError ("value " ++ dq ++ s ++ dq ++ " is out of range for type bigint"))
  end.

(** [boolin] on its lower-case spellings. *)
Definition bool_of_text (s : string) : outcome exn pyval :=
  if existsb (String.eqb s) ["t"; "true"; "y"; "yes"; "on"; "1"] then Ok (PBool true)
  else if existsb (String.eqb s) ["f"; "false"; "n"; "no"; "off"; "0"] then Ok (PBool false)
  else Raise (APIError ("invalid input syntax for type boolean: " ++ dq ++ s ++ dq)).

(** The text of a scalar JSON value. *)
Definition json_text (v : pyval) : option string :=
  match v with
  | PStr s => Some s
  | PInt z => Some (string_of_Z z)
  | PBool b => Some (if b then "true" else "false")
  | _ => None
  end.

Definition cast (ty : coltype) (v : pyval) : outcome exn pyval :=
  match ty, v with
  | TAny, _ | _, PNone => Ok v
  | _, _ =>
      match json_text v with
      | None => Raise (APIError "cannot cast a JSON array or object to a scalar column")
      | Some s =>
          match ty with
          | TText => Ok (PStr s)
          | TInt8 => int8_of_text s
          | TBool => bool_of_text s
          | TAny => Ok v
          end
      end
  end.

(** The column types of the project's tables: [categories.id] is a
    [bigint] identity and [contents.category_id] references it; the
    approval flag is a boolean; [created_at] is left to the clock of the
    model; every other column is text. *)
Definition column_type (t c : string) : coltype :=
  if String.eqb t "contents" then
    if String.eqb c "id" || String.eqb c "category_id" then TInt8
    else if String.eqb c "is_approved" then TBool
    else if String.eqb c "created_at" then TAny
    else TText
  else if String.eqb t "categories" then
    if String.eqb c "id" then TInt8 else TText
  else TAny.

(** Each value of an inserted object cast to its column; the first
    failure aborts the insert. *)
Fixpoint cast_kvs (t : string) (kvs : list (string * pyval)) : outcome exn (list (string * pyval)) :=
  match kvs with
  | [] => Ok []
  | (k, v) :: kvs' =>
      match cast (column_type t k) v, cast_kvs t kvs' with
      | Ok v', Ok kvs'' => Ok ((k, v') :: kvs'')
      | Raise e, _ | _, Raise e => Raise e
      end
  end.

(** [row'] is what the database stores for [row]: every column [row]
    gives, cast to its type (the database may add its defaults). *)
Definition stored (t : string) (row' row : pyval) : Prop :=
  exists kvs, row = PDict kvs /\
    forall k v, dict_lookup k kvs = Some v -> cast (column_type t k) v = Ok (col row' k).

(** The foreign keys of [sch] a row of [t] breaks: a non-null value that
    no row of the referenced table holds. *)
Definition fk_violates (sch : schema) (ts : tables) (t : string) (row : pyval) : bool :=
  existsb (fun fk =>
             String.eqb (fk_from fk) t &&
             match col row (fk_col fk) with
             | PNone => false
             | v => match table_rows (fk_to fk) ts with
                    | Some target => negb (existsb (fun r => sql_eqb (col r (fk_ref fk)) v) target)
                    | None => true
                    end
             end) sch.

(** The exceptions a client call raises are its own ([APIError], the
    transport's errors), never a Werkzeug [HTTPException]. *)
Definition client_error (e : exn) : Prop :=
  match e with HTTPException _ => False | _ => True end.

Lemma project_rows_error sch ts from its rows e :
  project_rows sch ts from its rows = Raise e -> client_error e.
Proof.
  assert (Hit : forall row it e, project_item sch ts from row it = Raise e -> client_error e).
  { intros row [| |rel cols] e'; simpl; [discriminate..|].
    destruct (find_fk from rel sch), (table_rows rel ts); by intros [= <-]. }
  assert (Hits : forall row its e, project_items sch ts from row its = Raise e -> client_error e).
  { intros row its'. induction its' as [|it its' IH]; intros e'; simpl; [discriminate|].
    destruct (project_item _ _ _ _ it) eqn:E1, (project_items _ _ _ _ its');
      intros [= <-]; eauto. }
  induction rows as [|r rows IH]; simpl; [discriminate|].
  destruct (project_items _ _ _ _ its) eqn:E1, (project_rows _ _ _ _ rows); intros [= <-]; eauto.
Qed.

Lemma check_items_error sch ts from its e : check_items sch ts from its = Some e -> client_error e.
Proof.
  induction its as [|[| |rel cols] its IH]; simpl; try done.
  destruct (find_fk from rel sch), (table_rows rel ts); [apply IH | by intros [= <-]..].
Qed.

Lemma eval_select_error sch ts q e : eval_select sch ts q = Raise e -> client_error e.
Proof.
  unfold eval_select. destruct (table_rows _ _); [|by intros [= <-]].
  destruct (check_items _ _ _ _) eqn:E; [intros [= <-]; by eapply check_items_error|].
  apply project_rows_error.
Qed.

(** ** The interface the handlers rely on *)

Class Datastore (D : Type) := {
  ds_schema : schema;
  ds_tables : D -> tables;
  ds_execute : select_query -> D -> outcome exn (list pyval) * D;
  ds_insert : string -> pyval -> D -> outcome exn (list pyval) * D
}.

(** A select returns what the reference evaluator computes on the
    current tables, or fails; it never changes the tables.  An insert
    either adds to an existing table one row that stores the given one
    and keeps the foreign keys, and returns it, or fails and changes
    nothing. *)
Class DatastoreLaws (D : Type) `{!Datastore D} : Prop := {
  ds_execute_ok q d rows d' :
    ds_execute q d = (Ok rows, d') -> eval_select ds_schema (ds_tables d) q = Ok rows;
  ds_execute_tables q d o d' :
    ds_execute q d = (o, d') -> ds_tables d' = ds_tables d;
  ds_insert_ok t row d rows d' :
    ds_insert t row d = (Ok rows, d') ->
    exists row', rows = [row'] /\ stored t row' row /\
      fk_violates ds_schema (ds_tables d) t row' = false /\
      is_Some (table_rows t (ds_tables d)) /\ ds_tables d' = add_row t row' (ds_tables d);
  ds_insert_raise t row d e d' :
    ds_insert t row d = (Raise e, d') -> ds_tables d' = ds_tables d;
  ds_execute_error q d e d' :
    ds_execute q d = (Raise e, d') -> client_error e
}.

(** ** An in-memory PostgREST *)

Record memdb : Type := mkMemDB {
  md_tables : tables;
  md_online : bool;                        (** the network reaches the database *)
  md_next_id : Z;                          (** the identity sequence *)
  md_clock : Z;                            (** [now()] *)
  md_unique : list (string * string)       (** unique constraints (table, column) *)
}.

(** A column default: kept when the row gives the column. *)
Definition with_default (k : string) (v : pyval) (kvs : list (string * pyval)) :=
  match dict_lookup k kvs with Some _ => kvs | None => (kvs ++ [(k, v)])%list end.

Definition violates (uniq : list (string * string)) (t : string) (r : pyval) (rows : list pyval) : bool :=
  existsb (fun '(t', c) =>
             String.eqb t t' && existsb (fun r0 => sql_eqb (col r0 c) (col r c)) rows) uniq.

Definition offline_error : exn := ConnectionError "[Errno 101] Network is unreachable".

Definition app_schema : schema := [mkFK "contents" "category_id" "categories" "id"].

Definition mem_execute (q : select_query) (db : memdb) : outcome exn (list pyval) * memdb :=
  if md_online db then (eval_select app_schema (md_tables db) q, db) else (Raise offline_error, db).

Definition fk_error (t : string) : exn :=
  APIError ("insert or update on table " ++ dq ++ t ++ dq ++ " violates foreign key constraint").

(** The row the database stores: the cast values, then the defaults of
    [created_at] and [id]. *)
Definition mem_row (db : memdb) (kvs : list (string * pyval)) : pyval :=
  PDict (with_default "id" (PInt (md_next_id db)) (with_default "created_at" (PInt (md_clock db)) kvs)).

(** The values are cast before the row is formed, so a failed cast
    leaves the sequence alone; the identity sequence advances even when
    a constraint then fails, as a PostgreSQL sequence does.  The unique
    constraints are checked when the row is stored, the foreign keys at
    the end of the statement. *)
Definition mem_insert (t : string) (row : pyval) (db : memdb) : outcome exn (list pyval) * memdb :=
  if negb (md_online db) then (Raise offline_error, db) else
  match row, table_rows t (md_tables db) with
  | PDict kvs, Some rows =>
      match cast_kvs t kvs with
      | Raise e => (Raise e, db)
      | Ok kvs' =>
          let row' := mem_row db kvs' in
          let db1 := mkMemDB (md_tables db) true (md_next_id db + 1) (md_clock db) (md_unique db) in
          if violates (md_unique db) t row' rows
          then (Raise (APIError "duplicate key value violates unique constraint"), db1)
          else if fk_violates app_schema (md_tables db) t row' then (Raise (fk_error t), db1)
          else (Ok [row'], mkMemDB (add_row t row' (md_tables db)) true
                                  (md_next_id db + 1) (md_clock db + 1) (md_unique db))
      end
  | PDict _, None => (Raise (APIError ("relation public." ++ t ++ " does not exist")), db)
  | _, _ => (Raise (APIError "Could not parse the request body"), db)
  end.

#[export] Instance memdb_datastore : Datastore memdb := {
  ds_schema := app_schema;
  ds_tables := md_tables;
  ds_execute := mem_execute;
  ds_insert := mem_insert
}.

(** ** Lemmas on tables and rows *)

Lemma with_default_lookup k k' v v' kvs :
  dict_lookup k kvs = Some v -> dict_lookup k (with_default k' v' kvs) = Some v.
Proof.
  intros H. unfold with_default. destruct (dict_lookup k' kvs); [done|].
  by rewrite dict_lookup_app, H.
Qed.

Lemma table_rows_add_row t t' r ts :
  table_rows t' (add_row t r ts) =
  if String.eqb t' t then (fun rows => (rows ++ [r])%list) <$> table_rows t' ts
  else table_rows t' ts.
Proof.
  induction ts as [|[n rows] ts IH]; simpl; [by destruct (String.eqb t' t)|].
  destruct (String.eqb_spec t n) as [->|Hn]; simpl.
  - destruct (String.eqb_spec t' n); simpl; done.
  - destruct (String.eqb_spec t' n) as [->|]; simpl; [|done].
    destruct (String.eqb_spec n t); [congruence|done].
Qed.

Lemma sql_eqb_sym a b : sql_eqb a b = sql_eqb b a.
Proof.
  destruct a, b; simpl; try done.
  - by destruct b, b0. - apply Z.eqb_sym. - apply String.eqb_sym.
Qed.

Lemma sql_eqb_true a b : sql_eqb a b = true -> a = b /\ a <> PNone.
Proof.
  destruct a, b; simpl; try discriminate.
  - intros ->%Bool.eqb_prop. done.
  - intros ->%Z.eqb_eq. done.
  - intros ->%String.eqb_eq. done.
Qed.

#[export] Hint Rewrite table_rows_add_row : app_rw.

(** ** The in-memory model implements the interface *)

Lemma mem_insert_cases t row db o db' :
  mem_insert t row db = (o, db') ->
  (exists e, o = Raise e /\ md_tables db' = md_tables db /\ md_unique db' = md_unique db) \/
  exists kvs kvs' rows, md_online db = true /\ row = PDict kvs /\
    table_rows t (md_tables db) = Some rows /\ cast_kvs t kvs = Ok kvs' /\
    violates (md_unique db) t (mem_row db kvs') rows = false /\
    fk_violates app_schema (md_tables db) t (mem_row db kvs') = false /\
    o = Ok [mem_row db kvs'] /\
    db' = mkMemDB (add_row t (mem_row db kvs') (md_tables db)) true
                  (md_next_id db + 1) (md_clock db + 1) (md_unique db).
Proof.
  unfold mem_insert. destruct (md_online db) eqn:Hon; cbn [negb]; [|intros [= <- <-]; left; eauto].
  destruct row as [| | | | |kvs]; try (intros [= <- <-]; left; eauto).
  destruct (table_rows t (md_tables db)) as [rows|] eqn:Ht; [|intros [= <- <-]; left; eauto].
  destruct (cast_kvs t kvs) as [kvs'|e] eqn:Hc; [|intros [= <- <-]; left; eauto].
  destruct (violates _ _ _ _) eqn:Hv; [intros [= <- <-]; left; eauto|].
  destruct (fk_violates app_schema (md_tables db) t (mem_row db kvs')) eqn:Hf;
    intros [= <- <-]; [left; eauto|].
  right. exists kvs, kvs', rows. done.
Qed.

Lemma cast_kvs_lookup t kvs kvs' k v :
  cast_kvs t kvs = Ok kvs' -> dict_lookup k kvs = Some v ->
  exists v', cast (column_type t k) v = Ok v' /\ dict_lookup k kvs' = Some v'.
Proof.
  revert kvs'. induction kvs as [|[k0 v0] kvs IH]; intros kvs'; simpl; [discriminate|].
  destruct (cast (column_type t k0) v0) as [v0'|e] eqn:Hc0, (cast_kvs t kvs) as [kvs''|e'];
    try discriminate. intros [= <-]. simpl.
  destruct (String.eqb_spec k k0) as [->|]; [intros [= <-]; eauto|]. eauto.
Qed.

(** The row [mem_insert] stores keeps every cast value. *)
Lemma mem_row_stored db t kvs kvs' :
  cast_kvs t kvs = Ok kvs' -> stored t (mem_row db kvs') (PDict kvs).
Proof.
  intros Hc. exists kvs. split; [done|]. intros k v Hk.
  destruct (cast_kvs_lookup _ _ _ _ _ Hc Hk) as (v' & -> & Hk'). simpl.
  by rewrite (with_default_lookup _ _ _ _ _ (with_default_lookup _ _ _ _ _ Hk')).
Qed.

#[export] Instance memdb_laws : DatastoreLaws memdb.
Proof.
  split; simpl.
  - intros q d rows d'. unfold mem_execute. destruct (md_online d); congruence.
  - intros q d o d'. unfold mem_execute. destruct (md_online d); congruence.
  - intros t row d rows d' Hi.
    destruct (mem_insert_cases _ _ _ _ _ Hi)
      as [(e & ? & _) | (kvs & kvs' & rows0 & _ & -> & Ht & Hc & Hv & Hf & Ho & ->)];
      [discriminate|].
    injection Ho as ->. eexists; split_and!; [done | by apply mem_row_stored | done | by rewrite Ht | done].
  - intros t row d e d' Hi.
    destruct (mem_insert_cases _ _ _ _ _ Hi)
      as [(e' & _ & Hsame & _) | (? & ? & ? & _ & _ & _ & _ & _ & _ & Ho & _)];
      [done | discriminate].
  - intros q d e d'. unfold mem_execute.
    destruct (md_online d); [intros [= He _]; by eapply eval_select_error | by intros [= <- _]].
Qed.

(** ** The model's invariant: unique constraints hold *)

(** No two rows of [rows] hold equal non-null values in column [c]. *)
Definition unique_col (c : string) (rows : list pyval) : Prop :=
  forall i j r1 r2, rows !! i = Some r1 -> rows !! j = Some r2 -> i <> j ->
    sql_eqb (col r1 c) (col r2 c) = false.

Definition memdb_inv (db : memdb) : Prop :=
  forall t c rows, In (t, c) (md_unique db) ->
    table_rows t (md_tables db) = Some rows -> unique_col c rows.

Lemma unique_col_snoc c rows r :
  unique_col c rows ->
  Forall (fun r0 => sql_eqb (col r0 c) (col r c) = false) rows ->
  unique_col c (rows ++ [r]).
Proof.
  intros Hu Hf i j r1 r2 Hi Hj Hij.
  apply lookup_app_Some in Hi as [Hi|[Hi1 Hi2]], Hj as [Hj|[Hj1 Hj2]].
  - eauto.
  - apply list_lookup_singleton_Some in Hj2 as [_ <-]. exact (Forall_lookup_1 _ _ _ _ Hf Hi).
  - apply list_lookup_singleton_Some in Hi2 as [_ <-]. rewrite sql_eqb_sym.
    exact (Forall_lookup_1 _ _ _ _ Hf Hj).
  - apply list_lookup_singleton_Some in Hi2 as [? _], Hj2 as [? _]. lia.
Qed.

Lemma violates_false uniq t r rows c :
  violates uniq t r rows = false -> In (t, c) uniq ->
  Forall (fun r0 => sql_eqb (col r0 c) (col r c) = false) rows.
Proof.
  unfold violates. intros Hv Hin. apply Forall_forall. intros r0 Hr0.
  destruct (sql_eqb _ _) eqn:E; [|done]. exfalso.
  apply Bool.not_true_iff_false in Hv. apply Hv, existsb_exists. exists (t, c).
  split; [done|]. rewrite String.eqb_refl. simpl. apply existsb_exists.
  exists r0. split; [by apply list_elem_of_In | done].
Qed.

(** [find_row] finds the first row that holds [v]. *)
Lemma find_row_existsb c v rows :
  existsb (fun r => sql_eqb (col r c) v) rows = true ->
  exists r, find_row c v rows = Some r /\ In r rows /\ sql_eqb (col r c) v = true.
Proof.
  induction rows as [|r rows IH]; simpl; [discriminate|].
  destruct (sql_eqb (col r c) v) eqn:E; simpl; [intros _; eauto|].
  intros (r' & ? & ? & ?)%IH. eauto.
Qed.

Lemma find_fk_Some from to sch fk :
  find_fk from to sch = Some fk -> In fk sch /\ fk_from fk = from /\ fk_to fk = to.
Proof.
  induction sch as [|fk' sch IH]; simpl; [discriminate|].
  destruct (String.eqb_spec (fk_from fk') from), (String.eqb_spec (fk_to fk') to); simpl;
    try (intros (? & ? & ?)%IH; eauto). intros [= <-]. auto.
Qed.

(** A row that keeps the foreign keys: for each key of its table, a
    NULL value or one the referenced table holds. *)
Lemma fk_violates_false sch ts t r fk :
  fk_violates sch ts t r = false -> In fk sch -> fk_from fk = t ->
  col r (fk_col fk) = PNone \/
  exists target, table_rows (fk_to fk) ts = Some target /\
    existsb (fun x => sql_eqb (col x (fk_ref fk)) (col r (fk_col fk))) target = true.
Proof.
  unfold fk_violates. intros Hf Hin Ht.
  assert (Hfk : (String.eqb (fk_from fk) t &&
                 match col r (fk_col fk) with
                 | PNone => false
                 | v => match table_rows (fk_to fk) ts with
                        | Some target => negb (existsb (fun x => sql_eqb (col x (fk_ref fk)) v) target)
                        | None => true
                        end
                 end) = false).
  { apply not_true_iff_false. intros Hx. apply not_true_iff_false in Hf. apply Hf, existsb_exists. eauto. }
  rewrite Ht, String.eqb_refl in Hfk. cbn [andb] in Hfk.
  destruct (col r (fk_col fk)); [by left|..]; right;
    destruct (table_rows (fk_to fk) ts) as [target|]; try discriminate;
    exists target; split; try done; by apply negb_false_iff.
Qed.

(** Appending a row keeps the foreign keys of every row. *)
Lemma fk_violates_add_row sch ts t t' row r :
  fk_violates sch ts t' r = false -> fk_violates sch (add_row t row ts) t' r = false.
Proof.
  unfold fk_violates. intros Hf. apply not_true_iff_false. intros (fk & Hin & Hex)%existsb_exists.
  apply not_true_iff_false in Hf. apply Hf, existsb_exists. exists fk. split; [done|].
  destruct (String.eqb (fk_from fk) t'); [|done]. simpl in Hex |- *.
  rewrite table_rows_add_row in Hex.
  destruct (col r (fk_col fk)); try done;
    destruct (String.eqb (fk_to fk) t), (table_rows (fk_to fk) ts) as [target|]; simpl in Hex |- *;
    try done; rewrite existsb_app in Hex; apply negb_true_iff, orb_false_iff in Hex as [-> _]; done.
Qed.

Lemma mem_execute_db q db o db' : mem_execute q db = (o, db') -> db' = db.
Proof. unfold mem_execute. destruct (md_online db); congruence. Qed.

(** ** Lemmas on the evaluator *)

Lemma value_le_total a b : value_le a b = true \/ value_le b a = true.
Proof.
  destruct a, b; simpl; auto.
  - destruct b, b0; auto.
  - destruct (Z.leb_spec z z0); [left|right; apply Z.leb_le]; auto; lia.
  - apply String.leb_total.
Qed.

#[export] Instance row_before_total c desc : Total (row_before c desc).
Proof. intros a b. unfold row_before. destruct desc; apply value_le_total. Qed.

Lemma sort_rows_Permutation o rows : sort_rows o rows ≡ₚ rows.
Proof. destruct o as [[c desc]|]; simpl; [apply merge_sort_Permutation | done]. Qed.

Lemma sort_rows_Sorted c desc rows :
  Sorted (row_before c desc) (sort_rows (Some (c, desc)) rows).
Proof. apply Sorted_merge_sort, _. Qed.

(** When every row projects successfully, [project_rows] is a map. *)
Lemma project_rows_map sch ts from its rows (f : pyval -> list (string * pyval)) :
  (forall r, In r rows -> project_items sch ts from r its = Ok (f r)) ->
  project_rows sch ts from its rows = Ok (map (fun r => PDict (f r)) rows).
Proof.
  induction rows as [|r rows IH]; intros Hf; simpl; [done|].
  rewrite (Hf r (or_introl eq_refl)), IH; [done|]. intros r' Hr'. apply Hf. by right.
Qed.

(** The value the many-to-one embedding [rel(cols)] gives a row. *)
Definition embed_value (fk : foreign_key) (target : list pyval) (cols : list string)
    (row : pyval) : pyval :=
  match find_row (fk_ref fk) (col row (fk_col fk)) target with
  | Some r => project_cols cols r
  | None => PNone
  end.

Definition row_kvs (row : pyval) : list (string * pyval) :=
  match row with PDict kvs => kvs | _ => [] end.

(** [select('*, rel(cols)')] on a table with a foreign key to [rel]: every
    row is returned with its columns and one more, [rel]. *)
Lemma project_star_embed sch ts from rel cols fk target rows :
  find_fk from rel sch = Some fk -> table_rows rel ts = Some target ->
  project_rows sch ts from [SelStar; SelEmbed rel cols] rows =
  Ok (map (fun r => PDict (row_kvs r ++ [(rel, embed_value fk target cols r)])%list) rows).
Proof.
  intros Hfk Ht. apply project_rows_map. intros r _. simpl. rewrite Hfk, Ht.
  by rewrite app_nil_r.
Qed.

Lemma project_star rows sch ts from :
  project_rows sch ts from [SelStar] rows = Ok (map (fun r => PDict (row_kvs r)) rows).
Proof. apply project_rows_map. intros r _. simpl. by rewrite app_nil_r. Qed.

(** The embedding adds a column without hiding the others. *)
Lemma col_embed row rel v c :
  c <> rel -> col (PDict (row_kvs row ++ [(rel, v)])%list) c = col row c.
Proof.
  intros Hne. destruct row as [| | | | |kvs]; simpl;
    rewrite ?dict_lookup_app; simpl; try by destruct (String.eqb_spec c rel).
  destruct (dict_lookup c kvs); [done|]. by destruct (String.eqb_spec c rel).
Qed.

#[export] Hint Resolve sort_rows_Permutation sort_rows_Sorted : app.

(** ** The content rows the handlers select

    Both read handlers select ['*, categories(name_bn)'] from [contents]:
    every column of the row and the category's name under [categories]. *)

Definition content_columns : string := "*, categories(name_bn)".

Lemma parse_content_columns :
  parse_select content_columns = [SelStar; SelEmbed "categories" ["name_bn"]].
Proof. reflexivity. Qed.

(** A content row as [select('*, categories(name_bn)')] returns it. *)
Definition with_category (fk : foreign_key) (cats : list pyval) (r : pyval) : pyval :=
  PDict (row_kvs r ++ [("categories", embed_value fk cats ["name_bn"] r)])%list.

Lemma with_category_col fk cats r c :
  c <> "categories" -> col (with_category fk cats r) c = col r c.
Proof. apply col_embed. Qed.

Lemma eval_content_select sch ts filters o rows :
  eval_select sch ts (mkSelect "contents" content_columns filters o) = Ok rows ->
  exists fk cats contents,
    table_rows "contents" ts = Some contents /\ table_rows "categories" ts = Some cats /\
    find_fk "contents" "categories" sch = Some fk /\
    rows = map (with_category fk cats)
             (sort_rows o (filter (fun r => matches filters r = true) contents)).
Proof.
  unfold eval_select. simpl q_table. simpl q_columns. rewrite parse_content_columns.
  destruct (table_rows "contents" ts) as [contents|]; [|discriminate].
  simpl check_items.
  destruct (find_fk "contents" "categories" sch) as [fk|] eqn:Hfk; [|discriminate].
  destruct (table_rows "categories" ts) as [cats|] eqn:Hc; [|discriminate].
  rewrite (project_star_embed _ _ _ _ _ fk cats); [|done..].
  intros [= <-]. exists fk, cats, contents. done.
Qed.

(** The content select succeeds when both tables and the foreign key
    exist. *)
Lemma eval_content_select_ok sch ts filters o fk cats contents :
  table_rows "contents" ts = Some contents -> table_rows "categories" ts = Some cats ->
  find_fk "contents" "categories" sch = Some fk ->
  eval_select sch ts (mkSelect "contents" content_columns filters o) =
    Ok (map (with_category fk cats) (sort_rows o (filter (fun r => matches filters r = true) contents))).
Proof.
  intros Hc Hk Hfk. unfold eval_select. simpl q_table. simpl q_columns.
  rewrite parse_content_columns, Hc. simpl check_items. rewrite Hfk, Hk.
  by rewrite (project_star_embed _ _ _ _ _ fk cats).
Qed.

(** The model's invariant is kept by every insert. *)
Lemma mem_insert_inv t row db o db' :
  memdb_inv db -> mem_insert t row db = (o, db') -> memdb_inv db'.
Proof.
  intros Hinv Hi.
  destruct (mem_insert_cases _ _ _ _ _ Hi)
    as [(e & _ & Ht & Hu) | (kvs & kvs' & rows & _ & -> & Ht & _ & Hv & _ & _ & ->)].
  - intros t' c rows'. rewrite Ht, Hu. apply Hinv.
  - intros t' c rows' Hin. simpl in Hin |- *. autorewrite with app_rw.
    destruct (String.eqb_spec t' t) as [->|]; [|by apply Hinv].
    rewrite Ht. intros [= <-]. apply unique_col_snoc; [by eapply Hinv | by eapply violates_false].
Qed.

(** Appending several rows to one table. *)
Definition add_rows (t : string) (rs : list pyval) (ts : tables) : tables :=
  fold_left (fun ts r => add_row t r ts) rs ts.

Lemma add_rows_snoc t rs r ts : add_rows t (rs ++ [r]) ts = add_row t r (add_rows t rs ts).
Proof. unfold add_rows. by rewrite fold_left_app. Qed.

Lemma table_rows_add_rows_ne t t' rs ts :
  t' <> t -> table_rows t' (add_rows t rs ts) = table_rows t' ts.
Proof.
  intros Hne. revert ts. induction rs as [|r rs IH]; intros ts; [done|]. simpl.
  rewrite IH. autorewrite with app_rw. by destruct (String.eqb_spec t' t).
Qed.

Lemma table_rows_add_rows_eq t rs ts :
  table_rows t (add_rows t rs ts) = (fun rows => (rows ++ rs)%list) <$> table_rows t ts.
Proof.
  revert ts. induction rs as [|r rs IH]; intros ts; simpl.
  - by destruct (table_rows t ts); simpl; rewrite ?app_nil_r.
  - rewrite IH, table_rows_add_row, String.eqb_refl.
    destruct (table_rows t ts); simpl; [by rewrite <- app_assoc|done].
Qed.
