(* ===== verification/ImageHost.v ===== *)
(** * The image host

    [upload_content] calls
    [requests.post(IMGBB_UPLOAD_URL, params={'key': IMGBB_API_KEY},
    files={'image': file.read()})] and then [imgbb_response.json()].  The
    endpoint is a third-party service; this file models what the handler
    sees of it: an HTTP response (status code and a body that is JSON or
    not), the [ImageHost] interface ([post] with the state of the host),
    the encoding of [params] by [requests] (a [None] value is left out
    of the query string), and an in-memory ImgBB that stores images and
    answers as the service documents: a success payload with [data.url]
    or a 400 error payload; when overloaded, a 503 page that is not JSON. *)

From stdpp Require Import pretty.
From S2P Require Import Prelude Python.
Open Scope string_scope.

Record http_response : Type := mkHttpResponse {
  status_code : Z;
  body : option pyval          (** [None]: the body is not JSON *)
}.

(** [response.json()] *)
Definition resp_json (r : http_response) : outcome exn pyval :=
  match body r with
  | Some v => Ok v
  | None => Raise (JSONDecodeError "Expecting value: line 1 column 1 (char 0)")
  end.

(** [requests] drops the parameters whose value is [None]. *)
Definition encode_params (params : list (string * option string)) : list (string * string) :=
  omap (fun '(k, o) => (fun v => (k, v)) <$> o) params.

Class ImageHost (H : Type) := {
  ih_images : H -> list (list Byte.byte);
  ih_post : string -> list (string * string) -> list Byte.byte -> H ->
            outcome exn http_response * H
}.

(** ** An in-memory ImgBB *)

(** Whether the service is reachable, answers normally, or answers with
    a gateway's HTML error page. *)
Inductive host_status : Type := HostUp | HostDown | HostOverloaded.

Record imgbb : Type := mkImgbb {
  ib_status : host_status;
  ib_keys : list string;                  (** the valid API keys *)
  ib_images : list (list Byte.byte)       (** stored images, oldest first *)
}.

Definition IMGBB_UPLOAD_URL : string := "https://api.imgbb.com/1/upload".

(** The public URL of the [n]-th stored image. *)
Definition image_url (n : nat) : string := "https://i.ibb.co/img" ++ pretty (N.of_nat n).

Definition imgbb_error (msg : string) (code : Z) : http_response :=
  mkHttpResponse 400 (Some (PDict [("status_code", PInt 400);
                                   ("error", PDict [("message", PStr msg); ("code", PInt code)]);
                                   ("status_txt", PStr "Bad Request")])).

Definition imgbb_success (n : nat) : http_response :=
  mkHttpResponse 200 (Some (PDict [("data", PDict [("id", PInt (Z.of_nat n));
                                                   ("url", PStr (image_url n))]);
                                   ("success", PBool true);
                                   ("status", PInt 200)])).

Fixpoint param_get (k : string) (ps : list (string * string)) : option string :=
  match ps with
  | [] => None
  | (k', v) :: ps' => if String.eqb k k' then Some v else param_get k ps'
  end.

Definition imgbb_post (url : string) (params : list (string * string)) (img : list Byte.byte)
    (h : imgbb) : outcome exn http_response * imgbb :=
  match ib_status h with
  | HostDown => (Raise (ConnectionError "Max retries exceeded with url: /1/upload"), h)
  | HostOverloaded => (Ok (mkHttpResponse 503 None), h)
  | HostUp =>
  if negb (String.eqb url IMGBB_UPLOAD_URL) then (Ok (mkHttpResponse 404 None), h)
  else match param_get "key" params with
  | None => (Ok (imgbb_error "Empty API v1 key." 100), h)
  | Some k =>
      if negb (existsb (String.eqb k) (ib_keys h)) then (Ok (imgbb_error "Invalid API v1 key." 100), h)
      else match img with
      | [] => (Ok (imgbb_error "Empty upload source." 130), h)
      | _ :: _ =>
          (Ok (imgbb_success (length (ib_images h))),
           mkImgbb (ib_status h) (ib_keys h) (ib_images h ++ [img])%list)
      end
  end
  end.

#[export] Instance imgbb_host : ImageHost imgbb := {
  ih_images := ib_images;
  ih_post := imgbb_post
}.

(** The host stores an image exactly when it answers with success. *)
Lemma imgbb_post_cases url ps img h o h' :
  imgbb_post url ps img h = (o, h') ->
  (h' = h /\ forall n, o <> Ok (imgbb_success n)) \/
  (o = Ok (imgbb_success (length (ib_images h))) /\
   ib_images h' = (ib_images h ++ [img])%list /\ img <> []).
Proof.
  unfold imgbb_post.
  assert (Hne : forall msg c n, imgbb_error msg c <> imgbb_success n) by (intros ??? [=]).
  destruct (ib_status h); simpl; [| intros [= <- <-]; left; split; [done|congruence]
                                 | intros [= <- <-]; left; split; [done|by intros ? [=]]].
  destruct (String.eqb url _); simpl; [|intros [= <- <-]; left; split; [done|by intros ? [=]]].
  destruct (param_get "key" ps) as [k|];
    [|intros [= <- <-]; left; split; [done|intros n [=]; by eapply Hne]].
  destruct (existsb _ _); simpl; [|intros [= <- <-]; left; split; [done|intros n [=]; by eapply Hne]].
  destruct img as [|b img]; [intros [= <- <-]; left; split; [done|intros n [=]; by eapply Hne]|].
  intros [= <- <-]. right. done.
Qed.

(** ** What the host promises *)

(** A post stores at most the posted image; an answer with status 200 and
    a true [success] means the image is stored. *)
Class ImageHostLaws (H : Type) `{!ImageHost H} : Prop := {
  ih_post_images url ps img h o h' :
    ih_post url ps img h = (o, h') ->
    ih_images h' = ih_images h \/ ih_images h' = (ih_images h ++ [img])%list;
  ih_post_success url ps img h r h' data s :
    ih_post url ps img h = (Ok r, h') -> status_code r = 200%Z -> body r = Some data ->
    getitem data "success" = Ok s -> truthy s = true ->
    ih_images h' = (ih_images h ++ [img])%list
}.

(** Only the success payload comes with status 200. *)
Lemma imgbb_post_200 url ps img h r h' :
  imgbb_post url ps img h = (Ok r, h') -> status_code r = 200%Z -> exists n, r = imgbb_success n.
Proof. unfold imgbb_post. repeat case_match; intros Hp Hs; simplify_eq/=; eauto. Qed.

#[export] Instance imgbb_laws : ImageHostLaws imgbb.
Proof.
  split; simpl.
  - intros url ps img h o h' Hp.
    destruct (imgbb_post_cases _ _ _ _ _ _ Hp) as [[-> _] | (_ & Hi & _)]; auto.
  - intros url ps img h r h' data s Hp Hs _ _ _.
    destruct (imgbb_post_200 _ _ _ _ _ _ Hp Hs) as [n ->].
    destruct (imgbb_post_cases _ _ _ _ _ _ Hp) as [[_ Hno] | (_ & Hi & _)]; [|done].
    by destruct (Hno n).
Qed.
