(* ===== verification/World.v ===== *)
(** * The state the handlers thread

    A request handler of [src/app.py] runs against: the database behind
    the process-wide [supabase] client, the image host behind [requests],
    the session's flashed messages and standard output.  This file
    gathers them in [world], fixes the configuration read at process
    start ([IMGBB_API_KEY]), and lifts each call the handlers make into
    the monad [AppM]: a client call changes its own component of the
    world and nothing else. *)

From S2P Require Import Prelude Python Web Datastore ImageHost.
Open Scope string_scope.

Record world (D H : Type) : Type := mkWorld {
  w_db : D;
  w_host : H;
  w_flashes : flashes;
  w_stdout : list string
}.
Arguments mkWorld {D H} _ _ _ _.
Arguments w_db {D H} _.
Arguments w_host {D H} _.
Arguments w_flashes {D H} _.
Arguments w_stdout {D H} _.

(** The configuration read once at process start: [os.getenv] gives
    [None] for an unset variable. *)
Record config : Type := mkConfig {
  IMGBB_API_KEY : option string
}.

Section Calls.
Context {D H : Type} `{!Datastore D} `{!ImageHost H}.

Definition AppM (A : Type) : Type := M exn (world D H) A.

Definition set_db (d : D) (w : world D H) : world D H :=
  mkWorld d (w_host w) (w_flashes w) (w_stdout w).
Definition set_host (h : H) (w : world D H) : world D H :=
  mkWorld (w_db w) h (w_flashes w) (w_stdout w).

(** [supabase.table(...)...execute()] for a select. *)
Definition db_execute (q : select_query) : AppM (list pyval) :=
  fun w => let '(o, d') := ds_execute q (w_db w) in (o, set_db d' w).

(** [supabase.table(t).insert(row).execute()] *)
Definition db_insert (t : string) (row : pyval) : AppM (list pyval) :=
  fun w => let '(o, d') := ds_insert t row (w_db w) in (o, set_db d' w).

(** [requests.post(url, params=params, files={'image': data})] *)
Definition http_post (url : string) (params : list (string * option string))
    (data : list Byte.byte) : AppM http_response :=
  fun w => let '(o, h') := ih_post url (encode_params params) data (w_host w) in
           (o, set_host h' w).

(** [flash(message, category)] *)
Definition flash (message category : string) : AppM unit :=
  modify (fun w => mkWorld (w_db w) (w_host w) (flash_msg message category (w_flashes w))
                           (w_stdout w)).

(** [print(s)] *)
Definition print (s : string) : AppM unit :=
  modify (fun w => mkWorld (w_db w) (w_host w) (w_flashes w) (w_stdout w ++ [s])%list).

(** [abort(code)] raises the HTTP exception Flask turns into a page. *)
Definition abort {A} (code : Z) : AppM A := raise (HTTPException code).

(** Lifting an outcome: a Python expression that may raise. *)
Definition lift {A} (o : outcome exn A) : AppM A :=
  match o with Ok a => m_ret a | Raise e => raise e end.

(** ** Running the calls *)

Lemma db_execute_run q w o d' :
  ds_execute q (w_db w) = (o, d') -> db_execute q w = (o, set_db d' w).
Proof. intros E. unfold db_execute. by rewrite E. Qed.

Lemma db_insert_run t row w o d' :
  ds_insert t row (w_db w) = (o, d') -> db_insert t row w = (o, set_db d' w).
Proof. intros E. unfold db_insert. by rewrite E. Qed.

Lemma http_post_run url ps data w o h' :
  ih_post url (encode_params ps) data (w_host w) = (o, h') ->
  http_post url ps data w = (o, set_host h' w).
Proof. intros E. unfold http_post. by rewrite E. Qed.

(** A call to the database leaves the host, the flashes and the output
    alone; a call to the host leaves the database alone. *)
Lemma db_execute_frame q w o w' :
  db_execute q w = (o, w') ->
  w_host w' = w_host w /\ w_flashes w' = w_flashes w /\ w_stdout w' = w_stdout w.
Proof. unfold db_execute. destruct (ds_execute q (w_db w)). by intros [= _ <-]. Qed.

Lemma http_post_frame url ps data w o w' :
  http_post url ps data w = (o, w') -> w_db w' = w_db w /\ w_flashes w' = w_flashes w.
Proof. unfold http_post. destruct (ih_post _ _ _ _). by intros [= _ <-]. Qed.
End Calls.

Arguments AppM D H A : clear implicits.

#[export] Hint Resolve db_execute_run db_insert_run http_post_run : app.

(** ** A concrete world, for the witnesses *)

Definition demo_tables : tables :=
  [("contents",
     [PDict [("id", PInt 1); ("title", PStr "Kobita"); ("slug", PStr "kobita");
             ("is_approved", PBool true); ("category_id", PInt 7); ("created_at", PInt 5)];
      PDict [("id", PInt 2); ("title", PStr "Draft"); ("slug", PStr "draft");
             ("is_approved", PBool false); ("category_id", PInt 8); ("created_at", PInt 6)];
      PDict [("id", PInt 3); ("title", PStr "Golpo"); ("slug", PStr "golpo");
             ("is_approved", PBool true); ("category_id", PNone); ("created_at", PInt 9)]]);
   ("categories", [PDict [("id", PInt 7); ("name_bn", PStr "kobita")];
                   PDict [("id", PInt 8); ("name_bn", PStr "golpo")]])].

Definition demo_db : memdb :=
  mkMemDB demo_tables true 10 100 [("contents", "id"); ("categories", "id")].

Definition demo_host : imgbb := mkImgbb HostUp ["k3y"] [].

Definition demo_world : world memdb imgbb := mkWorld demo_db demo_host [] [].

Definition demo_config : config := mkConfig (Some "k3y").

(** The same world with the database unreachable. *)
Definition offline_world : world memdb imgbb :=
  mkWorld (mkMemDB demo_tables false 10 100 [("contents", "id"); ("categories", "id")])
          demo_host [] [].
