(* ===== verification/Config.v ===== *)
(** * Process start: the environment, the secret key and the client handles

    [src/app.py], lines 7-20, run once when the module is imported:
    [load_dotenv()] copies the [.env] file into [os.environ] without
    overriding a variable already set; the secret key falls back to a
    literal; [create_client] builds the Supabase handle from
    [SUPABASE_URL] and [SUPABASE_KEY] and raises when either is missing
    or the URL is not an http(s) URL; [IMGBB_API_KEY] is read as is.
    Lines 99-101 start the development server when the file is run as a
    script.

    [os.environ] is a [gmap string string]; a [.env] file is the list of
    its assignments in file order (a line without [=] assigns [None]);
    [startup] is the import of the module, an outcome because
    [create_client] may raise. *)

From stdpp Require Import gmap.
From S2P Require Import Prelude Python World.
From Stdlib Require Import Ascii.
Open Scope string_scope.

(** [os.environ] *)
Abbreviation environ := (gmap string string).

(** A parsed [.env] file. *)
Abbreviation dotenv_file := (list (string * option string)).

(** [dotenv_values]: a later assignment of a key replaces an earlier one. *)
Definition dotenv_values (f : dotenv_file) : gmap string (option string) :=
  foldl (fun m kv => <[kv.1 := kv.2]> m) ∅ f.

(** [load_dotenv()] (line 8) with [override=False]: a key already in
    [os.environ] is skipped, a key assigned [None] is skipped, every other
    key is set.  [None] is the case where [find_dotenv] finds no file. *)
Definition load_dotenv (f : option dotenv_file) (env : environ) : environ :=
  match f with
  | None => env
  | Some f => env ∪ omap id (dotenv_values f)
  end.

(** [os.getenv(key)] and [os.getenv(key, default)]. *)
Definition getenv (k : string) (env : environ) : option string := env !! k.
Definition getenv_default (k d : string) (env : environ) : string :=
  default d (env !! k).

(** ** The Supabase client handle *)

Record supabase_client : Type := mkClient {
  client_url : string;
  client_key : string
}.

Fixpoint strip_prefix (p s : string) : option string :=
  match p, s with
  | EmptyString, _ => Some s
  | String a p', String b s' => if Ascii.eqb a b then strip_prefix p' s' else None
  | String _ _, EmptyString => None
  end.

(** [re.match(r"^(https?)://.+", url)]: the scheme, then at least one
    character that is not a newline. *)
Definition url_matches (u : string) : bool :=
  let rest_ok r := match r with
                   | String c _ => negb (Ascii.eqb c "010"%char)
                   | EmptyString => false
                   end in
  match strip_prefix "https://" u, strip_prefix "http://" u with
  | Some r, _ => rest_ok r
  | None, Some r => rest_ok r
  | None, None => false
  end.

(** [create_client(SUPABASE_URL, SUPABASE_KEY)] (line 16): [not x] is
    true of [None] and of the empty string.  The checks are those of the
    client's constructor; the releases that also match the key against
    the shape of a JWT (raising ["Invalid API key"]) are not modelled. *)
Definition create_client (url key : option string) : outcome exn supabase_client :=
  if negb (truthy (of_opt_str url)) then Raise (SupabaseException "supabase_url is required")
  else if negb (truthy (of_opt_str key)) then Raise (SupabaseException "supabase_key is required")
  else match url, key with
       | Some u, Some k =>
           if url_matches u then Ok (mkClient u k) else Raise (SupabaseException "Invalid URL")
       | _, _ => Raise (SupabaseException "supabase_url is required")
       end.

(** ** Importing the module *)

Definition FLASK_SECRET_KEY_DEFAULT : string := "sahityik_secret_key_2026".

(** What the module-level code leaves behind: [app.secret_key], the
    [supabase] handle, and the configuration the handlers read. *)
Record app_state : Type := mkAppState {
  secret_key : string;
  supabase : supabase_client;
  app_config : config
}.

(** Lines 8-20, in order. *)
Definition startup (f : option dotenv_file) (env0 : environ) : outcome exn app_state :=
  let env := load_dotenv f env0 in
  let secret := getenv_default "FLASK_SECRET_KEY" FLASK_SECRET_KEY_DEFAULT env in
  let SUPABASE_URL := getenv "SUPABASE_URL" env in
  let SUPABASE_KEY := getenv "SUPABASE_KEY" env in
  match create_client SUPABASE_URL SUPABASE_KEY with
  | Raise e => Raise e
  | Ok client => Ok (mkAppState secret client (mkConfig (getenv "IMGBB_API_KEY" env)))
  end.

(** ** The development server (lines 99-101) *)

Record run_options : Type := mkRunOptions { run_debug : bool; run_port : Z }.

(** [if __name__ == '__main__': app.run(debug=True, port=5000)]: the
    options of [app.run] when the file runs as a script, [None] when it is
    imported (by the managed dispatcher). *)
Definition main (name : string) : option run_options :=
  if String.eqb name "__main__" then Some (mkRunOptions true 5000) else None.

(** ** What [load_dotenv] leaves in the environment *)

(** The last assignment of [k] in a [.env] file. *)
Definition last_assignment (k : string) (f : dotenv_file) : option (option string) :=
  snd <$> last (filter (fun kv => kv.1 = k) f).

(** [dotenv_values] keeps the last assignment of each key. *)
Lemma dotenv_values_lookup f k : dotenv_values f !! k = last_assignment k f.
Proof.
  unfold dotenv_values, last_assignment. induction f as [|[k' v] f IH] using rev_ind; [done|].
  rewrite foldl_app, filter_app, filter_cons. simpl. rewrite filter_nil.
  case_decide as Hk; simpl.
  - subst k'. rewrite last_snoc, lookup_insert_eq. done.
  - rewrite app_nil_r, lookup_insert_ne by done. exact IH.
Qed.

(** A variable of the process environment wins over the file; otherwise
    the file's last assignment, unless it assigns [None]. *)
Lemma lookup_load_dotenv f env k :
  load_dotenv f env !! k =
    match env !! k with
    | Some v => Some v
    | None => match f with Some f => mjoin (last_assignment k f) | None => None end
    end.
Proof.
  destruct f as [f|]; simpl; [|by destruct (env !! k)].
  rewrite lookup_union, lookup_omap, dotenv_values_lookup.
  by destruct (env !! k), (last_assignment k f) as [[]|].
Qed.

Lemma create_client_ok url key c :
  create_client url key = Ok c <->
  exists u k, url = Some u /\ key = Some k /\ u <> "" /\ k <> "" /\ url_matches u = true /\
              c = mkClient u k.
Proof.
  unfold create_client.
  destruct url as [[|a u]|], key as [[|b k]|]; simpl; split;
    try (intros (? & ? & [= <-] & [= <-] & ? & ? & _); congruence); try discriminate.
  - destruct (url_matches _) eqn:Hu; [intros [= <-]|discriminate]. eauto 10.
  - intros (? & ? & [= <-] & [= <-] & _ & _ & -> & ->). reflexivity.
Qed.

(** ** Importing the module *)

(** C23: the import succeeds exactly when [SUPABASE_URL] and
    [SUPABASE_KEY] (process environment first, then the [.env] file) are
    non-empty and the URL is an http(s) URL; it then leaves the secret key
    of the environment or, when it is unset, the literal of line 11, the
    client built from the two values, and the ImgBB key as read. *)
Theorem startup_ok_iff f env0 st :
  startup f env0 = Ok st <->
  let env := load_dotenv f env0 in
  exists u k, getenv "SUPABASE_URL" env = Some u /\ getenv "SUPABASE_KEY" env = Some k /\
    u <> "" /\ k <> "" /\ url_matches u = true /\
    st = mkAppState (default FLASK_SECRET_KEY_DEFAULT (getenv "FLASK_SECRET_KEY" env))
                    (mkClient u k) (mkConfig (getenv "IMGBB_API_KEY" env)).
Proof.
  unfold startup, getenv_default. simpl.
  destruct (create_client _ _) as [c|e] eqn:Hc; split.
  - intros [= <-]. apply create_client_ok in Hc as (u & k & -> & -> & ? & ? & ? & ->). eauto 10.
  - intros (u & k & Hu & Hk & ? & ? & ? & ->). unfold getenv in *. rewrite Hu, Hk in Hc.
    assert (c = mkClient u k) as -> by (apply create_client_ok in Hc; naive_solver). done.
  - discriminate.
  - intros (u & k & Hu & Hk & ? & ? & ? & _). unfold getenv in *. rewrite Hu, Hk in Hc.
    assert (create_client (Some u) (Some k) = Ok (mkClient u k)) by (apply create_client_ok; eauto 10).
    congruence.
Qed.

(** C24: with [SUPABASE_URL] unset or empty after [load_dotenv], the
    import itself raises: the process never serves a request, rather
    than failing on the first use of the client. *)
Theorem startup_requires_supabase_url f env0 :
  getenv "SUPABASE_URL" (load_dotenv f env0) = None \/
  getenv "SUPABASE_URL" (load_dotenv f env0) = Some "" ->
  startup f env0 = Raise (SupabaseException "supabase_url is required").
Proof. unfold startup, create_client. by intros [-> | ->]. Qed.

Lemma startup_requires_supabase_url_witness :
  getenv "SUPABASE_URL" (load_dotenv (Some [("SUPABASE_KEY", Some "anon")]) ∅) = None /\
  startup (Some [("SUPABASE_KEY", Some "anon")]) ∅ =
    Raise (SupabaseException "supabase_url is required").
Proof.
  split; [reflexivity|].
  apply startup_requires_supabase_url. left. reflexivity.
Defined.
