(* ===== verification/Listing.v ===== *)
(** * The listing handler, [index] (route [/])

    [src/app.py], lines 24-34: query the approved contents with their
    category name, newest first; on any exception print it and use an
    empty list; render [index.html] with the rows.  The theorems show
    that the handler never raises, what it renders on each outcome of the
    query, and, against the [Datastore] interface, that the rows rendered
    are exactly the approved rows of the table, each joined with its
    category, in descending order of [created_at]. *)

From stdpp Require Import sorting.
From S2P Require Import Prelude Python Web Datastore ImageHost World.
Open Scope string_scope.

(** Line 28: the query chain of [index]. *)
Definition index_query : select_query :=
  Builder.order "created_at" true
    (Builder.eq "is_approved" (PBool true)
       (Builder.select "*, categories(name_bn)" (Builder.table "contents"))).

Section Index.
Context {D H : Type} `{!Datastore D} `{!ImageHost H}.

(** Lines 25-34. *)
Definition index : AppM D H response :=
  contents <- try_catch
                (response <- db_execute index_query ;; m_ret (PList response))
                (fun e => print ("Database Error: " ++ str_exn e) ;; m_ret (PList [])) ;;
  m_ret (Render "index.html" [("contents", contents)]).

(** The page [index] renders for a given list of rows. *)
Definition index_page (rows : list pyval) : response :=
  Render "index.html" [("contents", PList rows)].

Lemma index_query_ok w rows d' :
  ds_execute index_query (w_db w) = (Ok rows, d') ->
  index w = (Ok (index_page rows), set_db d' w).
Proof. intros E. unfold index, try_catch, m_bind. by rewrite (db_execute_run _ _ _ _ E). Qed.

Lemma index_query_error w e d' :
  ds_execute index_query (w_db w) = (Raise e, d') ->
  index w = (Ok (index_page []),
             mkWorld d' (w_host w) (w_flashes w)
                     (w_stdout w ++ [("Database Error: " ++ str_exn e)%string])%list).
Proof. intros E. unfold index, try_catch, m_bind. by rewrite (db_execute_run _ _ _ _ E). Qed.

(** The handler always renders the listing page. *)
Lemma index_ok w : exists rows w', index w = (Ok (index_page rows), w').
Proof.
  destruct (ds_execute index_query (w_db w)) as [[rows|e] d'] eqn:E.
  - eexists _, _. by apply index_query_ok.
  - eexists [], _. by apply index_query_error.
Qed.
End Index.

(** ** The listing the spec describes *)

(** A row is approved when its [is_approved] column is [True]. *)
Definition approved (r : pyval) : Prop := col r "is_approved" = PBool true.

#[export] Instance approved_dec r : Decision (approved r).
Proof.
  unfold approved. destruct (col r "is_approved") as [|[]| | | |];
    (left; done) || (right; discriminate).
Defined.

(** [rows] lists the approved rows of [contents], each with its category,
    and nothing else, newest first. *)
Definition listing (fk : foreign_key) (cats contents rows : list pyval) : Prop :=
  rows ≡ₚ map (with_category fk cats) (filter approved contents) /\
  Sorted (row_before "created_at" true) rows.

Lemma sql_eqb_approved r : sql_eqb (col r "is_approved") (PBool true) = true <-> approved r.
Proof.
  unfold approved. destruct (col r "is_approved") as [|[]| | | |]; simpl; split; congruence.
Qed.

(** The evaluation of [index_query]. *)
Lemma eval_index_query sch ts rows :
  eval_select sch ts index_query = Ok rows ->
  exists fk cats contents,
    table_rows "contents" ts = Some contents /\ table_rows "categories" ts = Some cats /\
    rows = map (with_category fk cats)
             (merge_sort (row_before "created_at" true) (filter approved contents)).
Proof.
  intros (fk & cats & contents & Hc & Hk & _ & ->)%eval_content_select.
  exists fk, cats, contents. do 2 (split; [done|]). simpl.
  f_equal. f_equal. apply list_filter_iff. intros r. rewrite andb_true_r. apply sql_eqb_approved.
Qed.

(** The rows [index_query] returns form the listing of the table. *)
Lemma eval_index_query_listing sch ts rows :
  eval_select sch ts index_query = Ok rows ->
  exists fk cats contents,
    table_rows "contents" ts = Some contents /\ table_rows "categories" ts = Some cats /\
    listing fk cats contents rows.
Proof.
  intros (fk & cats & contents & Hc & Hk & ->)%eval_index_query.
  exists fk, cats, contents. do 2 (split; [done|]). split.
  - apply Permutation_map, merge_sort_Permutation.
  - apply (Sorted_fmap _ (row_before "created_at" true)); [|apply Sorted_merge_sort, _].
    intros a b. unfold row_before. by rewrite !with_category_col.
Qed.

(** The listing query succeeds on every database with both tables and
    the foreign key. *)
Lemma eval_index_query_ok sch ts fk cats contents :
  table_rows "contents" ts = Some contents -> table_rows "categories" ts = Some cats ->
  find_fk "contents" "categories" sch = Some fk ->
  eval_select sch ts index_query =
    Ok (map (with_category fk cats) (merge_sort (row_before "created_at" true) (filter approved contents))).
Proof.
  intros Hc Hk Hfk.
  change index_query with
    (mkSelect "contents" content_columns [("is_approved", PBool true)] (Some ("created_at", true))).
  rewrite (eval_content_select_ok _ _ _ _ fk cats contents) by done. simpl.
  do 3 f_equal. apply list_filter_iff. intros r. rewrite andb_true_r. apply sql_eqb_approved.
Qed.

Section IndexTheorems.
Context {D H : Type} `{!Datastore D} `{!DatastoreLaws D} `{!ImageHost H}.

(** C3: when the database answers the listing query, [index] renders
    exactly the approved rows of [contents], each joined with its
    category, and nothing else, in descending order of [created_at]. *)
Theorem index_lists_approved_rows (w : world D H) rows d' :
  ds_execute index_query (w_db w) = (Ok rows, d') ->
  exists fk cats contents,
    table_rows "contents" (ds_tables (w_db w)) = Some contents /\
    table_rows "categories" (ds_tables (w_db w)) = Some cats /\
    fst (index w) = Ok (index_page rows) /\ listing fk cats contents rows.
Proof.
  intros E.
  destruct (eval_index_query_listing _ _ _ (ds_execute_ok _ _ _ _ E))
    as (fk & cats & contents & Hc & Hk & Hl).
  exists fk, cats, contents. by rewrite (index_query_ok _ _ _ E).
Qed.

(** C14: when the listing query raises, [index] still renders the page,
    with no rows, and the only other effect is the line
    ["Database Error: " ++ str(e)] on standard output. *)
Theorem index_db_error_empty (w : world D H) e d' :
  ds_execute index_query (w_db w) = (Raise e, d') ->
  index w = (Ok (index_page []),
             mkWorld d' (w_host w) (w_flashes w)
                     (w_stdout w ++ [("Database Error: " ++ str_exn e)%string])%list) /\
  ds_tables d' = ds_tables (w_db w).
Proof.
  intros E. split; [by apply index_query_error|]. exact (ds_execute_tables _ _ _ _ E).
Qed.

(** C15: [index] never raises: whatever the database does, a page is
    rendered, and the database's tables are unchanged. *)
Theorem index_total (w : world D H) :
  exists rows w', index w = (Ok (index_page rows), w') /\
                  ds_tables (w_db w') = ds_tables (w_db w).
Proof.
  destruct (ds_execute index_query (w_db w)) as [[rows|e] d'] eqn:E.
  - exists rows, (set_db d' w). split; [by apply index_query_ok|].
    exact (ds_execute_tables _ _ _ _ E).
  - eexists [], _. split; [by apply index_query_error|].
    exact (ds_execute_tables _ _ _ _ E).
Qed.
End IndexTheorems.

(** The witness runs the listing on the demo world: the approved rows 3
    and 1, newest first; the draft is left out. *)
Lemma index_lists_approved_rows_witness :
  exists fk cats contents,
    table_rows "contents" (ds_tables (w_db demo_world)) = Some contents /\
    table_rows "categories" (ds_tables (w_db demo_world)) = Some cats /\
    fst (index demo_world) =
      Ok (index_page (match eval_select app_schema demo_tables index_query with
                      | Ok rows => rows | Raise _ => [] end)) /\
    listing fk cats contents (match eval_select app_schema demo_tables index_query with
                              | Ok rows => rows | Raise _ => [] end).
Proof. apply (index_lists_approved_rows demo_world _ demo_db). vm_compute. reflexivity. Defined.

Lemma index_db_error_empty_witness :
  index offline_world =
    (Ok (index_page []),
     mkWorld (w_db offline_world) (w_host offline_world) (w_flashes offline_world)
             (w_stdout offline_world ++ [("Database Error: " ++ str_exn offline_error)%string])%list) /\
  ds_tables (w_db offline_world) = ds_tables (w_db offline_world).
Proof. apply (index_db_error_empty offline_world offline_error (w_db offline_world)). reflexivity. Defined.

Lemma index_total_witness :
  exists rows w', index demo_world = (Ok (index_page rows), w') /\
                  ds_tables (w_db w') = ds_tables (w_db demo_world).
Proof. apply index_total. Defined.
