(* ===== verification/Detail.v ===== *)
(** * The detail handler, [single_content] (route [/content/<slug>])

    [src/app.py], lines 37-44: select the content rows whose [slug] is
    the path segment, with their category name; abort with 404 when there
    is none; otherwise render [single.html] with the first.  The query
    sits outside any [try]: a database error propagates to Flask.  The
    theorems give each branch against the [Datastore] interface; the
    row rendered is the first with the slug, whether approved or not
    (the handler does not look at [is_approved]). *)

From S2P Require Import Prelude Python Web Datastore ImageHost World.
Open Scope string_scope.

(** Line 40: the query chain of [single_content]. *)
Definition detail_query (slug : string) : select_query :=
  Builder.eq "slug" (PStr slug)
    (Builder.select "*, categories(name_bn)" (Builder.table "contents")).

Section SingleContent.
Context {D H : Type} `{!Datastore D} `{!ImageHost H}.

(** Lines 38-44. [if not response.data: abort(404)], then
    [response.data[0]]. *)
Definition single_content (slug : string) : AppM D H response :=
  response <- db_execute (detail_query slug) ;;
  if negb (truthy (PList response)) then abort 404
  else match response with
       | content :: _ => m_ret (Render "single.html" [("content", content)])
       | [] => raise (IndexError "list index out of range")
       end.

Lemma single_content_rows slug w rows d' :
  ds_execute (detail_query slug) (w_db w) = (Ok rows, d') ->
  single_content slug w =
    (match rows with
     | [] => Raise (HTTPException 404)
     | content :: _ => Ok (Render "single.html" [("content", content)])
     end, set_db d' w).
Proof.
  intros E. unfold single_content, m_bind. rewrite (db_execute_run _ _ _ _ E).
  by destruct rows.
Qed.
End SingleContent.

(** A row has slug [s]. *)
Definition has_slug (s : string) (r : pyval) : Prop := col r "slug" = PStr s.

#[export] Instance has_slug_dec s r : Decision (has_slug s r).
Proof.
  unfold has_slug. destruct (col r "slug") as [| | |s'| |];
    try (right; discriminate). destruct (decide (s' = s)) as [->|Hne]; [by left|].
  right. congruence.
Defined.

Lemma sql_eqb_slug s r : sql_eqb (col r "slug") (PStr s) = true <-> has_slug s r.
Proof.
  unfold has_slug. destruct (col r "slug"); simpl; try (split; congruence).
  rewrite String.eqb_eq. split; congruence.
Qed.

(** The evaluation of [detail_query]: the rows with the slug, in table
    order, each with its category. *)
Lemma eval_detail_query sch ts s rows :
  eval_select sch ts (detail_query s) = Ok rows ->
  exists fk cats contents,
    table_rows "contents" ts = Some contents /\ table_rows "categories" ts = Some cats /\
    rows = map (with_category fk cats) (filter (has_slug s) contents).
Proof.
  intros (fk & cats & contents & Hc & Hk & _ & ->)%eval_content_select.
  exists fk, cats, contents. do 2 (split; [done|]). simpl.
  f_equal. apply list_filter_iff. intros r. rewrite andb_true_r. apply sql_eqb_slug.
Qed.

(** The detail query succeeds on every database with both tables and
    the foreign key. *)
Lemma eval_detail_query_ok sch ts s fk cats contents :
  table_rows "contents" ts = Some contents -> table_rows "categories" ts = Some cats ->
  find_fk "contents" "categories" sch = Some fk ->
  eval_select sch ts (detail_query s) = Ok (map (with_category fk cats) (filter (has_slug s) contents)).
Proof.
  intros Hc Hk Hfk. change (detail_query s) with (mkSelect "contents" content_columns [("slug", PStr s)] None).
  rewrite (eval_content_select_ok _ _ _ _ fk cats contents) by done. simpl.
  do 2 f_equal. apply list_filter_iff. intros r. rewrite andb_true_r. apply sql_eqb_slug.
Qed.

Section SingleContentTheorems.
Context {D H : Type} `{!Datastore D} `{!DatastoreLaws D} `{!ImageHost H}.

(** C4: when the database answers, [single_content s] aborts with 404
    exactly when no row of [contents] has slug [s]. *)
Theorem single_content_404_iff (w : world D H) s rows d' contents :
  ds_execute (detail_query s) (w_db w) = (Ok rows, d') ->
  table_rows "contents" (ds_tables (w_db w)) = Some contents ->
  (fst (single_content s w) = Raise (HTTPException 404) <->
   Forall (fun r => ~ has_slug s r) contents).
Proof.
  intros E Hc. rewrite (single_content_rows _ _ _ _ E). simpl.
  destruct (eval_detail_query _ _ _ _ (ds_execute_ok _ _ _ _ E))
    as (fk & cats & contents' & Hc' & _ & ->).
  assert (contents' = contents) as -> by congruence.
  destruct (filter (has_slug s) contents) as [|p l] eqn:Ef; simpl.
  - split; [intros _ | done]. exact (proj1 (filter_nil_iff _ _) Ef).
  - split; [discriminate|]. intros Hn.
    assert (filter (has_slug s) contents = []) by exact (proj2 (filter_nil_iff _ _) Hn).
    congruence.
Qed.

(** C5: when a row of [contents] has slug [s], [single_content s]
    renders [single.html] with the first such row, in table order,
    joined with its category: every column of the row is shown as it is
    stored. *)
Theorem single_content_renders_first_match (w : world D H) s rows d' contents r rest :
  ds_execute (detail_query s) (w_db w) = (Ok rows, d') ->
  table_rows "contents" (ds_tables (w_db w)) = Some contents ->
  filter (has_slug s) contents = r :: rest ->
  exists fk cats,
    table_rows "categories" (ds_tables (w_db w)) = Some cats /\
    fst (single_content s w) = Ok (Render "single.html" [("content", with_category fk cats r)]) /\
    forall c, c <> "categories" -> col (with_category fk cats r) c = col r c.
Proof.
  intros E Hc Hf. rewrite (single_content_rows _ _ _ _ E).
  destruct (eval_detail_query _ _ _ _ (ds_execute_ok _ _ _ _ E))
    as (fk & cats & contents' & Hc' & Hk & ->).
  assert (contents' = contents) as -> by congruence. rewrite Hf.
  exists fk, cats. split; [done|]. split; [done|]. apply with_category_col.
Qed.

(** C28: the detail query is not guarded: when it raises, the exception
    leaves [single_content] unchanged, to Flask's error handling. *)
Theorem single_content_db_error (w : world D H) s e d' :
  ds_execute (detail_query s) (w_db w) = (Raise e, d') ->
  single_content s w = (Raise e, set_db d' w).
Proof.
  intros E. unfold single_content, m_bind. by rewrite (db_execute_run _ _ _ _ E).
Qed.
End SingleContentTheorems.

Lemma single_content_404_iff_witness :
  fst (single_content "missing" demo_world) = Raise (HTTPException 404) <->
  Forall (fun r => ~ has_slug "missing" r)
    (match table_rows "contents" demo_tables with Some c => c | None => [] end).
Proof.
  apply (single_content_404_iff demo_world "missing" [] demo_db); vm_compute; reflexivity.
Defined.

Lemma single_content_renders_first_match_witness :
  exists fk cats,
    table_rows "categories" (ds_tables (w_db demo_world)) = Some cats /\
    fst (single_content "golpo" demo_world) =
      Ok (Render "single.html"
            [("content", with_category fk cats
                           (PDict [("id", PInt 3); ("title", PStr "Golpo"); ("slug", PStr "golpo");
                                   ("is_approved", PBool true); ("category_id", PNone);
                                   ("created_at", PInt 9)]))]) /\
    forall c, c <> "categories" ->
      col (with_category fk cats
             (PDict [("id", PInt 3); ("title", PStr "Golpo"); ("slug", PStr "golpo");
                     ("is_approved", PBool true); ("category_id", PNone);
                     ("created_at", PInt 9)])) c =
      col (PDict [("id", PInt 3); ("title", PStr "Golpo"); ("slug", PStr "golpo");
                  ("is_approved", PBool true); ("category_id", PNone); ("created_at", PInt 9)]) c.
Proof.
  eapply (single_content_renders_first_match demo_world "golpo" _ demo_db
            (match table_rows "contents" demo_tables with Some c => c | None => [] end));
    vm_compute; reflexivity.
Defined.

Lemma single_content_db_error_witness :
  single_content "golpo" offline_world = (Raise offline_error, set_db (w_db offline_world) offline_world).
Proof. apply single_content_db_error. reflexivity. Defined.
