(* ===== verification/Upload.v ===== *)
(** * The upload handler, [upload_content] (route [/upload])

    [src/app.py], lines 47-96.  On GET: select every category and render
    [upload.html].  On POST: read the five form fields and the file; with
    no file (or a file with an empty name) flash a notice and redirect
    back; otherwise, inside one [try]: post the bytes to ImgBB, parse the
    response as JSON, and when the status is 200 and [success] is true
    take [data.url], insert a content row owned by ["DEFAULT_USER_ID"]
    with [is_approved = True], flash success and redirect to [/]; when
    the host refuses, flash the upload-problem notice and redirect back;
    any exception flashes its text and redirects back.

    The theorems give the handler's result on every branch, against the
    [Datastore] and [ImageHost] interfaces, show that a POST never
    raises, and that the handler refines the abstract contract
    [upload_spec] written from the spec's section 4.3. *)

From S2P Require Import Prelude Python Web Datastore ImageHost World.
Open Scope string_scope.

(** The notices the handler flashes (lines 58, 71, 87, 91). *)
Definition MSG_NO_FILE : string := "দয়া করে একটি ফাইল নির্বাচন করুন।".
Definition MSG_UPLOAD_PROBLEM : string := "ছবি আপলোডে সমস্যা হয়েছে।".
Definition MSG_SUCCESS : string := "কন্টেন্ট সফলভাবে আপলোড হয়েছে!".
Definition MSG_ERROR_PREFIX : string := "একটি ত্রুটি ঘটেছে: ".

(** Line 95: the category query of the form. *)
Definition categories_query : select_query := Builder.select "*" (Builder.table "categories").

(** Lines 75-84: the dict [new_content]. *)
Definition new_content (title description slug alt_text category_id file_url : pyval) : pyval :=
  PDict [("user_id", PStr "DEFAULT_USER_ID");
         ("title", title);
         ("description", description);
         ("slug", slug);
         ("alt_text", alt_text);
         ("category_id", category_id);
         ("file_url", file_url);
         ("is_approved", PBool true)].

(** Line 68: [imgbb_response.status_code == 200 and imgbb_data['success']];
    [and] evaluates the subscription only when the status is 200. *)
Definition upload_accepted (r : http_response) (imgbb_data : pyval) : outcome exn bool :=
  if Z.eqb (status_code r) 200 then
    match getitem imgbb_data "success" with
    | Ok s => Ok (truthy s)
    | Raise e => Raise e
    end
  else Ok false.

(** Line 69: [imgbb_data['data']['url']]. *)
Definition data_url (imgbb_data : pyval) : outcome exn pyval :=
  match getitem imgbb_data "data" with
  | Ok d => getitem d "url"
  | Raise e => Raise e
  end.

Section UploadContent.
Context {D H : Type} `{!Datastore D} `{!ImageHost H} (cfg : config).

(** Lines 62-92: the [try] block and its handler, for a file that is
    present.  [req] gives [request.url] and the form fields. *)
Definition submit (req : request) (file : FileStorage) : AppM D H response :=
  let title := form_get req "title" in
  let description := form_get req "description" in
  let slug := form_get req "slug" in
  let alt_text := form_get req "alt_text" in
  let category_id := form_get req "category_id" in
  try_catch
    (let payload := [("key", IMGBB_API_KEY cfg)] in
     let files := fs_data file in
     imgbb_response <- http_post IMGBB_UPLOAD_URL payload files ;;
     imgbb_data <- lift (resp_json imgbb_response) ;;
     accepted <- lift (upload_accepted imgbb_response imgbb_data) ;;
     if accepted then
       file_url <- lift (data_url imgbb_data) ;;
       db_insert "contents"
         (new_content title description slug alt_text category_id file_url) ;;
       flash MSG_SUCCESS "success" ;;
       m_ret (Redirect url_for_index)
     else
       flash MSG_UPLOAD_PROBLEM "error" ;;
       m_ret (Redirect (req_url req)))
    (fun e =>
       flash (MSG_ERROR_PREFIX ++ str_exn e) "error" ;;
       m_ret (Redirect (req_url req))).

(** Lines 48-96. *)
Definition upload_content (req : request) : AppM D H response :=
  if decide (req_method req = POST) then
    match file_present (md_get "file" (req_files req)) with
    | None =>
        flash MSG_NO_FILE "error" ;;
        m_ret (Redirect (req_url req))
    | Some file => submit req file
    end
  else
    categories <- db_execute categories_query ;;
    m_ret (Render "upload.html" [("categories", PList categories)]).
End UploadContent.

(** ** How the handler reads the host's answer *)

(** Lines 66-69 as one function: the URL when the host accepted the
    image, [None] when it refused, or the exception [.json()] or a
    subscription raises. *)
Definition host_verdict (r : http_response) : outcome exn (option pyval) :=
  match resp_json r with
  | Raise e => Raise e
  | Ok imgbb_data =>
      match upload_accepted r imgbb_data with
      | Raise e => Raise e
      | Ok false => Ok None
      | Ok true =>
          match data_url imgbb_data with
          | Ok u => Ok (Some u)
          | Raise e => Raise e
          end
      end
  end.

Section Run.
Context {D H : Type} `{!Datastore D} `{!ImageHost H} (cfg : config).

Definition flash_world (msg cat : string) (w : world D H) : world D H :=
  mkWorld (w_db w) (w_host w) (flash_msg msg cat (w_flashes w)) (w_stdout w).

(** The [except] branch, lines 90-92. *)
Definition error_exit (req : request) (e : exn) (w : world D H) : outcome exn response * world D H :=
  (Ok (Redirect (req_url req)), flash_world (MSG_ERROR_PREFIX ++ str_exn e) "error" w).

(** The row the handler inserts for a request and an image URL. *)
Definition row_of (req : request) (file_url : pyval) : pyval :=
  new_content (form_get req "title") (form_get req "description") (form_get req "slug")
              (form_get req "alt_text") (form_get req "category_id") file_url.

(** [submit] is decided by the host's answer, then by the insert. *)
Lemma submit_eq req file w :
  submit cfg req file w =
  let '(o, h') := ih_post IMGBB_UPLOAD_URL (encode_params [("key", IMGBB_API_KEY cfg)])
                          (fs_data file) (w_host w) in
  let w1 := set_host h' w in
  match o with
  | Raise e => error_exit req e w1
  | Ok r =>
      match host_verdict r with
      | Raise e => error_exit req e w1
      | Ok None => (Ok (Redirect (req_url req)), flash_world MSG_UPLOAD_PROBLEM "error" w1)
      | Ok (Some u) =>
          let '(o', d') := ds_insert "contents" (row_of req u) (w_db w1) in
          match o' with
          | Raise e => error_exit req e (set_db d' w1)
          | Ok _ => (Ok (Redirect url_for_index), flash_world MSG_SUCCESS "success" (set_db d' w1))
          end
      end
  end.
Proof.
  unfold submit, try_catch, m_bind, http_post.
  destruct (ih_post _ _ _ _) as [[r|e] h']; [|done]. simpl.
  unfold host_verdict. destruct (resp_json r) as [data|e]; [|done]. simpl.
  destruct (upload_accepted r data) as [[]|e]; simpl; [|done|done].
  destruct (data_url data) as [u|e]; [|done]. simpl.
  unfold db_insert. simpl. destruct (ds_insert _ _ _) as [[rows|e] d']; done.
Qed.
End Run.

(** ** The spec's contract for a submission (section 4.3 and 8.5-8.7) *)

(** The record a successful submission creates: the placeholder owner,
    approval, the host's URL and the form's values, as the database
    stores them: the text fields as sent, the URL as text and
    [category_id] read as a [bigint]. *)
Definition created_row (req : request) (u : pyval) (row : pyval) : Prop :=
  col row "user_id" = PStr "DEFAULT_USER_ID" /\ col row "is_approved" = PBool true /\
  cast TText u = Ok (col row "file_url") /\ col row "title" = form_get req "title" /\
  col row "description" = form_get req "description" /\ col row "slug" = form_get req "slug" /\
  col row "alt_text" = form_get req "alt_text" /\
  cast TInt8 (form_get req "category_id") = Ok (col row "category_id").

(** A form field is a string or [None]: a text column stores it as is. *)
Lemma cast_text_form req k : cast TText (form_get req k) = Ok (form_get req k).
Proof. unfold form_get. by destruct (md_get k (req_form req)). Qed.

Lemma stored_row_of req u row' : stored "contents" row' (row_of req u) -> created_row req u row'.
Proof.
  intros (kvs & Hrow & Hk).
  assert (Ht : forall k, column_type "contents" k = TText ->
                 dict_lookup k kvs = Some (form_get req k) -> col row' k = form_get req k).
  { intros k Hty Hl. pose proof (Hk _ _ Hl) as Hc. rewrite Hty, cast_text_form in Hc. congruence. }
  injection Hrow as <-. split_and!.
  - by injection (Hk "user_id" _ eq_refl).
  - by injection (Hk "is_approved" _ eq_refl).
  - exact (Hk "file_url" _ eq_refl).
  - by apply Ht.
  - by apply Ht.
  - by apply Ht.
  - by apply Ht.
  - exact (Hk "category_id" _ eq_refl).
Qed.

(** A host answer the spec calls a failure: a non-success status, or a
    JSON payload whose [success] is false. *)
Definition host_refusal (r : http_response) : Prop :=
  exists data, body r = Some data /\
    (status_code r <> 200%Z \/ exists s, getitem data "success" = Ok s /\ truthy s = false).

(** A host answer that accepts the image and gives its URL [u]. *)
Definition host_acceptance (r : http_response) (u : pyval) : Prop :=
  exists data s, status_code r = 200%Z /\ body r = Some data /\
    getitem data "success" = Ok s /\ truthy s = true /\ data_url data = Ok u.

Lemma host_verdict_refusal r : host_refusal r -> host_verdict r = Ok None.
Proof.
  intros (data & Hb & Hr). unfold host_verdict, resp_json, upload_accepted. rewrite Hb.
  destruct Hr as [Hs | (s & Hs & Ht)].
  - by rewrite (proj2 (Z.eqb_neq _ _) Hs).
  - rewrite Hs, Ht. by destruct (Z.eqb _ _).
Qed.

Lemma host_verdict_acceptance r u : host_acceptance r u -> host_verdict r = Ok (Some u).
Proof.
  intros (data & s & Hs & Hb & Hg & Ht & Hu). unfold host_verdict, resp_json, upload_accepted.
  by rewrite Hb, Hs, Hg, Ht, Hu.
Qed.

Section UploadTheorems.
Context {D H : Type} `{!Datastore D} `{!DatastoreLaws D} `{!ImageHost H} (cfg : config).

(** The host call the handler makes for a file. *)
Definition post_image (file : FileStorage) (h : H) : outcome exn http_response * H :=
  ih_post IMGBB_UPLOAD_URL (encode_params [("key", IMGBB_API_KEY cfg)]) (fs_data file) h.

Lemma upload_content_post req w file :
  req_method req = POST -> file_present (md_get "file" (req_files req)) = Some file ->
  upload_content cfg req w = submit cfg req file w.
Proof. intros Hm Hf. unfold upload_content. rewrite decide_True by done. by rewrite Hf. Qed.

(** C8: a submission without a file (none, or one with an empty file
    name) flashes the missing-file notice and redirects back to the
    form; the resulting world is the same for every database and image
    host, so neither is called. *)
Theorem upload_without_file (req : request) (w : world D H) :
  req_method req = POST -> file_present (md_get "file" (req_files req)) = None ->
  upload_content cfg req w = (Ok (Redirect (req_url req)), flash_world MSG_NO_FILE "error" w).
Proof. intros Hm Hf. unfold upload_content. rewrite decide_True by done. by rewrite Hf. Qed.

(** C7: when the image host refuses the file (a non-success status or a
    failure payload), nothing is inserted: the database is untouched,
    the upload-problem notice is flashed, and the response redirects
    back to the form. *)
Theorem upload_host_refusal (req : request) (w : world D H) file r h' :
  req_method req = POST -> file_present (md_get "file" (req_files req)) = Some file ->
  post_image file (w_host w) = (Ok r, h') -> host_refusal r ->
  upload_content cfg req w =
    (Ok (Redirect (req_url req)), flash_world MSG_UPLOAD_PROBLEM "error" (set_host h' w)) /\
  w_db (flash_world MSG_UPLOAD_PROBLEM "error" (set_host h' w)) = w_db w.
Proof.
  intros Hm Hf Hp Hr. rewrite (upload_content_post _ _ _ Hm Hf), submit_eq.
  unfold post_image in Hp. rewrite Hp. simpl. by rewrite (host_verdict_refusal _ Hr).
Qed.

(** C6: when the host accepts the file with URL [u] and the insert
    succeeds, exactly one row is added to [contents]; it is approved,
    owned by the placeholder user, has [file_url = u] and the form's
    values; the success notice is flashed and the response redirects to
    the listing. *)
Theorem upload_success (req : request) (w : world D H) file r h' u rows d' :
  req_method req = POST -> file_present (md_get "file" (req_files req)) = Some file ->
  post_image file (w_host w) = (Ok r, h') -> host_acceptance r u ->
  ds_insert "contents" (row_of req u) (w_db w) = (Ok rows, d') ->
  upload_content cfg req w =
    (Ok (Redirect "/"), flash_world MSG_SUCCESS "success" (set_db d' (set_host h' w))) /\
  exists row, ds_tables d' = add_row "contents" row (ds_tables (w_db w)) /\ created_row req u row.
Proof.
  intros Hm Hf Hp Ha Hi. rewrite (upload_content_post _ _ _ Hm Hf), submit_eq.
  unfold post_image in Hp. rewrite Hp. simpl. rewrite (host_verdict_acceptance _ _ Ha).
  simpl. rewrite Hi. split; [done|].
  destruct (ds_insert_ok _ _ _ _ _ Hi) as (row & _ & Hst & _ & _ & Ht).
  exists row. split; [done | by apply stored_row_of].
Qed.
End UploadTheorems.

Lemma host_verdict_None r : host_verdict r = Ok None -> host_refusal r.
Proof.
  unfold host_verdict, host_refusal, upload_accepted, resp_json. intros Hv.
  destruct (body r) as [data|]; [|discriminate].
  exists data. split; [done|].
  destruct (Z.eqb_spec (status_code r) 200) as [Hs|Hs]; [|by left].
  right. destruct (getitem data "success") as [s|e]; [|discriminate].
  exists s. split; [done|]. destruct (truthy s); [|done]. by destruct (data_url data).
Qed.

Lemma host_verdict_Some r u : host_verdict r = Ok (Some u) -> host_acceptance r u.
Proof.
  unfold host_verdict, host_acceptance, upload_accepted, resp_json. intros Hv.
  destruct (body r) as [data|] eqn:Hb; [|discriminate].
  destruct (Z.eqb_spec (status_code r) 200) as [Hs|Hs]; [|discriminate].
  destruct (getitem data "success") as [s|e] eqn:Hg; [|discriminate].
  destruct (truthy s) eqn:Ht; [|discriminate].
  destruct (data_url data) eqn:Hu; [|discriminate]. injection Hv as ->.
  exists data, s. done.
Qed.

(** The outcomes the spec distinguishes for a submission. *)
Inductive upload_outcome : Type :=
| NoFile
| HostRefused
| Failed (e : exn)
| Created (u row : pyval).

Section UploadRefinement.
Context {D H : Type} `{!Datastore D} `{!DatastoreLaws D} `{!ImageHost H} (cfg : config).

(** The abstract contract of a submission, written from the spec:
    what the response is, what the database, the host and the flashed
    notices become, for each outcome. *)
Definition upload_spec (req : request) (w : world D H) (out : upload_outcome)
    (resp : response) (w' : world D H) : Prop :=
  match out with
  | NoFile =>
      file_present (md_get "file" (req_files req)) = None /\
      resp = Redirect (req_url req) /\ w' = flash_world MSG_NO_FILE "error" w
  | HostRefused =>
      (exists file r, file_present (md_get "file" (req_files req)) = Some file /\
         post_image cfg file (w_host w) = (Ok r, w_host w') /\ host_refusal r) /\
      resp = Redirect (req_url req) /\ w_db w' = w_db w /\
      w_flashes w' = flash_msg MSG_UPLOAD_PROBLEM "error" (w_flashes w)
  | Failed e =>
      resp = Redirect (req_url req) /\ ds_tables (w_db w') = ds_tables (w_db w) /\
      w_flashes w' = flash_msg (MSG_ERROR_PREFIX ++ str_exn e) "error" (w_flashes w)
  | Created u row =>
      (exists file r, file_present (md_get "file" (req_files req)) = Some file /\
         post_image cfg file (w_host w) = (Ok r, w_host w') /\ host_verdict r = Ok (Some u)) /\
      resp = Redirect "/" /\ is_Some (table_rows "contents" (ds_tables (w_db w))) /\
      ds_tables (w_db w') = add_row "contents" row (ds_tables (w_db w)) /\
      created_row req u row /\ fk_violates ds_schema (ds_tables (w_db w)) "contents" row = false /\
      w_flashes w' = flash_msg MSG_SUCCESS "success" (w_flashes w)
  end.

(** Every POST ends in one of the contract's outcomes. *)
Lemma upload_post_cases (req : request) (w : world D H) :
  req_method req = POST ->
  exists out resp w', upload_content cfg req w = (Ok resp, w') /\ upload_spec req w out resp w'.
Proof.
  intros Hm. unfold upload_content. rewrite decide_True by done.
  destruct (file_present _) as [file|] eqn:Hf; [|exists NoFile; simpl; eauto 10].
  rewrite submit_eq. destruct (ih_post _ _ _ _) as [[r|e] h'] eqn:Hp;
    [|exists (Failed e); simpl; eauto 10].
  simpl. destruct (host_verdict r) as [[u|]|e] eqn:Hv;
    [| exists HostRefused; simpl; eauto 20 using host_verdict_None
     | exists (Failed e); simpl; eauto 10].
  destruct (ds_insert _ _ _) as [[rows|e] d'] eqn:Hi.
  - destruct (ds_insert_ok _ _ _ _ _ Hi) as (row & _ & Hst%stored_row_of & Hfk & Hsome & Ht).
    exists (Created u row). simpl. eauto 20.
  - exists (Failed e). simpl. eexists _, _. split; [done|].
    split; [done|]. split; [exact (ds_insert_raise _ _ _ _ _ Hi)|done].
Qed.

(** C2: refinement: on every POST, [upload_content] returns a response
    (it never raises) and its effect is one of the four outcomes of the
    abstract contract [upload_spec]. *)
Theorem upload_refines_spec (req : request) (w : world D H) :
  req_method req = POST ->
  exists out resp w', upload_content cfg req w = (Ok resp, w') /\ upload_spec req w out resp w'.
Proof. apply upload_post_cases. Qed.

(** C20: the handler reads the host's body as JSON before it looks at
    the status: a refusal whose body is not JSON (a non-200 page) is
    reported through the exception notice, not the upload-problem
    notice. *)
Theorem upload_non_json_refusal (req : request) (w : world D H) file r h' :
  req_method req = POST -> file_present (md_get "file" (req_files req)) = Some file ->
  post_image cfg file (w_host w) = (Ok r, h') -> status_code r <> 200%Z -> body r = None ->
  upload_content cfg req w =
    error_exit req (JSONDecodeError "Expecting value: line 1 column 1 (char 0)") (set_host h' w).
Proof.
  intros Hm Hf Hp _ Hb. rewrite (upload_content_post _ _ _ _ Hm Hf), submit_eq.
  unfold post_image in Hp. rewrite Hp. simpl. unfold host_verdict, resp_json. by rewrite Hb.
Qed.

(** C19: the host call and the insert are not atomic: when the host has
    accepted the image and the insert raises, the handler reports the
    exception, the database is unchanged, and the host keeps the state
    its acceptance left (the image stays hosted). *)
Theorem upload_insert_failure (req : request) (w : world D H) file r h' u e d' :
  req_method req = POST -> file_present (md_get "file" (req_files req)) = Some file ->
  post_image cfg file (w_host w) = (Ok r, h') -> host_acceptance r u ->
  ds_insert "contents" (row_of req u) (w_db w) = (Raise e, d') ->
  upload_content cfg req w = error_exit req e (set_db d' (set_host h' w)) /\
  ds_tables d' = ds_tables (w_db w).
Proof.
  intros Hm Hf Hp Ha Hi. rewrite (upload_content_post _ _ _ _ Hm Hf), submit_eq.
  unfold post_image in Hp. rewrite Hp. simpl. rewrite (host_verdict_acceptance _ _ Ha).
  simpl. rewrite Hi. split; [done|]. exact (ds_insert_raise _ _ _ _ _ Hi).
Qed.

(** The category query returns every category row, as stored. *)
Lemma eval_categories_query sch ts rows :
  eval_select sch ts categories_query = Ok rows ->
  exists cats, table_rows "categories" ts = Some cats /\ rows = map (fun r => PDict (row_kvs r)) cats.
Proof.
  unfold eval_select. simpl. destruct (table_rows "categories" ts) as [cats|]; [|discriminate].
  rewrite filter_all by done. rewrite project_star. intros [= <-]. eauto.
Qed.

(** C29: on a request other than POST, the handler renders the form with
    every row of [categories], as stored. *)
Theorem upload_form_lists_categories (req : request) (w : world D H) rows d' :
  req_method req <> POST -> ds_execute categories_query (w_db w) = (Ok rows, d') ->
  exists cats, table_rows "categories" (ds_tables (w_db w)) = Some cats /\
    rows = map (fun r => PDict (row_kvs r)) cats /\
    upload_content cfg req w = (Ok (Render "upload.html" [("categories", PList rows)]), set_db d' w).
Proof.
  intros Hm E.
  destruct (eval_categories_query _ _ _ (ds_execute_ok _ _ _ _ E)) as (cats & Hk & ->).
  exists cats. do 2 (split; [done|]).
  unfold upload_content. rewrite decide_False by done. unfold m_bind.
  by rewrite (db_execute_run _ _ _ _ E).
Qed.
End UploadRefinement.

(** ** Witnesses on concrete requests *)

Definition demo_file : FileStorage := mkFile "a.png" [Byte.x89; Byte.x50].

Definition post_req (slug : string) (files : list (string * FileStorage)) : request :=
  mkRequest POST "/upload" "http://localhost:5000/upload"
    [("title", "Notun"); ("description", "d"); ("slug", slug); ("alt_text", "a");
     ("category_id", "7")] files.

Definition get_req : request := mkRequest GET "/upload" "http://localhost:5000/upload" [] [].

Lemma upload_without_file_witness :
  upload_content demo_config (post_req "notun" [("file", mkFile "" [])]) demo_world =
    (Ok (Redirect (req_url (post_req "notun" [("file", mkFile "" [])]))),
     flash_world MSG_NO_FILE "error" demo_world).
Proof. apply upload_without_file; reflexivity. Defined.

(** An unset API key: [requests] leaves the parameter out, ImgBB answers
    400 with an error payload. *)
Lemma upload_host_refusal_witness :
  upload_content (mkConfig None) (post_req "notun" [("file", demo_file)]) demo_world =
    (Ok (Redirect (req_url (post_req "notun" [("file", demo_file)]))),
     flash_world MSG_UPLOAD_PROBLEM "error" (set_host demo_host demo_world)) /\
  w_db (flash_world MSG_UPLOAD_PROBLEM "error" (set_host demo_host demo_world)) = w_db demo_world.
Proof.
  apply (upload_host_refusal (mkConfig None) (post_req "notun" [("file", demo_file)]) demo_world
           demo_file (imgbb_error "Empty API v1 key." 100));
    try reflexivity.
  eexists. split; [reflexivity|]. left. discriminate.
Defined.

Lemma upload_success_witness :
  exists (h' : imgbb) (d' : memdb),
    upload_content demo_config (post_req "notun" [("file", demo_file)]) demo_world =
      (Ok (Redirect "/"), flash_world MSG_SUCCESS "success" (set_db d' (set_host h' demo_world))) /\
    exists row, ds_tables d' = add_row "contents" row (ds_tables (w_db demo_world)) /\
      created_row (post_req "notun" [("file", demo_file)]) (PStr (image_url 0)) row.
Proof.
  do 2 eexists.
  eapply (upload_success demo_config (post_req "notun" [("file", demo_file)]) demo_world
            demo_file (imgbb_success 0)); try reflexivity.
  do 2 eexists. repeat split; reflexivity.
Defined.

Lemma upload_refines_spec_witness :
  exists out resp w',
    upload_content demo_config (post_req "notun" [("file", demo_file)]) demo_world = (Ok resp, w') /\
    upload_spec demo_config (post_req "notun" [("file", demo_file)]) demo_world out resp w'.
Proof. apply upload_refines_spec. reflexivity. Defined.

Lemma upload_non_json_refusal_witness :
  upload_content demo_config (post_req "notun" [("file", demo_file)])
    (mkWorld demo_db (mkImgbb HostOverloaded ["k3y"] []) [] []) =
  error_exit (post_req "notun" [("file", demo_file)])
    (JSONDecodeError "Expecting value: line 1 column 1 (char 0)")
    (set_host (mkImgbb HostOverloaded ["k3y"] []) (mkWorld demo_db (mkImgbb HostOverloaded ["k3y"] []) [] [])).
Proof.
  apply (upload_non_json_refusal demo_config (post_req "notun" [("file", demo_file)])
           (mkWorld demo_db (mkImgbb HostOverloaded ["k3y"] []) [] []) demo_file (mkHttpResponse 503 None));
    try reflexivity; discriminate.
Defined.

(** A database with a unique constraint on [slug]: submitting an existing
    slug fails at the insert, after the host stored the image. *)
Definition unique_slug_db : memdb :=
  mkMemDB demo_tables true 10 100 [("contents", "id"); ("contents", "slug"); ("categories", "id")].

Lemma upload_insert_failure_witness :
  exists (h' : imgbb) (d' : memdb),
    (upload_content demo_config (post_req "kobita" [("file", demo_file)])
       (mkWorld unique_slug_db demo_host [] []) =
       error_exit (post_req "kobita" [("file", demo_file)])
         (APIError "duplicate key value violates unique constraint")
         (set_db d' (set_host h' (mkWorld unique_slug_db demo_host [] []))) /\
     ds_tables d' = ds_tables unique_slug_db) /\ ib_images h' = [fs_data demo_file].
Proof.
  do 2 eexists. split.
  - eapply (upload_insert_failure demo_config (post_req "kobita" [("file", demo_file)])
              (mkWorld unique_slug_db demo_host [] []) demo_file (imgbb_success 0) _
              (PStr (image_url 0))); try reflexivity.
    do 2 eexists. repeat split; reflexivity.
  - reflexivity.
Defined.

Lemma upload_form_lists_categories_witness :
  exists cats, table_rows "categories" (ds_tables (w_db demo_world)) = Some cats /\
    [PDict [("id", PInt 7); ("name_bn", PStr "kobita")]; PDict [("id", PInt 8); ("name_bn", PStr "golpo")]] = map (fun r => PDict (row_kvs r)) cats /\
    upload_content demo_config get_req demo_world =
      (Ok (Render "upload.html" [("categories", PList [PDict [("id", PInt 7); ("name_bn", PStr "kobita")]; PDict [("id", PInt 8); ("name_bn", PStr "golpo")]])]),
       set_db demo_db demo_world).
Proof. apply upload_form_lists_categories; [discriminate | reflexivity]. Defined.
