(* ===== verification/Server.v ===== *)
(** * The server over request sequences: response shapes and growth bounds

    [serve_all] (in [App]) is [app.run] answering requests in order.
    This file shows what every response of the application looks like
    (the three templates with the context their views pass, the two
    redirect targets of the upload view, the router's answers and
    Flask's 500 page), and bounds what a sequence of [n] requests adds to
    the state: at most [n] flashed messages, [n] log lines and [n]
    content rows, each appended after what was there. *)

From S2P Require Import Prelude Python Web Routing Datastore ImageHost World Listing Detail Upload App.
From Stdlib Require Import Ascii.
Open Scope string_scope.

(** The responses the application can return for [req]: a redirect only
    from a submission to [/upload], a 308 redirect only for a path that
    routes once its slashes are merged. *)
Definition response_ok (req : request) (resp : response) : Prop :=
  match resp with
  | Render t ctx =>
      (t = "index.html" /\ exists rows, ctx = [("contents", PList rows)]) \/
      (t = "single.html" /\ exists row, ctx = [("content", row)]) \/
      (t = "upload.html" /\ exists cats, ctx = [("categories", PList cats)])
  | Redirect l =>
      req_method req = POST /\ match_route (req_path req) = Some RUpload /\
      (l = url_for_index \/ l = req_url req)
  | ErrorPage c => (c = 404 \/ c = 405 \/ c = 500)%Z
  | PermanentRedirect p =>
      match_route (req_path req) = None /\ p = merge_slashes (path_part (req_path req)) /\
      exists r, match_route p = Some r /\ allowed r (req_method req) = true
  | Options ms => req_method req = OPTIONS /\ GET ∈ ms /\ OPTIONS ∈ ms
  end.

(** [xs'] is [xs] with at most [n] entries appended. *)
Definition grows_by {A} (n : nat) (xs xs' : list A) : Prop :=
  exists extra, xs' = (xs ++ extra)%list /\ length extra <= n.

Lemma grows_by_refl {A} n (xs : list A) : grows_by n xs xs.
Proof. exists []. rewrite app_nil_r. split; [done | simpl; lia]. Qed.

Lemma grows_by_snoc {A} n (xs : list A) x : grows_by (S n) xs (xs ++ [x])%list.
Proof. exists [x]. simpl. split; [done | lia]. Qed.

Lemma grows_by_trans {A} n m (xs ys zs : list A) :
  grows_by n xs ys -> grows_by m ys zs -> grows_by (n + m) xs zs.
Proof.
  intros (e1 & -> & H1) (e2 & -> & H2). exists (e1 ++ e2)%list.
  rewrite app_assoc, length_app. split; [done | lia].
Qed.

#[export] Hint Resolve grows_by_refl grows_by_snoc : app.

Section Shapes.
Context {D H : Type} `{!Datastore D} `{!DatastoreLaws D} `{!ImageHost H} (cfg : config).

(** A request's flashes and log lines: [submit] prints nothing. *)
Lemma submit_stdout req file (w : world D H) :
  w_stdout (snd (submit cfg req file w)) = w_stdout w.
Proof.
  rewrite submit_eq. destruct (ih_post _ _ _ _) as [[r|e] h']; simpl; [|done].
  destruct (host_verdict r) as [[u|]|e]; simpl; try done.
  by destruct (ds_insert _ _ _) as [[|] d'].
Qed.

Lemma upload_post_stdout req (w : world D H) :
  req_method req = POST -> w_stdout (snd (upload_content cfg req w)) = w_stdout w.
Proof.
  intros Hm. unfold upload_content. rewrite decide_True by done.
  destruct (file_present _); [apply submit_stdout | done].
Qed.

(** A select leaves the flashes and the output as they are. *)
Lemma db_execute_logs q (w : world D H) :
  w_flashes (snd (db_execute q w)) = w_flashes w /\ w_stdout (snd (db_execute q w)) = w_stdout w.
Proof. destruct (db_execute q w) eqn:E. by destruct (db_execute_frame _ _ _ _ E) as (_ & ? & ?). Qed.

Lemma serve_logs req (w : world D H) :
  grows_by 1 (w_flashes w) (w_flashes (snd (serve cfg req w))) /\
  grows_by 1 (w_stdout w) (w_stdout (snd (serve cfg req w))).
Proof.
  case_dispatch cfg req w; simpl.
  - auto with app.
  - destruct (ds_execute index_query (w_db w)) as [[rows|e] d'] eqn:E;
      [rewrite (index_query_ok _ _ _ E) | rewrite (index_query_error _ _ _ E)]; simpl; auto with app.
  - rewrite single_content_world, !(proj1 (db_execute_logs _ _)), (proj2 (db_execute_logs _ _)).
    auto with app.
  - destruct (decide (req_method req = POST)) as [Hm|Hm].
    + rewrite upload_post_stdout by done. split; [|auto with app].
      destruct (upload_post_cases cfg req w Hm) as (out & resp & w' & -> & Hs). simpl.
      destruct out; simpl in Hs; destruct_and?; subst; simpl;
        try match goal with H : w_flashes _ = _ |- _ => rewrite H end;
        unfold flash_msg; auto with app.
    + rewrite upload_get_world, (proj1 (db_execute_logs _ _)), (proj2 (db_execute_logs _ _))
        by done.
      auto with app.
Qed.

Lemma serve_rows req (w : world D H) rows :
  table_rows "contents" (ds_tables (w_db w)) = Some rows ->
  exists rows', table_rows "contents" (ds_tables (w_db (snd (serve cfg req w)))) = Some rows' /\
    grows_by 1 rows rows'.
Proof.
  intros Hr. destruct (serve_tables cfg req w) as [-> | (row & _ & _ & ->)]; [eauto with app|].
  rewrite table_rows_add_row, Hr. simpl. eauto with app.
Qed.

Lemma serve_all_snd req reqs (w : world D H) :
  snd (serve_all cfg (req :: reqs) w) = snd (serve_all cfg reqs (snd (serve cfg req w))).
Proof.
  cbn [serve_all]. destruct (serve cfg req w) as [resp w1].
  change (snd (resp, w1)) with w1. by destruct (serve_all cfg reqs w1).
Qed.

Lemma serve_shape req (w : world D H) : response_ok req (fst (serve cfg req w)).
Proof.
  case_dispatch cfg req w; simpl.
  - destruct Hresp as [-> | [-> | [(Hn & Hex & ->) | (Ho & r & _ & ->)]]]; simpl; auto.
    split; [done|]. destruct r; split; repeat constructor.
  - destruct (index_ok w) as (rows & w1 & ->). simpl. left. eauto.
  - destruct (ds_execute (detail_query s) (w_db w)) as [[rows|e] d'] eqn:E.
    + rewrite (single_content_rows _ _ _ _ E). destruct rows; simpl; eauto 10.
    + unfold single_content, m_bind. rewrite (db_execute_run _ _ _ _ E).
      pose proof (ds_execute_error _ _ _ _ E). destruct e; try contradiction; simpl; auto.
  - destruct (decide (req_method req = POST)) as [Hm|Hm].
    + destruct (upload_post_cases cfg req w Hm) as (out & resp & w1 & -> & Hs).
      destruct (upload_spec_redirect _ _ _ _ _ _ Hs) as [-> | ->]; simpl; auto.
    + unfold upload_content. rewrite decide_False by done. unfold m_bind.
      destruct (ds_execute categories_query (w_db w)) as [[rows|e] d'] eqn:E;
        rewrite (db_execute_run _ _ _ _ E); simpl; [right; right; eauto|].
      pose proof (ds_execute_error _ _ _ _ E). destruct e; try contradiction; simpl; auto.
Qed.

(** C11: every response has one of the shapes of [response_ok]: one of
    the three templates with the context its view passes ([contents]
    and [categories] are lists), a redirect to the listing or back to
    the request's URL (only for a POST to [/upload]), an error page 404,
    405 or 500, the 308 redirect to the path with merged slashes (only
    when that path routes and the original does not), or the answer to
    an OPTIONS request, whose list of methods includes GET and
    OPTIONS. *)
Theorem serve_response_ok req (w : world D H) : response_ok req (fst (serve cfg req w)).
Proof. apply serve_shape. Qed.

(** C25: a sequence of [n] requests appends at most [n] flashed
    messages, [n] log lines and [n] content rows, and removes or
    changes none. *)
Theorem serve_all_bounds reqs (w : world D H) rows :
  table_rows "contents" (ds_tables (w_db w)) = Some rows ->
  grows_by (length reqs) (w_flashes w) (w_flashes (snd (serve_all cfg reqs w))) /\
  grows_by (length reqs) (w_stdout w) (w_stdout (snd (serve_all cfg reqs w))) /\
  exists rows', table_rows "contents" (ds_tables (w_db (snd (serve_all cfg reqs w)))) = Some rows' /\
    grows_by (length reqs) rows rows'.
Proof.
  revert w rows. induction reqs as [|req reqs IH]; intros w rows Hr; [simpl; eauto 10 with app|].
  rewrite serve_all_snd. change (length (req :: reqs)) with (1 + length reqs).
  destruct (serve_logs req w) as [Hf Ho]. destruct (serve_rows req w rows Hr) as (rows1 & Hr1 & Hg).
  destruct (IH _ _ Hr1) as (Hf' & Ho' & rows' & Hr' & Hg').
  split; [|split]; [eapply grows_by_trans; eauto..|].
  exists rows'. split; [done|]. eapply grows_by_trans; eauto.
Qed.

(** C17: every request but a POST that routes to [/upload] is safe:
    GET, HEAD, OPTIONS and any other method on every path, and a POST to
    any other path (answered 404, 405 or 308), leave the tables, the
    stored images and the session's notices as they are; only the
    listing's error path writes, to the log. *)
Theorem safe_requests_no_effect req (w : world D H) :
  req_method req <> POST \/ match_route (req_path req) <> Some RUpload ->
  ds_tables (w_db (snd (serve cfg req w))) = ds_tables (w_db w) /\
  ih_images (w_host (snd (serve cfg req w))) = ih_images (w_host w) /\
  w_flashes (snd (serve cfg req w)) = w_flashes w.
Proof.
  intros Hsafe. case_dispatch cfg req w; simpl.
  - done.
  - destruct (index_world w) as [-> ->]. split_and!; [apply db_execute_tables | done |].
    destruct (ds_execute index_query (w_db w)) as [[rows|e] d'] eqn:E;
      [rewrite (index_query_ok _ _ _ E) | rewrite (index_query_error _ _ _ E)]; done.
  - rewrite single_content_world, db_execute_host, (proj1 (db_execute_logs _ _)).
    split_and!; [apply db_execute_tables | done | done].
  - assert (Hm : req_method req <> POST) by (destruct Hsafe; congruence).
    rewrite upload_get_world, db_execute_host, (proj1 (db_execute_logs _ _)) by done.
    split_and!; [apply db_execute_tables | done | done].
Qed.

(** C31: a detail page only ever shows a row whose slug is a non-empty
    string without a slash: a row stored with another slug (the upload
    does not check it) is listed but has no reachable detail page. *)
Theorem detail_slug_shape req (w : world D H) c :
  fst (serve cfg req w) = Render "single.html" [("content", c)] ->
  exists s, col c "slug" = PStr s /\ s <> "" /\ has_char "/" s = false.
Proof.
  case_dispatch cfg req w; simpl.
  - destruct Hresp as [-> | [-> | [(_ & _ & ->) | (_ & r & _ & ->)]]]; discriminate.
  - destruct (index_ok w) as (rows & w1 & ->). discriminate.
  - destruct (match_route_path _ _ Hroute) as [_ Hs]. destruct (Hs s eq_refl) as [Hne Hc].
    destruct (ds_execute (detail_query s) (w_db w)) as [[rows|e] d'] eqn:E.
    + rewrite (single_content_rows _ _ _ _ E).
      destruct (eval_detail_query _ _ _ _ (ds_execute_ok _ _ _ _ E))
        as (fk & cats & contents & _ & _ & ->).
      destruct (filter (has_slug s) contents) as [|r rest] eqn:Ef; simpl; [discriminate|].
      intros [= <-]. exists s. split_and!; [|done|done].
      rewrite with_category_col by done.
      assert (Hr : r ∈ filter (has_slug s) contents) by (rewrite Ef; left).
      by apply list_elem_of_filter in Hr as [Hr _].
    + unfold single_content, m_bind. rewrite (db_execute_run _ _ _ _ E).
      pose proof (ds_execute_error _ _ _ _ E). destruct e; try contradiction; discriminate.
  - destruct (decide (req_method req = POST)) as [Hm|Hm].
    + destruct (upload_post_cases cfg req w Hm) as (out & resp & w1 & -> & Hs).
      destruct (upload_spec_redirect _ _ _ _ _ _ Hs) as [-> | ->]; discriminate.
    + unfold upload_content. rewrite decide_False by done. unfold m_bind.
      destruct (ds_execute categories_query (w_db w)) as [[rows|e] d'] eqn:E;
        rewrite (db_execute_run _ _ _ _ E); simpl; [discriminate|].
      pose proof (ds_execute_error _ _ _ _ E). destruct e; try contradiction; discriminate.
Qed.
End Shapes.

(** ** Witnesses, on the in-memory database and ImgBB *)

Lemma serve_response_ok_witness :
  response_ok detail_req (fst (serve demo_config detail_req demo_world)).
Proof. apply serve_response_ok. Defined.

Lemma serve_all_bounds_witness :
  table_rows "contents" (ds_tables (w_db demo_world)) =
    Some (default [] (table_rows "contents" demo_tables)) /\
  grows_by 2 (w_flashes demo_world)
    (w_flashes (snd (serve_all demo_config [detail_req; submit_req] demo_world))).
Proof.
  split; [reflexivity|].
  exact (proj1 (serve_all_bounds demo_config [detail_req; submit_req] demo_world _ eq_refl)).
Defined.

(** A POST to a detail page, with the submission's form and file. *)
Definition post_detail_req : request :=
  mkRequest POST "/content/golpo" "http://localhost:5000/content/golpo" (req_form submit_req) (req_files submit_req).

Lemma safe_requests_no_effect_witness :
  match_route (req_path post_detail_req) <> Some RUpload /\
  ds_tables (w_db (snd (serve demo_config post_detail_req demo_world))) = ds_tables (w_db demo_world) /\
  ih_images (w_host (snd (serve demo_config post_detail_req demo_world))) = ih_images (w_host demo_world) /\
  w_flashes (snd (serve demo_config post_detail_req demo_world)) = w_flashes demo_world.
Proof. split; [discriminate|]. apply safe_requests_no_effect. right. discriminate. Defined.

(** The row the detail page of the demo world shows. *)
Definition shown_row (resp : response) : pyval :=
  match resp with Render _ [(_, c)] => c | _ => PNone end.

Lemma detail_slug_shape_witness :
  fst (serve demo_config detail_req demo_world) =
    Render "single.html" [("content", shown_row (fst (serve demo_config detail_req demo_world)))] /\
  exists s, col (shown_row (fst (serve demo_config detail_req demo_world))) "slug" = PStr s /\
            s <> "" /\ has_char "/" s = false.
Proof.
  assert (E : fst (serve demo_config detail_req demo_world) =
    Render "single.html" [("content", shown_row (fst (serve demo_config detail_req demo_world)))])
    by (vm_compute; reflexivity).
  split; [exact E | exact (detail_slug_shape demo_config detail_req demo_world _ E)].
Defined.
