(* ===== verification/Browser.v ===== *)
(** * A browser following the application's redirects: termination

    A client of the development server ([app.run(debug=True, port=5000)],
    line 101) reaches it at [origin].  It follows redirects the way the
    Fetch standard says: a 302 ([redirect], the upload view) is
    followed with GET and no body when the request was a POST, with the
    same request otherwise; a 308 (Werkzeug's [RequestRedirect] for
    doubled slashes) is followed with the same method and body; after
    [redirect_limit] redirects the fetch fails.  [fetch] is that loop,
    with the number of redirects left as its fuel, in the style of a
    bounded interpreter: [None] means the limit was reached.

    [fetch_terminates] (C32) shows that the application never leads a
    browser into a redirect loop: from any URL of the server, at most one
    redirect is followed (the target of Werkzeug's 308 never redirects,
    since merging slashes never leads to [/upload]) and any fuel of at
    least one gives the same final answer, well under the limit.
    [upload_post_redirect_get] (C35) shows the post/redirect/get pattern
    of the upload view: every POST ends on the answer to a GET. *)

From S2P Require Import Prelude Python Web Routing Datastore ImageHost World Config Upload App Server.
From Stdlib Require Import Ascii.
Open Scope string_scope.

(** The address of the development server of line 101. *)
Definition origin : string := "http://localhost:5000".

(** Fetch's limit on the number of redirects of one fetch. *)
Definition redirect_limit : nat := 20.

(** A URL's path and its query (from the first ['?'] on). *)
Fixpoint split_query (s : string) : string * string :=
  match s with
  | EmptyString => ("", "")
  | String a s' =>
      if Ascii.eqb a "?" then ("", s) else let '(p, q) := split_query s' in (String a p, q)
  end.

(** A [Location] that is an absolute path is resolved against [origin];
    the application only sends absolute paths and absolute URLs. *)
Definition resolve (loc : string) : string :=
  match loc with
  | String c _ => if Ascii.eqb c "/" then origin ++ loc else loc
  | EmptyString => loc
  end.

(** The request the browser sends to [url] when the URL is one of the
    server's; [None] when it leaves the server. *)
Definition request_at (m : method) (url : string) (form : list (string * string))
    (files : list (string * FileStorage)) : option request :=
  match strip_prefix origin url with
  | Some (String c rest) =>
      if Ascii.eqb c "/" then Some (mkRequest m (fst (split_query (String c rest))) url form files)
      else None
  | _ => None
  end.

(** The request that follows [resp], if it redirects within the server. *)
Definition follow (req : request) (resp : response) : option request :=
  match resp with
  | Redirect loc =>
      if decide (req_method req = POST) then request_at GET (resolve loc) [] []
      else request_at (req_method req) (resolve loc) (req_form req) (req_files req)
  | PermanentRedirect loc => request_at (req_method req) (resolve loc) (req_form req) (req_files req)
  | _ => None
  end.

Section Fetch.
Context {D H : Type} `{!Datastore D} `{!ImageHost H} (cfg : config).

(** One fetch: the responses of the server, the last one final, with at
    most [n] redirects followed. *)
Fixpoint fetch (n : nat) (req : request) (w : world D H) : option (list response * world D H) :=
  let '(resp, w1) := serve cfg req w in
  match follow req resp with
  | None => Some ([resp], w1)
  | Some req' =>
      match n with
      | O => None
      | S n' =>
          match fetch n' req' w1 with
          | Some (resps, w2) => Some (resp :: resps, w2)
          | None => None
          end
      end
  end.
End Fetch.

(** ** URLs of the server *)

Lemma split_query_no_char s : has_char "?" (fst (split_query s)) = false.
Proof.
  induction s as [|a s IH]; simpl; [done|].
  destruct (Ascii.eqb_spec a "?") as [->|Ha]; simpl; [done|].
  destruct (split_query s) as [p q]. simpl in IH |- *. rewrite IH.
  by destruct (Ascii.eqb_spec a "?").
Qed.

Lemma split_query_path s : has_char "?" s = false -> fst (split_query s) = s.
Proof.
  induction s as [|a s IH]; simpl; [done|]. intros [Ha Hs]%orb_false_iff.
  rewrite Ha. destruct (split_query s) as [p q]. simpl in IH |- *. by rewrite IH.
Qed.

Lemma strip_prefix_app p s : strip_prefix p (p ++ s) = Some s.
Proof. induction p as [|a p IH]; simpl; [done|]. by rewrite Ascii.eqb_refl. Qed.

Lemma request_at_Some m url form files req :
  request_at m url form files = Some req ->
  req_method req = m /\ req_url req = url /\ has_char "?" (req_path req) = false /\
  forall m' form' files',
    request_at m' url form' files' = Some (mkRequest m' (req_path req) url form' files').
Proof.
  unfold request_at. destruct (strip_prefix origin url) as [[|c rest]|] eqn:E; try discriminate.
  destruct (Ascii.eqb c "/") eqn:Ec; [|discriminate]. intros [= <-].
  split_and!; [done | done | exact (split_query_no_char (String c rest)) |].
  intros m' form' files'. done.
Qed.

(** A path starting with a slash, sent as a location, is the server's
    URL of the path, and is requested as itself. *)
Lemma resolve_slash rest : resolve (String "/" rest) = origin ++ String "/" rest.
Proof. unfold resolve. by rewrite Ascii.eqb_refl. Qed.

Lemma request_at_slash m rest form files :
  has_char "?" (String "/" rest) = false ->
  request_at m (origin ++ String "/" rest) form files =
    Some (mkRequest m (String "/" rest) (origin ++ String "/" rest) form files).
Proof.
  intros Hq. unfold request_at. rewrite strip_prefix_app, Ascii.eqb_refl. by rewrite split_query_path.
Qed.

Section Termination.
Context {D H : Type} `{!Datastore D} `{!DatastoreLaws D} `{!ImageHost H} (cfg : config).

(** A request to a path that routes, other than a POST, gets a final
    answer. *)
Lemma follow_routed req (w : world D H) r :
  match_route (req_path req) = Some r -> req_method req <> POST ->
  follow req (fst (serve cfg req w)) = None.
Proof.
  intros Hr Hm. pose proof (serve_shape cfg req w) as Hs.
  destruct (fst (serve cfg req w)); simpl in Hs |- *; try done.
  - by destruct Hs as [? _].
  - destruct Hs as [Hn _]. congruence.
Qed.

(** The fetch stops at the first response that is not followed. *)
Lemma fetch_final n req (w : world D H) :
  follow req (fst (serve cfg req w)) = None ->
  fetch cfg n req w = Some ([fst (serve cfg req w)], snd (serve cfg req w)).
Proof. intros Hf. destruct n; simpl; destruct (serve cfg req w); simpl in Hf; by rewrite Hf. Qed.

Lemma fetch_step n req (w : world D H) req' :
  follow req (fst (serve cfg req w)) = Some req' ->
  fetch cfg (S n) req w =
    (fun '(resps, w2) => (fst (serve cfg req w) :: resps, w2)) <$> fetch cfg n req' (snd (serve cfg req w)).
Proof.
  intros Hf. simpl. destruct (serve cfg req w) as [resp w1]. cbn [fst snd] in Hf |- *. rewrite Hf.
  by destruct (fetch cfg n req' w1) as [[]|].
Qed.

(** A URL the browser can request is absolute: [resolve] keeps it. *)
Lemma request_at_resolve m url form files req :
  request_at m url form files = Some req -> resolve url = url.
Proof.
  unfold request_at, resolve. destruct url as [|c u]; [done|].
  destruct (Ascii.eqb_spec c "/") as [->|]; [|done]. simpl. discriminate.
Qed.

(** A POST to the upload view is always answered with a redirect, to
    the listing or back to the form. *)
Lemma serve_upload_redirect req (w : world D H) :
  req_method req = POST -> match_route (req_path req) = Some RUpload ->
  exists l, fst (serve cfg req w) = Redirect l /\ (l = url_for_index \/ l = req_url req).
Proof.
  intros Hm Hr. rewrite serve_dispatch, (dispatch_route cfg req w RUpload) by (by rewrite ?Hm).
  destruct (upload_post_cases cfg req w Hm) as (out & resp & w1 & -> & Hs).
  destruct (upload_spec_redirect _ _ _ _ _ _ Hs) as [-> | ->]; eauto.
Qed.

(** After a redirect of the upload view, the browser's next request
    gets a final answer. *)
Lemma follow_after_upload req l req' (w' : world D H) :
  req_method req = POST -> match_route (req_path req) = Some RUpload ->
  (l = url_for_index \/ l = req_url req) ->
  (forall m f fs, request_at m (req_url req) f fs = Some (mkRequest m (req_path req) (req_url req) f fs)) ->
  follow req (Redirect l) = Some req' ->
  follow req' (fst (serve cfg req' w')) = None.
Proof.
  intros Hm Hr Hl Hat. simpl. rewrite decide_True by done.
  destruct Hl as [-> | ->].
  - change (resolve url_for_index) with (origin ++ "/"). unfold request_at.
    rewrite strip_prefix_app. simpl. intros [= <-]. by eapply follow_routed.
  - rewrite (request_at_resolve _ _ _ _ _ (Hat GET [] [])), Hat. intros [= <-]. by eapply follow_routed.
Qed.

(** A request to the path of Werkzeug's 308 gets a final answer: that
    path routes, and never to the upload view. *)
Lemma follow_after_merge req req1 (w' : world D H) r :
  match_route (req_path req) = None ->
  match_route (merge_slashes (path_part (req_path req))) = Some r ->
  req_path req1 = merge_slashes (path_part (req_path req)) ->
  follow req1 (fst (serve cfg req1 w')) = None.
Proof.
  intros Hn Hr Hp. pose proof (serve_shape cfg req1 w') as Hs.
  destruct (fst (serve cfg req1 w')); try done; cbn [response_ok] in Hs.
  - destruct Hs as (_ & Hu & _). rewrite Hp in Hu. apply merge_route_upload in Hu. congruence.
  - destruct Hs as [Hn1 _]. rewrite Hp in Hn1. congruence.
Qed.

(** With fuel one, the fetch of a URL of the server ends, after at most
    one redirect. *)
Lemma fetch_one m url form files req (w : world D H) :
  request_at m url form files = Some req ->
  exists resps w', fetch cfg 1 req w = Some (resps, w') /\ length resps <= 2.
Proof.
  intros Hat. destruct (request_at_Some _ _ _ _ _ Hat) as (Hm & Hu & Hq & Hsame).
  pose proof (serve_shape cfg req w) as Hs.
  destruct (follow req (fst (serve cfg req w))) as [req1|] eqn:Hf;
    [|rewrite fetch_final by done; eexists _, _; split; [done | simpl; lia]].
  rewrite fetch_step with (req' := req1) by done.
  rewrite fetch_final; [eexists _, _; split; [done | simpl; lia]|].
  destruct (fst (serve cfg req w)) as [| l | | p |] eqn:E; try discriminate.
  - (* the upload view's 302 *)
    destruct Hs as (HP & Hr & Hl).
    eapply follow_after_upload; [done | done | done | | exact Hf].
    intros m' f' fs'. rewrite Hu. apply Hsame.
  - (* Werkzeug's 308 to the merged path *)
    destruct Hs as (Hn & -> & r & Hr & Ha).
    destruct (merge_path_part_head (req_path req)) as [He | [rest He]]; rewrite He in Hr, Hf;
      [discriminate|].
    assert (Hq' : has_char "?" (String "/" rest) = false)
      by (rewrite <- He, has_char_merge, has_char_path_part; [done | discriminate]).
    cbv beta iota delta [follow] in Hf. rewrite resolve_slash, request_at_slash in Hf by done.
    injection Hf as <-.
    eapply follow_after_merge; [exact Hn | rewrite He; exact Hr | done].
Qed.

(** More fuel does not change a fetch that ends. *)
Lemma fetch_more_fuel n k req (w : world D H) r :
  fetch cfg n req w = Some r -> fetch cfg (n + k) req w = Some r.
Proof.
  revert req w r. induction n as [|n IH]; intros req w r Hf.
  - destruct (follow req (fst (serve cfg req w))) as [req'|] eqn:E.
    + simpl in Hf. destruct (serve cfg req w). simpl in E. by rewrite E in Hf.
    + rewrite fetch_final in Hf |- * by done. done.
  - destruct (follow req (fst (serve cfg req w))) as [req'|] eqn:E.
    + rewrite fetch_step with (req' := req') in Hf by done.
      replace (S n + k) with (S (n + k)) by lia. rewrite fetch_step with (req' := req') by done.
      destruct (fetch cfg n req' _) as [r'|] eqn:E'; [|discriminate].
      by rewrite (IH _ _ _ E').
    + rewrite fetch_final in Hf |- * by done. done.
Qed.
End Termination.

Section Claims.
Context {D H : Type} `{!Datastore D} `{!DatastoreLaws D} `{!ImageHost H} (cfg : config).

(** C32: termination of redirect chains.  For every URL of the
    development server, every method, form and files, and every world,
    a browser following the application's redirects gets a final
    response after at most one redirect (the upload view's 302, or
    Werkzeug's 308 to a path with merged slashes, whose target never
    redirects): every fuel [n] of at least one (Fetch's limit of 20
    among them) gives the same responses, at most two of them. *)
Theorem fetch_terminates m url form files req (w : world D H) n :
  request_at m url form files = Some req -> 1 <= n ->
  exists resps w', fetch cfg n req w = Some (resps, w') /\
    fetch cfg 1 req w = Some (resps, w') /\ length resps <= 2.
Proof.
  intros Hat Hn. destruct (fetch_one cfg _ _ _ _ _ w Hat) as (resps & w' & E & Hl).
  exists resps, w'. split_and!; [|done|done].
  replace n with (1 + (n - 1)) by lia. by apply fetch_more_fuel.
Qed.
(** C35: post/redirect/get.  A browser's POST to a URL of the upload
    view is answered with a redirect whatever the submission's outcome
    (no file, a refusal or an error of ImgBB, a database error, success),
    to the listing or back to the form's URL; the browser follows it
    with a GET of that URL, without form or files, and that answer is
    final.  The page the browser ends on is the answer to a GET:
    reloading it submits nothing. *)
Theorem upload_post_redirect_get url form files req (w : world D H) :
  request_at POST url form files = Some req -> match_route (req_path req) = Some RUpload ->
  exists l greq,
    fst (serve cfg req w) = Redirect l /\ (l = url_for_index \/ l = url) /\
    request_at GET (resolve l) [] [] = Some greq /\
    fetch cfg 1 req w = Some ([Redirect l; fst (serve cfg greq (snd (serve cfg req w)))],
                              snd (serve cfg greq (snd (serve cfg req w)))).
Proof.
  intros Hat Hr. destruct (request_at_Some _ _ _ _ _ Hat) as (Hm & Hu & Hq & Hsame).
  destruct (serve_upload_redirect cfg req w Hm Hr) as (l & Hl & Hlt).
  assert (Hg : exists greq, request_at GET (resolve l) [] [] = Some greq).
  { destruct Hlt as [-> | ->]; [by eexists|]. rewrite Hu, (request_at_resolve _ _ _ _ _ Hat). eauto. }
  destruct Hg as [greq Hg].
  assert (Hf : follow req (fst (serve cfg req w)) = Some greq)
    by (rewrite Hl; simpl; by rewrite decide_True).
  exists l, greq. split_and!; [done | by rewrite <- Hu | done |].
  rewrite fetch_step with (req' := greq) by done.
  rewrite fetch_final; [simpl; by rewrite Hl|].
  eapply follow_after_upload; [done | done | done | | rewrite <- Hl; exact Hf].
  intros m' f' fs'. rewrite Hu. apply Hsame.
Qed.
End Claims.

(** ** On the demo world *)

Lemma fetch_terminates_witness :
  request_at POST (origin ++ "/upload") (req_form submit_req) (req_files submit_req) =
    Some submit_req /\ 1 <= redirect_limit /\
  exists resps w', fetch demo_config redirect_limit submit_req demo_world = Some (resps, w') /\
    fetch demo_config 1 submit_req demo_world = Some (resps, w') /\ length resps <= 2.
Proof.
  split; [reflexivity|]. split; [unfold redirect_limit; lia|].
  apply (fetch_terminates demo_config POST (origin ++ "/upload") (req_form submit_req)
           (req_files submit_req) submit_req demo_world redirect_limit);
    [reflexivity | unfold redirect_limit; lia].
Defined.

Lemma upload_post_redirect_get_witness :
  request_at POST (origin ++ "/upload") (req_form submit_req) (req_files submit_req) = Some submit_req /\
  match_route (req_path submit_req) = Some RUpload /\
  exists l greq,
    fst (serve demo_config submit_req demo_world) = Redirect l /\
    (l = url_for_index \/ l = origin ++ "/upload") /\
    request_at GET (resolve l) [] [] = Some greq /\
    fetch demo_config 1 submit_req demo_world =
      Some ([Redirect l; fst (serve demo_config greq (snd (serve demo_config submit_req demo_world)))],
            snd (serve demo_config greq (snd (serve demo_config submit_req demo_world)))).
Proof.
  split; [reflexivity|]. split; [reflexivity|].
  apply (upload_post_redirect_get demo_config (origin ++ "/upload") (req_form submit_req)
           (req_files submit_req)); reflexivity.
Defined.

(** The bound is reached: the submission redirects to the listing, and
    the fetch fails with no redirect allowed. *)
Example fetch_one_redirect :
  option_map (fun r => length (fst r)) (fetch demo_config 1 submit_req demo_world) = Some 2 /\
  fetch demo_config 0 submit_req demo_world = None.
Proof. vm_compute. split; reflexivity. Qed.

(** A submission to [//upload] reaches the upload view directly
    (Werkzeug strips the leading slashes): no 308, one 302. *)
Definition slash_upload_req : request :=
  mkRequest POST "//upload" (origin ++ "//upload") (req_form submit_req) (req_files submit_req).

Example slash_upload_direct :
  option_map (fun r => (head (fst r), length (fst r))) (fetch demo_config 1 slash_upload_req demo_world) =
    Some (Some (Redirect url_for_index), 2).
Proof. vm_compute. reflexivity. Qed.
