(* ===== verification/Lifecycle.v ===== *)
(** * The life of a content item on the in-memory services

    The listing orders rows by [created_at], newest first (line 28), and
    the upload leaves [id] and [created_at] to the database's defaults
    (the dict of lines 75-84 has neither).  On the in-memory database
    [memdb] those defaults come from a sequence and a clock.  This file
    shows that every request sequence keeps the stored content rows
    stamped below both counters ([counters_inv], C26), and that a
    submission with a file, sent to a reachable ImgBB with a valid key and
    an online database, is created and shown first by the next listing
    with the name of its category (C9): the new item comes before every
    earlier one.  A submission reusing a stored slug is accepted, but the
    detail page of the slug stays the older row's (C21).  The database
    reads the form's [category_id] as a [bigint]: a value it cannot read
    fails the insert after the image was stored (C33). *)

From stdpp Require Import sorting.
From S2P Require Import Prelude Python Web Routing Datastore ImageHost World Listing Detail Upload App.
Open Scope string_scope.

(** ** The counters of the database *)

(** A content row stamped by the database: an integer [id] below the
    sequence and an integer [created_at] below the clock. *)
Definition stamped (next clock : Z) (r : pyval) : Prop :=
  (exists i, col r "id" = PInt i /\ (i < next)%Z) /\
  (exists t, col r "created_at" = PInt t /\ (t < clock)%Z).

Definition counters_inv (db : memdb) : Prop :=
  forall rows, table_rows "contents" (md_tables db) = Some rows ->
  Forall (stamped (md_next_id db) (md_clock db)) rows.

(** The row [mem_insert] stores for a submission whose [category_id]
    the database reads as [c] and whose URL it reads as [f]. *)
Definition stored_submission (db : memdb) (req : request) (c f : pyval) : pyval :=
  mem_row db (row_kvs (new_content (form_get req "title") (form_get req "description")
                         (form_get req "slug") (form_get req "alt_text") c f)).

Lemma stored_submission_slug db req c u :
  col (stored_submission db req c u) "slug" = form_get req "slug".
Proof. reflexivity. Qed.

Lemma stamped_mono n c n' c' r :
  (n <= n')%Z -> (c <= c')%Z -> stamped n c r -> stamped n' c' r.
Proof. intros ?? [(i & ? & ?) (t & ? & ?)]. split; [exists i | exists t]; split; auto; lia. Qed.

(** The counters never go back; a stored row advances both. *)
Lemma mem_insert_counters t row db o db' :
  mem_insert t row db = (o, db') ->
  (md_next_id db <= md_next_id db')%Z /\ (md_clock db <= md_clock db')%Z /\
  (forall rs, o = Ok rs -> md_next_id db' = md_next_id db + 1 /\ md_clock db' = md_clock db + 1)%Z.
Proof.
  unfold mem_insert. repeat case_match; intros [= <- <-]; simpl; split_and!; try lia;
    by intros ? [=].
Qed.

Lemma stored_submission_stamps db req c f :
  col (stored_submission db req c f) "id" = PInt (md_next_id db) /\
  col (stored_submission db req c f) "created_at" = PInt (md_clock db) /\
  col (stored_submission db req c f) "is_approved" = PBool true.
Proof. done. Qed.

(** The database casts a submission's row: the text fields stay, the
    [category_id] is read as a [bigint], then the URL as text; the first
    failing cast is the insert's error. *)
Lemma cast_row_of req u :
  cast_kvs "contents" (row_kvs (row_of req u)) =
  match cast TInt8 (form_get req "category_id"), cast TText u with
  | Ok c, Ok f => Ok (row_kvs (new_content (form_get req "title") (form_get req "description")
                                (form_get req "slug") (form_get req "alt_text") c f))
  | Raise e, _ | _, Raise e => Raise e
  end.
Proof.
  unfold row_of, new_content. cbn -[cast form_get]. rewrite !cast_text_form.
  destruct (cast TInt8 _), (cast TText u); reflexivity.
Qed.

(** What a submission's insert does to [memdb]. *)
Lemma mem_insert_row_of db req u o db' :
  mem_insert "contents" (row_of req u) db = (o, db') ->
  md_tables db' = md_tables db \/
  exists rows c f, md_online db' = true /\ table_rows "contents" (md_tables db) = Some rows /\
    o = Ok [stored_submission db req c f] /\
    md_tables db' = add_row "contents" (stored_submission db req c f) (md_tables db).
Proof.
  intros Hi. destruct (mem_insert_cases _ _ _ _ _ Hi)
    as [(e & _ & Ht & _) | (kvs & kvs' & rows & _ & Hrow & Hr & Hc & _ & _ & -> & ->)]; [by left|].
  right. assert (Hk : kvs = row_kvs (row_of req u)) by (by rewrite Hrow). subst kvs.
  rewrite cast_row_of in Hc.
  destruct (cast TInt8 _) as [c|], (cast TText u) as [f|]; try discriminate. injection Hc as <-.
  by exists rows, c, f.
Qed.

Lemma counters_inv_insert db req u o db' :
  counters_inv db -> mem_insert "contents" (row_of req u) db = (o, db') -> counters_inv db'.
Proof.
  intros Hinv Hi. destruct (mem_insert_counters _ _ _ _ _ Hi) as (Hn & Hc & Hok).
  intros rows' Hr'.
  destruct (mem_insert_row_of _ _ _ _ _ Hi) as [Ht | (rows & c & f & _ & Hr & -> & Ht)].
  - rewrite Ht in Hr'. eapply Forall_impl; [by apply Hinv|]. intros r. by apply stamped_mono.
  - destruct (Hok _ eq_refl) as [En Ec]. rewrite Ht, table_rows_add_row, Hr in Hr'.
    simpl in Hr'. injection Hr' as <-. apply Forall_app. split.
    + eapply Forall_impl; [by apply Hinv|]. intros r. apply stamped_mono; lia.
    + constructor; [|done]. rewrite En, Ec. unfold stamped.
      split; eexists; split; [reflexivity | lia | reflexivity | lia].
Qed.

(** A request on [memdb] keeps the counters invariant. *)
Lemma serve_counters_inv {H} `{!ImageHost H} cfg req (w : world memdb H) :
  counters_inv (w_db w) -> counters_inv (w_db (snd (serve cfg req w))).
Proof.
  intros Hinv. destruct (serve_db_evolves cfg req w) as [-> | [(q & o & Hq) | (req' & u & o & Hi)]].
  - done.
  - simpl in Hq. by rewrite (mem_execute_db _ _ _ _ Hq).
  - by eapply counters_inv_insert.
Qed.

(** C26: every world a request sequence reaches from one whose content
    rows are stamped below the counters has the same property: the
    application never stores a row with its own [id] or [created_at]. *)
Theorem reachable_counters_inv {H} `{!ImageHost H} cfg (w0 w : world memdb H) :
  reachable cfg w0 w -> counters_inv (w_db w0) -> counters_inv (w_db w).
Proof. induction 1 as [|w req _ IH]; [done|]. intros Hw0. apply serve_counters_inv, IH, Hw0. Qed.

(** ** The newest row comes first *)

(** In a list sorted by [created_at], newest first, whose rows carry
    integer stamps, the head's stamp bounds every other. *)
Lemma sorted_desc_head_max h l :
  Sorted (row_before "created_at" true) (h :: l) ->
  Forall (fun x => exists t, col x "created_at" = PInt t) (h :: l) ->
  Forall (fun x => exists tx th, col x "created_at" = PInt tx /\ col h "created_at" = PInt th /\
                                 (tx <= th)%Z) l.
Proof.
  revert h. induction l as [|x l IH]; intros h Hs Hi; [constructor|].
  inversion Hs as [|? ? Hs' Hhd]; subst. inversion Hhd as [|? ? Hx]; subst.
  inversion Hi as [|? ? (th & Hth) Hi']; subst. inversion Hi' as [|? ? (tx & Htx) _]; subst.
  unfold row_before in Hx. rewrite Htx, Hth in Hx. apply Z.leb_le in Hx.
  constructor; [eauto|].
  eapply Forall_impl; [exact (IH x Hs' Hi')|].
  intros y (ty & tx' & Hy & Hx' & Hle). rewrite Htx in Hx'. injection Hx' as <-.
  exists ty, th. split_and!; auto; lia.
Qed.

(** A row stamped after every other approved row is the first of the
    listing's order. *)
Lemma newest_first rows0 rn tn :
  Forall (fun r => exists t, col r "created_at" = PInt t /\ (t < tn)%Z) rows0 ->
  col rn "created_at" = PInt tn -> approved rn ->
  exists rest, merge_sort (row_before "created_at" true) (filter approved (rows0 ++ [rn])%list) = rn :: rest.
Proof.
  intros H0 Hn Ha.
  set (L := merge_sort _ _).
  assert (HP : L ≡ₚ filter approved (rows0 ++ [rn])%list) by apply merge_sort_Permutation.
  assert (Hin : forall x, x ∈ L -> x ∈ rows0 \/ x = rn).
  { intros x Hx. rewrite HP, list_elem_of_filter, elem_of_app, list_elem_of_singleton in Hx. tauto. }
  assert (Hints : Forall (fun x => exists t, col x "created_at" = PInt t) L).
  { apply Forall_forall. intros x [Hx | ->]%Hin; [|eauto].
    rewrite Forall_forall in H0. destruct (H0 x Hx) as (t & ? & _). eauto. }
  assert (HrnL : rn ∈ L).
  { rewrite HP, list_elem_of_filter, elem_of_app, list_elem_of_singleton. auto. }
  assert (HS : Sorted (row_before "created_at" true) L) by apply Sorted_merge_sort, _.
  destruct L as [|h l] eqn:EL; [by apply not_elem_of_nil in HrnL|].
  destruct (Hin h (list_elem_of_here _ _)) as [Hh | ->]; [|by eexists].
  exfalso. rewrite Forall_forall in H0. destruct (H0 h Hh) as (th & Hth & Hlt).
  apply elem_of_cons in HrnL as [-> | Hrn]; [assert (th = tn) by congruence; lia|].
  pose proof (sorted_desc_head_max h l HS Hints) as Hmax. rewrite Forall_forall in Hmax.
  destruct (Hmax rn Hrn) as (tx & th' & Htx & Hth' & Hle).
  assert (tx = tn) by congruence. assert (th' = th) by congruence. lia.
Qed.

(** ** A submission that succeeds *)

(** The unique constraints of [contents] are on [id] alone. *)
Definition id_unique_only (db : memdb) : Prop :=
  Forall (fun tc => tc.1 = "contents" -> tc.2 = "id") (md_unique db).

Lemma violates_fresh_id db req c f rows :
  counters_inv db -> id_unique_only db -> table_rows "contents" (md_tables db) = Some rows ->
  violates (md_unique db) "contents" (stored_submission db req c f) rows = false.
Proof.
  intros Hinv Hu Hr. unfold violates. apply not_true_iff_false.
  intros ([t k] & Htc & Hex)%existsb_exists. apply andb_true_iff in Hex as [Ht Hex].
  apply String.eqb_eq in Ht as <-. apply List.Forall_forall with (x := ("contents", k)) in Hu; [|done].
  simpl in Hu. rewrite (Hu eq_refl) in Hex. apply existsb_exists in Hex as (r0 & Hr0 & Heq).
  pose proof (Hinv _ Hr) as Hrows.
  apply List.Forall_forall with (x := r0) in Hrows as [(i & Hi & Hlt) _]; [|done].
  rewrite Hi in Heq. simpl in Heq. apply Z.eqb_eq in Heq. lia.
Qed.

(** The foreign key of [contents]: its [category_id] is NULL or the [id]
    of a category. *)
Lemma fk_violates_contents ts row :
  fk_violates app_schema ts "contents" row = false <->
  col row "category_id" = PNone \/
  exists cats, table_rows "categories" ts = Some cats /\
    existsb (fun r => sql_eqb (col r "id") (col row "category_id")) cats = true.
Proof.
  unfold fk_violates, app_schema. cbn [existsb fk_from fk_col fk_to fk_ref].
  rewrite String.eqb_refl, orb_false_r. cbn [andb].
  destruct (col row "category_id") eqn:E; [split; auto|..];
    (split; [intros Hv; right; destruct (table_rows "categories" ts) as [cats|];
             [exists cats; split; [done | by apply negb_false_iff] | discriminate]
           | intros [Hn | (cats & Hc & Hex)]; [discriminate | by rewrite Hc, Hex]]).
Qed.

(** The insert of a submission whose values cast, whose row breaks no
    unique constraint and whose category exists. *)
Lemma mem_insert_stores db req u c f rows :
  md_online db = true -> table_rows "contents" (md_tables db) = Some rows ->
  cast TInt8 (form_get req "category_id") = Ok c -> cast TText u = Ok f ->
  violates (md_unique db) "contents" (stored_submission db req c f) rows = false ->
  fk_violates app_schema (md_tables db) "contents" (stored_submission db req c f) = false ->
  mem_insert "contents" (row_of req u) db =
    (Ok [stored_submission db req c f],
     mkMemDB (add_row "contents" (stored_submission db req c f) (md_tables db)) true
             (md_next_id db + 1) (md_clock db + 1) (md_unique db)).
Proof.
  intros Hon Hr Hc Hf Hv Hfk. unfold mem_insert. rewrite Hon, Hr. cbn [negb].
  change (row_of req u) with (PDict (row_kvs (row_of req u))). cbv iota.
  rewrite cast_row_of, Hc, Hf. cbv iota. unfold stored_submission in Hv, Hfk |- *.
  by rewrite Hv, Hfk.
Qed.

(** A submission whose row breaks a unique constraint fails after
    taking an [id]. *)
Lemma mem_insert_duplicate db req u c f rows :
  md_online db = true -> table_rows "contents" (md_tables db) = Some rows ->
  cast TInt8 (form_get req "category_id") = Ok c -> cast TText u = Ok f ->
  violates (md_unique db) "contents" (stored_submission db req c f) rows = true ->
  mem_insert "contents" (row_of req u) db =
    (Raise (APIError "duplicate key value violates unique constraint"),
     mkMemDB (md_tables db) true (md_next_id db + 1) (md_clock db) (md_unique db)).
Proof.
  intros Hon Hr Hc Hf Hv. unfold mem_insert. rewrite Hon, Hr. cbn [negb].
  change (row_of req u) with (PDict (row_kvs (row_of req u))). cbv iota.
  rewrite cast_row_of, Hc, Hf. cbv iota. unfold stored_submission in Hv |- *.
  by rewrite Hv.
Qed.

Lemma mem_insert_fresh db req u c f rows :
  md_online db = true -> counters_inv db -> id_unique_only db ->
  table_rows "contents" (md_tables db) = Some rows ->
  cast TInt8 (form_get req "category_id") = Ok c -> cast TText u = Ok f ->
  fk_violates app_schema (md_tables db) "contents" (stored_submission db req c f) = false ->
  mem_insert "contents" (row_of req u) db =
    (Ok [stored_submission db req c f],
     mkMemDB (add_row "contents" (stored_submission db req c f) (md_tables db)) true
             (md_next_id db + 1) (md_clock db + 1) (md_unique db)).
Proof.
  intros Hon Hinv Hu Hr Hc Hf Hfk.
  apply (mem_insert_stores _ _ _ _ _ rows); try done. by apply violates_fresh_id.
Qed.

Lemma imgbb_post_accepts k img h :
  ib_status h = HostUp -> k ∈ ib_keys h -> img <> [] ->
  ih_post IMGBB_UPLOAD_URL (encode_params [("key", Some k)]) img h =
    (Ok (imgbb_success (length (ib_images h))),
     mkImgbb (ib_status h) (ib_keys h) (ib_images h ++ [img])%list).
Proof.
  intros Hs Hk Himg. simpl. unfold imgbb_post. rewrite Hs, String.eqb_refl. simpl.
  assert (existsb (String.eqb k) (ib_keys h) = true) as ->.
  { apply existsb_exists. exists k. split; [by apply list_elem_of_In|apply String.eqb_refl]. }
  by destruct img.
Qed.

(** What a submission needs to succeed: an online database whose
    content rows are stamped, whose only unique column of [contents] is
    [id], with both tables; a reachable ImgBB that knows the configured
    key. *)
Definition upload_ready (cfg : config) (w : world memdb imgbb) : Prop :=
  md_online (w_db w) = true /\ counters_inv (w_db w) /\ id_unique_only (w_db w) /\
  is_Some (table_rows "contents" (md_tables (w_db w))) /\
  is_Some (table_rows "categories" (md_tables (w_db w))) /\
  ib_status (w_host w) = HostUp /\
  exists k, IMGBB_API_KEY cfg = Some k /\ k ∈ ib_keys (w_host w).

(** What it needs from the form: a [category_id] that the database
    reads as the [bigint] [c], the [id] of a stored category. *)
Definition category_ready (req : request) (w : world memdb imgbb) (c : pyval) : Prop :=
  cast TInt8 (form_get req "category_id") = Ok c /\
  exists cats, table_rows "categories" (md_tables (w_db w)) = Some cats /\
    existsb (fun r => sql_eqb (col r "id") c) cats = true.

(** The URL ImgBB gives the next image. *)
Definition next_image_url (h : imgbb) : pyval := PStr (image_url (length (ib_images h))).

Lemma submit_published cfg req file c (w : world memdb imgbb) :
  upload_ready cfg w -> fs_data file <> [] -> category_ready req w c ->
  fst (submit cfg req file w) = Ok (Redirect url_for_index) /\
  md_online (w_db (snd (submit cfg req file w))) = true /\
  md_tables (w_db (snd (submit cfg req file w))) =
    add_row "contents" (stored_submission (w_db w) req c (next_image_url (w_host w)))
      (md_tables (w_db w)).
Proof.
  intros (Hon & Hinv & Hu & [rows Hr] & _ & Hs & k & Hkey & Hk) Himg (Hc & cats & Hcats & Hex).
  rewrite submit_eq, Hkey, (imgbb_post_accepts k (fs_data file) (w_host w)) by done. simpl.
  rewrite (mem_insert_fresh (w_db w) req _ c (next_image_url (w_host w)) rows); try done.
  apply fk_violates_contents. right. by exists cats.
Qed.

(** The row the listing shows for a stored submission keeps the form's
    values, the image's URL, the owner and the approval. *)
Lemma created_row_listed req u db fk cats c :
  cast TInt8 (form_get req "category_id") = Ok c -> cast TText u = Ok u ->
  created_row req u (with_category fk cats (stored_submission db req c u)).
Proof. intros Hc Hu. unfold created_row. rewrite !with_category_col by done. done. Qed.

(** A submission that succeeds, as the server answers it. *)
Lemma serve_published cfg req file c (w : world memdb imgbb) :
  upload_ready cfg w -> category_ready req w c ->
  req_path req = "/upload" -> req_method req = POST ->
  md_get "file" (req_files req) = Some file -> fs_filename file <> "" -> fs_data file <> [] ->
  serve cfg req w = (Redirect url_for_index, snd (submit cfg req file w)).
Proof.
  intros Hready Hcat Hp Hm Hf Hn Himg.
  destruct (submit_published cfg req file c w Hready Himg Hcat) as (Hres & _).
  rewrite serve_dispatch, (dispatch_route cfg req w RUpload) by (by rewrite ?Hp, ?Hm).
  rewrite (upload_content_post cfg req w file Hm) by (apply file_present_Some; done).
  by rewrite Hres.
Qed.

(** The detail page of [s] on an online in-memory database: the first
    row with the slug, with its category, or 404. *)
Lemma serve_detail_mem cfg dreq (w : world memdb imgbb) s contents cats :
  md_online (w_db w) = true ->
  table_rows "contents" (md_tables (w_db w)) = Some contents ->
  table_rows "categories" (md_tables (w_db w)) = Some cats ->
  match_route (req_path dreq) = Some (RContent s) -> req_method dreq = GET ->
  fst (serve cfg dreq w) =
    match filter (has_slug s) contents with
    | [] => ErrorPage 404
    | r :: _ => Render "single.html" [("content", with_category (mkFK "contents" "category_id" "categories" "id") cats r)]
    end.
Proof.
  intros Hon Hc Hk Hr Hm.
  rewrite serve_dispatch, (dispatch_route cfg dreq w (RContent s)) by (by rewrite ?Hm).
  assert (E : ds_execute (detail_query s) (w_db w) =
    (Ok (map (with_category (mkFK "contents" "category_id" "categories" "id") cats) (filter (has_slug s) contents)),
     w_db w)).
  { change (ds_execute (detail_query s) (w_db w)) with (mem_execute (detail_query s) (w_db w)).
    unfold mem_execute. rewrite Hon. f_equal. by apply eval_detail_query_ok. }
  rewrite (single_content_rows _ _ _ _ E). by destruct (filter (has_slug s) contents).
Qed.

(** C9: liveness of a submission.  A POST to [/upload] with a named,
    non-empty file and the [id] of a stored category, sent while the
    database is online (its rows stamped, [id] its only unique column of
    [contents]) and ImgBB is up and knows the configured key, is
    answered with the redirect to the listing; the next GET of [/] then
    shows the new item first, with the form's values, the URL ImgBB
    returned, the placeholder owner, the approval flag, and the name of
    its category. *)
Theorem upload_published cfg req file c (w : world memdb imgbb) lreq :
  upload_ready cfg w -> category_ready req w c ->
  req_path req = "/upload" -> req_method req = POST ->
  md_get "file" (req_files req) = Some file -> fs_filename file <> "" -> fs_data file <> [] ->
  req_path lreq = "/" -> req_method lreq = GET ->
  fst (serve cfg req w) = Redirect url_for_index /\
  exists row rest,
    created_row req (next_image_url (w_host w)) row /\
    col row "created_at" = PInt (md_clock (w_db w)) /\
    (exists cats r, table_rows "categories" (md_tables (w_db w)) = Some cats /\ In r cats /\
       sql_eqb (col r "id") c = true /\ col row "categories" = PDict [("name_bn", col r "name_bn")]) /\
    fst (serve cfg lreq (snd (serve cfg req w))) = index_page (row :: rest).
Proof.
  intros Hready Hcat Hp Hm Hf Hn Himg Hlp Hlm.
  pose proof Hready as (Hon & Hinv & Hu & [rows Hr] & _).
  pose proof Hcat as (Hc & cats & Hk & Hex).
  destruct (submit_published cfg req file c w Hready Himg Hcat) as (Hres & Hon1 & Ht1).
  rewrite (serve_published cfg req file c w) by done. split; [done|]. simpl snd.
  set (w1 := snd (submit cfg req file w)) in *.
  set (u := next_image_url (w_host w)).
  set (rn := stored_submission (w_db w) req c u).
  destruct (stored_submission_stamps (w_db w) req c u) as (_ & Hcr & Happ).
  assert (Hold : Forall (fun r => exists t, col r "created_at" = PInt t /\ (t < md_clock (w_db w))%Z) rows).
  { eapply Forall_impl; [exact (Hinv _ Hr)|]. intros r [_ Ht]. exact Ht. }
  destruct (newest_first rows rn _ Hold Hcr Happ) as [rest Hrest].
  set (fk := mkFK "contents" "category_id" "categories" "id").
  assert (Hq : ds_execute index_query (w_db w1) =
               (Ok (map (with_category fk cats) (rn :: rest)), w_db w1)).
  { rewrite <- Hrest. change (ds_execute index_query (w_db w1)) with (mem_execute index_query (w_db w1)).
    unfold mem_execute. rewrite Hon1. f_equal.
    apply eval_index_query_ok; [by rewrite Ht1, table_rows_add_row, Hr | | done].
    by rewrite Ht1, table_rows_add_row, Hk. }
  destruct (find_row_existsb _ _ _ Hex) as (r & Hfind & Hin & Hid).
  exists (with_category fk cats rn), (map (with_category fk cats) rest). split_and!.
  - by apply created_row_listed.
  - by rewrite with_category_col.
  - exists cats, r. split_and!; [done | done | done |].
    unfold with_category, embed_value. simpl. by rewrite Hfind.
  - rewrite serve_dispatch, (dispatch_route cfg lreq w1 RIndex) by (by rewrite ?Hlp, ?Hlm).
    by rewrite (index_query_ok _ _ _ Hq).
Qed.

(** C21: the upload does not check that the slug is new (the spec
    leaves uniqueness to the datastore).  On a database that does not
    make [slug] unique, a submission reusing the slug of a stored row is
    accepted: it is redirected to the listing and adds a row with that
    slug.  The detail page of the slug is the older row's, the same
    before and after: the new item is listed but has no detail page of
    its own. *)
Theorem duplicate_slug_shadowed cfg req file c (w : world memdb imgbb) dreq s rows r0 :
  upload_ready cfg w -> category_ready req w c ->
  req_path req = "/upload" -> req_method req = POST ->
  md_get "file" (req_files req) = Some file -> fs_filename file <> "" -> fs_data file <> [] ->
  md_get "slug" (req_form req) = Some s ->
  table_rows "contents" (md_tables (w_db w)) = Some rows -> In r0 rows -> col r0 "slug" = PStr s ->
  match_route (req_path dreq) = Some (RContent s) -> req_method dreq = GET ->
  fst (serve cfg req w) = Redirect url_for_index /\
  (exists row, md_tables (w_db (snd (serve cfg req w))) = add_row "contents" row (md_tables (w_db w)) /\
     col row "slug" = PStr s) /\
  (exists r, fst (serve cfg dreq w) = Render "single.html" [("content", r)]) /\
  fst (serve cfg dreq (snd (serve cfg req w))) = fst (serve cfg dreq w).
Proof.
  intros Hready Hcat Hp Hm Hf Hn Himg Hs Hr Hr0 Hs0 Hd Hdm.
  pose proof Hready as (Hon & _ & _ & _ & [cats Hk] & _).
  destruct (submit_published cfg req file c w Hready Himg Hcat) as (_ & Hon1 & Ht1).
  rewrite (serve_published cfg req file c w) by done. cbn [fst snd].
  set (rn := stored_submission (w_db w) req c (next_image_url (w_host w))) in Ht1.
  assert (Hin : r0 ∈ filter (has_slug s) rows)
    by (apply list_elem_of_filter; split; [done | by apply list_elem_of_In]).
  rewrite (serve_detail_mem cfg dreq w s rows cats) by done.
  rewrite (serve_detail_mem cfg dreq _ s (rows ++ [rn]) cats)
    by (rewrite ?Ht1, ?table_rows_add_row; cbn [String.eqb]; rewrite ?Hr, ?Hk; done).
  rewrite filter_app.
  destruct (filter (has_slug s) rows) as [|r rest]; [by apply not_elem_of_nil in Hin|].
  split_and!; [done | | by eexists | done].
  exists rn. split; [done|]. unfold rn. rewrite stored_submission_slug. unfold form_get. by rewrite Hs.
Qed.

(** A submission whose [category_id] the database cannot read as a
    [bigint] fails at the cast, before the row takes an [id]. *)
Lemma mem_insert_cast_error db req u e rows :
  md_online db = true -> table_rows "contents" (md_tables db) = Some rows ->
  cast TInt8 (form_get req "category_id") = Raise e ->
  mem_insert "contents" (row_of req u) db = (Raise e, db).
Proof.
  intros Hon Hr Hc. unfold mem_insert. rewrite Hon, Hr. cbn [negb].
  change (row_of req u) with (PDict (row_kvs (row_of req u))). cbv iota.
  by rewrite cast_row_of, Hc.
Qed.

(** C33: the form's [category_id] is sent as text and the database reads
    it as a [bigint].  When it is not one (the empty choice, a word, a
    number beyond 64 bits), a submission that ImgBB accepts fails at the
    insert: the response redirects back to the form with the database's
    message flashed after the error prefix, the database is unchanged,
    and the image stays stored at ImgBB. *)
Theorem upload_category_rejected cfg req file s e (w : world memdb imgbb) :
  upload_ready cfg w -> req_method req = POST ->
  md_get "file" (req_files req) = Some file -> fs_filename file <> "" -> fs_data file <> [] ->
  md_get "category_id" (req_form req) = Some s -> int8_of_text s = Raise e ->
  fst (upload_content cfg req w) = Ok (Redirect (req_url req)) /\
  w_flashes (snd (upload_content cfg req w)) =
    flash_msg (MSG_ERROR_PREFIX ++ str_exn e) "error" (w_flashes w) /\
  w_db (snd (upload_content cfg req w)) = w_db w /\
  ib_images (w_host (snd (upload_content cfg req w))) = (ib_images (w_host w) ++ [fs_data file])%list.
Proof.
  intros (Hon & Hinv & Hu & [rows Hr] & _ & Hst & k & Hkey & Hk) Hm Hf Hn Himg Hs He.
  rewrite (upload_content_post cfg req w file Hm) by (apply file_present_Some; done).
  rewrite submit_eq, Hkey, (imgbb_post_accepts k (fs_data file) (w_host w)) by done. simpl.
  assert (Hc : cast TInt8 (form_get req "category_id") = Raise e)
    by (unfold form_get; by rewrite Hs).
  by rewrite (mem_insert_cast_error _ _ _ _ rows Hon Hr Hc).
Qed.

(** ** Witnesses, on the demo world *)

Lemma demo_counters : counters_inv demo_db.
Proof.
  intros rows Hr. simpl in Hr. injection Hr as <-.
  repeat apply List.Forall_cons; try apply List.Forall_nil; split; eexists; (split; [reflexivity | simpl; lia]).
Qed.

Lemma demo_ready : upload_ready demo_config demo_world.
Proof.
  split_and!; [done | exact demo_counters | repeat constructor | eexists; done | eexists; done | done |].
  exists "k3y". split; [done | by left].
Qed.

Definition listing_req : request := mkRequest GET "/" "http://localhost:5000/" [] [].

Lemma reachable_counters_inv_witness :
  counters_inv (w_db (snd (serve demo_config submit_req demo_world))).
Proof.
  apply (reachable_counters_inv demo_config demo_world); [apply reach_step, reach_init | exact demo_counters].
Defined.

Lemma upload_published_witness :
  fst (serve demo_config submit_req demo_world) = Redirect url_for_index /\
  exists row rest,
    created_row submit_req (next_image_url (w_host demo_world)) row /\
    col row "created_at" = PInt (md_clock (w_db demo_world)) /\
    (exists cats r, table_rows "categories" (md_tables (w_db demo_world)) = Some cats /\ In r cats /\
       sql_eqb (col r "id") (PInt 7) = true /\
       col row "categories" = PDict [("name_bn", col r "name_bn")]) /\
    fst (serve demo_config listing_req (snd (serve demo_config submit_req demo_world))) =
      index_page (row :: rest).
Proof.
  apply (upload_published demo_config submit_req demo_file (PInt 7) demo_world listing_req demo_ready);
    try reflexivity; try discriminate.
  split; [reflexivity|]. eexists. split; reflexivity.
Defined.

(** A second submission of the demo slug [golpo]. *)
Definition golpo_req : request := post_req "golpo" [("file", demo_file)].

Lemma duplicate_slug_shadowed_witness :
  fst (serve demo_config golpo_req demo_world) = Redirect url_for_index /\
  (exists row, md_tables (w_db (snd (serve demo_config golpo_req demo_world))) =
      add_row "contents" row (md_tables (w_db demo_world)) /\ col row "slug" = PStr "golpo") /\
  (exists r, fst (serve demo_config detail_req demo_world) = Render "single.html" [("content", r)]) /\
  fst (serve demo_config detail_req (snd (serve demo_config golpo_req demo_world))) =
    fst (serve demo_config detail_req demo_world).
Proof.
  apply (duplicate_slug_shadowed demo_config golpo_req demo_file (PInt 7) demo_world detail_req "golpo"
           (default [] (table_rows "contents" demo_tables))
           (PDict [("id", PInt 3); ("title", PStr "Golpo"); ("slug", PStr "golpo");
                   ("is_approved", PBool true); ("category_id", PNone); ("created_at", PInt 9)])
           demo_ready);
    try reflexivity; try discriminate.
  - split; [reflexivity|]. eexists. split; reflexivity.
  - simpl. right; right; left. reflexivity.
Defined.

(** A submission with the form's empty category choice. *)
Definition no_category_req : request :=
  mkRequest POST "/upload" "http://localhost:5000/upload"
    [("title", "Notun"); ("description", "d"); ("slug", "notun"); ("alt_text", "a");
     ("category_id", "")] [("file", demo_file)].

Lemma upload_category_rejected_witness :
  int8_of_text "" = Raise (APIError ("invalid input syntax for type bigint: " ++ dq ++ dq)) /\
  fst (upload_content demo_config no_category_req demo_world) = Ok (Redirect (req_url no_category_req)) /\
  w_flashes (snd (upload_content demo_config no_category_req demo_world)) =
    flash_msg (MSG_ERROR_PREFIX ++ str_exn (APIError ("invalid input syntax for type bigint: " ++ dq ++ dq)))
      "error" (w_flashes demo_world) /\
  w_db (snd (upload_content demo_config no_category_req demo_world)) = w_db demo_world /\
  ib_images (w_host (snd (upload_content demo_config no_category_req demo_world))) =
    (ib_images (w_host demo_world) ++ [fs_data demo_file])%list.
Proof.
  split; [reflexivity|].
  apply (upload_category_rejected demo_config no_category_req demo_file ""
           (APIError ("invalid input syntax for type bigint: " ++ dq ++ dq)) demo_world demo_ready);
    try reflexivity; discriminate.
Defined.
