(* ===== verification/Concurrency.v ===== *)
(** * Concurrent submissions: the handler's two remote steps, interleaved

    The development server of line 101 runs each request in a thread of
    its own, and the spec (section 5) notes that the upload's two remote
    operations, the ImgBB call and the database insert, are independent
    and not atomic.  The [try] block of [upload_content] (lines 62-92)
    has exactly two points where another request can run in between: the
    call to ImgBB with the reading of its answer ([host_phase], lines
    62-72) and the insert with its notice ([db_phase], lines 74-92).
    [submit_phases] shows that the two steps in a row are [submit].

    A submission thread is its request and its [phase]; [run_sched] runs
    several threads on one shared world by a schedule that names, at each
    point, the thread that takes its next step.  [concurrent_same_slug]
    (C22) shows what two submissions of one slug do under a unique
    constraint on [slug], whatever the interleaving of their four steps:
    both images are stored; the thread whose insert runs first
    ([first_second]) wins, is redirected to the listing and has its row
    added; the other is sent back to its form with the database's
    duplicate-key error, flashed after the winner's success notice. *)

From stdpp Require Import sorting.
From S2P Require Import Prelude Python Web Datastore ImageHost World Upload App Lifecycle.
Open Scope string_scope.

(** Where a submission thread stands: before the host call (with its
    file), between the two calls (with the URL ImgBB gave), or done. *)
Inductive phase : Type :=
| Start (file : FileStorage)
| Hosted (u : pyval)
| Finished (resp : response).

Section Phases.
Context {D H : Type} `{!Datastore D} `{!ImageHost H} (cfg : config).

(** What the handler returns, as the thread's final phase. *)
Definition finish (ow : outcome exn response * world D H) : phase * world D H :=
  (match fst ow with Ok r => Finished r | Raise _ => Finished (ErrorPage 500) end, snd ow).

(** Lines 62-72: the post to ImgBB, [.json()], the test of the status
    and of [success], [data.url]; the except branch when one raises. *)
Definition host_phase (req : request) (file : FileStorage) (w : world D H) : phase * world D H :=
  let '(o, h') := ih_post IMGBB_UPLOAD_URL (encode_params [("key", IMGBB_API_KEY cfg)])
                          (fs_data file) (w_host w) in
  let w1 := set_host h' w in
  match o with
  | Raise e => finish (error_exit req e w1)
  | Ok r =>
      match host_verdict r with
      | Raise e => finish (error_exit req e w1)
      | Ok None => finish (Ok (Redirect (req_url req)), flash_world MSG_UPLOAD_PROBLEM "error" w1)
      | Ok (Some u) => (Hosted u, w1)
      end
  end.

(** Lines 74-92: the insert, the success notice and the redirect to the
    listing; the except branch when the insert raises. *)
Definition db_phase (req : request) (u : pyval) (w : world D H) : phase * world D H :=
  let '(o, d') := ds_insert "contents" (row_of req u) (w_db w) in
  match o with
  | Raise e => finish (error_exit req e (set_db d' w))
  | Ok _ => finish (Ok (Redirect url_for_index), flash_world MSG_SUCCESS "success" (set_db d' w))
  end.

Definition step_thread (req : request) (p : phase) (w : world D H) : phase * world D H :=
  match p with
  | Start file => host_phase req file w
  | Hosted u => db_phase req u w
  | Finished _ => (p, w)
  end.

(** The threads [reqs] with phases [ps] run by [sched]: each entry names
    the thread that takes its next step. *)
Fixpoint run_sched (reqs : list request) (sched : list nat) (ps : list phase) (w : world D H)
  : list phase * world D H :=
  match sched with
  | [] => (ps, w)
  | i :: sched' =>
      match reqs !! i, ps !! i with
      | Some req, Some p =>
          let '(p', w') := step_thread req p w in run_sched reqs sched' (<[i := p']> ps) w'
      | _, _ => run_sched reqs sched' ps w
      end
  end.

(** The two steps of a thread, one after the other, are [submit]. *)
Lemma submit_phases req file (w : world D H) :
  step_thread req (fst (step_thread req (Start file) w)) (snd (step_thread req (Start file) w)) =
  finish (submit cfg req file w).
Proof.
  rewrite submit_eq. cbn [step_thread]. unfold host_phase.
  destruct (ih_post _ _ _ _) as [[r|e] h']; [|done].
  destruct (host_verdict r) as [[u|]|e]; [|done|done]. cbn [fst snd step_thread].
  unfold db_phase. by destruct (ds_insert _ _ _) as [[|] d'].
Qed.

Lemma run_sched_step reqs i sched ps (w : world D H) req p :
  reqs !! i = Some req -> ps !! i = Some p ->
  run_sched reqs (i :: sched) ps w =
    run_sched reqs sched (<[i := fst (step_thread req p w)]> ps) (snd (step_thread req p w)).
Proof. intros Hr Hp. simpl. rewrite Hr, Hp. by destruct (step_thread req p w). Qed.
End Phases.

(** ** Two submissions of one slug on the in-memory services *)

(** The unique constraints of [contents] are on [id] and [slug]. *)
Definition id_slug_unique (db : memdb) : Prop :=
  ("contents", "slug") ∈ md_unique db /\
  Forall (fun tc => tc.1 = "contents" -> tc.2 = "id" \/ tc.2 = "slug") (md_unique db).

(** The services before the race: an online database with stamped rows,
    a unique slug, no row with slug [s], both tables; ImgBB up and knowing
    the configured key. *)
Definition race_ready (cfg : config) (w : world memdb imgbb) (s : string) : Prop :=
  md_online (w_db w) = true /\ counters_inv (w_db w) /\ id_slug_unique (w_db w) /\
  (exists rows, table_rows "contents" (md_tables (w_db w)) = Some rows /\
     Forall (fun r => sql_eqb (col r "slug") (PStr s) = false) rows) /\
  ib_status (w_host w) = HostUp /\
  exists k, IMGBB_API_KEY cfg = Some k /\ k ∈ ib_keys (w_host w).

(** A submission of slug [s] with a non-empty file and an existing
    category [c]. *)
Definition submission_ready (req : request) (file : FileStorage) (c : pyval)
    (w : world memdb imgbb) (s : string) : Prop :=
  md_get "slug" (req_form req) = Some s /\ fs_data file <> [] /\ category_ready req w c.

Lemma violates_fresh_slug db req c f rows :
  counters_inv db -> id_slug_unique db -> table_rows "contents" (md_tables db) = Some rows ->
  Forall (fun r => sql_eqb (col r "slug") (form_get req "slug") = false) rows ->
  violates (md_unique db) "contents" (stored_submission db req c f) rows = false.
Proof.
  intros Hinv [_ Hu] Hr Hs. unfold violates. apply not_true_iff_false.
  intros ([t k] & Htc & Hex)%existsb_exists. apply andb_true_iff in Hex as [Ht Hex].
  apply String.eqb_eq in Ht as <-.
  apply List.Forall_forall with (x := ("contents", k)) in Hu; [|done].
  apply existsb_exists in Hex as (r0 & Hr0 & Heq).
  destruct (Hu eq_refl) as [Hk | Hk]; simpl in Hk; subst k.
  - pose proof (Hinv _ Hr) as Hrows.
    apply List.Forall_forall with (x := r0) in Hrows as [(i & Hi & Hlt) _]; [|done].
    rewrite Hi in Heq. simpl in Heq. apply Z.eqb_eq in Heq. lia.
  - apply List.Forall_forall with (x := r0) in Hs; [|done]. simpl in Heq. congruence.
Qed.

Lemma violates_same_slug db req c f rows r0 :
  id_slug_unique db -> In r0 rows -> sql_eqb (col r0 "slug") (form_get req "slug") = true ->
  violates (md_unique db) "contents" (stored_submission db req c f) rows = true.
Proof.
  intros [Hin _] Hr0 Heq. unfold violates. apply existsb_exists.
  exists ("contents", "slug"). split; [by apply list_elem_of_In|].
  rewrite String.eqb_refl. simpl. apply existsb_exists. by exists r0.
Qed.

Section Race.
Context (cfg : config).

(** A host step on a reachable ImgBB that knows the key stores the image. *)
Lemma host_phase_ready req file (w : world memdb imgbb) k :
  ib_status (w_host w) = HostUp -> IMGBB_API_KEY cfg = Some k -> k ∈ ib_keys (w_host w) ->
  fs_data file <> [] ->
  host_phase cfg req file w =
    (Hosted (next_image_url (w_host w)),
     set_host (mkImgbb (ib_status (w_host w)) (ib_keys (w_host w))
                       (ib_images (w_host w) ++ [fs_data file])%list) w).
Proof.
  intros Hs Hkey Hk Hd. unfold host_phase. rewrite Hkey, imgbb_post_accepts by done. done.
Qed.

(** The database after the insert of a submission. *)
Definition db_after_insert (db : memdb) (req : request) (c u : pyval) : memdb :=
  mkMemDB (add_row "contents" (stored_submission db req c u) (md_tables db)) true
          (md_next_id db + 1) (md_clock db + 1) (md_unique db).

(** The first insert of the race succeeds, whatever host steps came
    before it. *)
Lemma db_phase_first req file c x s (w0 W : world memdb imgbb) :
  race_ready cfg w0 s -> submission_ready req file c w0 s -> w_db W = w_db w0 ->
  db_phase req (PStr x) W =
    (Finished (Redirect url_for_index),
     flash_world MSG_SUCCESS "success" (set_db (db_after_insert (w_db w0) req c (PStr x)) W)).
Proof.
  intros (Hon & Hinv & Hu & (rows & Hr & Hfresh) & _) (Hs & _ & Hc & cats & Hk & Hex) HW.
  unfold db_phase. rewrite HW.
  change (ds_insert "contents" (row_of req (PStr x)) (w_db w0))
    with (mem_insert "contents" (row_of req (PStr x)) (w_db w0)).
  rewrite (mem_insert_stores _ _ _ c (PStr x) rows); try done.
  - apply violates_fresh_slug; try done. unfold form_get. by rewrite Hs.
  - apply fk_violates_contents. right. by exists cats.
Qed.

(** The second insert of the race breaks the unique slug. *)
Lemma db_phase_second req1 file1 c1 u1 req2 file2 c2 x s (w0 W : world memdb imgbb) :
  race_ready cfg w0 s -> submission_ready req1 file1 c1 w0 s -> submission_ready req2 file2 c2 w0 s ->
  w_db W = db_after_insert (w_db w0) req1 c1 u1 ->
  db_phase req2 (PStr x) W =
    (Finished (Redirect (req_url req2)),
     flash_world (MSG_ERROR_PREFIX ++ "duplicate key value violates unique constraint") "error"
       (set_db (mkMemDB (md_tables (db_after_insert (w_db w0) req1 c1 u1)) true
                        (md_next_id (w_db w0) + 1 + 1) (md_clock (w_db w0) + 1) (md_unique (w_db w0))) W)).
Proof.
  intros (Hon & Hinv & Hu & (rows & Hr & _) & _) (Hs1 & _) (Hs2 & _ & Hc2 & _) HW.
  unfold db_phase. rewrite HW.
  change (ds_insert "contents" (row_of req2 (PStr x)) (db_after_insert (w_db w0) req1 c1 u1))
    with (mem_insert "contents" (row_of req2 (PStr x)) (db_after_insert (w_db w0) req1 c1 u1)).
  rewrite (mem_insert_duplicate _ _ _ c2 (PStr x) (rows ++ [stored_submission (w_db w0) req1 c1 u1])%list);
    try done.
  - simpl. by rewrite table_rows_add_row, Hr.
  - eapply violates_same_slug; [done | apply in_or_app; right; by left |].
    change (col (stored_submission (w_db w0) req1 c1 u1) "slug") with (form_get req1 "slug").
    unfold form_get. rewrite Hs1, Hs2. simpl. apply String.eqb_refl.
Qed.
End Race.

(** The thread of a schedule whose second step comes first: the one whose
    insert runs first. *)
Fixpoint first_second (seen : list nat) (sched : list nat) : option nat :=
  match sched with
  | [] => None
  | i :: sched' => if bool_decide (i ∈ seen) then Some i else first_second (i :: seen) sched'
  end.

(** The notices of a race: the winner's success, then the loser's
    database error. *)
Definition race_flashes : flashes :=
  [("success", MSG_SUCCESS); ("error", MSG_ERROR_PREFIX ++ "duplicate key value violates unique constraint")].

Section RaceTheorem.
Context (cfg : config).

(** C22: two concurrent submissions of one slug, under a unique
    constraint on [slug].  Whatever the interleaving of their four
    remote steps (the permutations of [[0; 0; 1; 1]]), the thread [i]
    whose insert runs first wins: it is redirected to the listing, the
    other back to its own form, the notices are the winner's success
    then the loser's database error, [contents] gains exactly the
    winner's row (with one of the two new image URLs), and both images
    are stored at ImgBB. *)
Theorem concurrent_same_slug (w : world memdb imgbb) req1 req2 f1 f2 c1 c2 s sched :
  race_ready cfg w s -> submission_ready req1 f1 c1 w s -> submission_ready req2 f2 c2 w s ->
  sched ≡ₚ [0; 0; 1; 1] ->
  let r := run_sched cfg [req1; req2] sched [Start f1; Start f2] w in
  let n := length (ib_images (w_host w)) in
  exists i reqw cw u,
    first_second [] sched = Some i /\ [req1; req2] !! i = Some reqw /\ [c1; c2] !! i = Some cw /\
    fst r = <[i := Finished (Redirect url_for_index)]>
              [Finished (Redirect (req_url req1)); Finished (Redirect (req_url req2))] /\
    w_flashes (snd r) = (w_flashes w ++ race_flashes)%list /\
    md_tables (w_db (snd r)) = add_row "contents" (stored_submission (w_db w) reqw cw u) (md_tables (w_db w)) /\
    (u = PStr (image_url n) \/ u = PStr (image_url (n + 1))) /\
    length (ib_images (w_host (snd r))) = n + 2.
Proof.
  intros Hr H1 H2 Hp.
  pose proof Hr as (_ & _ & _ & _ & Hst & k & Hkey & Hk).
  pose proof H1 as (Hs1 & Hd1 & _). pose proof H2 as (Hs2 & Hd2 & _).
  symmetry in Hp. apply permutations_Permutation, list_elem_of_In in Hp. vm_compute in Hp.
  repeat destruct Hp as [<- | Hp]; [..|contradiction];
  repeat (erewrite run_sched_step by reflexivity; cbn [step_thread fst snd];
          first [ rewrite (host_phase_ready cfg _ _ _ k)
                    by (cbn [set_db set_host flash_world w_host w_db ib_status ib_keys]; done)
                | rewrite (db_phase_first cfg req1 f1 c1 _ s w) by first [done | reflexivity]
                | rewrite (db_phase_first cfg req2 f2 c2 _ s w) by first [done | reflexivity]
                | erewrite (db_phase_second cfg req1 f1 c1 _ req2 f2 c2 _ s w) by first [done | reflexivity]
                | erewrite (db_phase_second cfg req2 f2 c2 _ req1 f1 c1 _ s w) by first [done | reflexivity] ];
          cbn [fst snd]; unfold next_image_url);
  cbn [run_sched fst snd]; eexists _, _, _, _;
  (split_and!; [reflexivity | reflexivity | reflexivity | reflexivity
               | cbn [w_flashes flash_world set_db set_host]; unfold flash_msg; by rewrite <- app_assoc
               | reflexivity
               | first [left; reflexivity | right; cbn [w_host set_host flash_world set_db ib_images];
                                                rewrite length_app; reflexivity]
               | cbn [w_host flash_world set_db set_host ib_images]; rewrite !length_app; simpl; lia]).
Qed.
End RaceTheorem.

(** ** Two identical submissions on the demo services with a unique slug *)

Definition race_world : world memdb imgbb := mkWorld unique_slug_db demo_host [] [].

Lemma race_world_ready : race_ready demo_config race_world "notun".
Proof.
  split_and!; [reflexivity | exact demo_counters | | | reflexivity |].
  - split; [apply list_elem_of_In; simpl; auto|].
    repeat constructor; simpl; intros; first [by left | by right | discriminate].
  - eexists. split; [reflexivity | repeat constructor].
  - exists "k3y". split; [reflexivity | by left].
Qed.

Lemma submit_req_ready : submission_ready submit_req demo_file (PInt 7) race_world "notun".
Proof.
  split_and!; [reflexivity | discriminate |]. split; [reflexivity|]. eexists. split; reflexivity.
Qed.

Lemma concurrent_same_slug_witness :
  let r := run_sched demo_config [submit_req; submit_req] [0; 1; 1; 0]
                     [Start demo_file; Start demo_file] race_world in
  let n := length (ib_images (w_host race_world)) in
  exists i reqw cw u,
    first_second [] [0; 1; 1; 0] = Some i /\ [submit_req; submit_req] !! i = Some reqw /\
    [PInt 7; PInt 7] !! i = Some cw /\
    fst r = <[i := Finished (Redirect url_for_index)]>
              [Finished (Redirect (req_url submit_req)); Finished (Redirect (req_url submit_req))] /\
    w_flashes (snd r) = (w_flashes race_world ++ race_flashes)%list /\
    md_tables (w_db (snd r)) =
      add_row "contents" (stored_submission (w_db race_world) reqw cw u) (md_tables (w_db race_world)) /\
    (u = PStr (image_url n) \/ u = PStr (image_url (n + 1))) /\
    length (ib_images (w_host (snd r))) = n + 2.
Proof.
  apply (concurrent_same_slug demo_config race_world submit_req submit_req demo_file demo_file
           (PInt 7) (PInt 7) "notun" [0; 1; 1; 0] race_world_ready submit_req_ready submit_req_ready).
  apply Permutation_sym, permutations_Permutation, list_elem_of_In. vm_compute. tauto.
Defined.

(** Under this schedule the second thread inserts first: it is the one
    sent to the listing. *)
Example race_second_wins :
  fst (run_sched demo_config [submit_req; submit_req] [0; 1; 1; 0]
         [Start demo_file; Start demo_file] race_world) =
  [Finished (Redirect (req_url submit_req)); Finished (Redirect url_for_index)].
Proof. vm_compute. reflexivity. Qed.
