(* ===== verification/Refinement.v ===== *)
(** * The application as a content site: an abstract model and its refinement

    The spec (sections 2 and 4) describes the program as a site holding
    content items and categories: the listing shows the approved items,
    newest first; the detail page shows the item with a slug or answers
    404; the form shows the categories; a submission notifies the user
    and, on success, adds one approved item owned by the placeholder.  Any
    call to the database may fail, and the spec says what each failure
    leads to.

    [site] is that state (items, categories, the notices of the session
    and the log), [site_step] the relation the spec allows between a
    request, the state before, the response and the state after.  [abs]
    maps a world of the implementation to its site.  [serve_site_step]
    is the simulation: each [serve] step is a [site_step] between the
    abstractions, for every database and image host satisfying their
    laws; [serve_all_refines_site] (C1) lifts it to every request
    sequence the server answers. *)

From stdpp Require Import sorting.
From S2P Require Import Prelude Python Web Routing Datastore ImageHost World Listing Detail Upload App Server.
Open Scope string_scope.

Record site : Type := mkSite {
  s_contents : list pyval;
  s_categories : list pyval;
  s_notices : flashes;
  s_log : list string
}.

Definition site_notice (msg cat : string) (s : site) : site :=
  mkSite (s_contents s) (s_categories s) (flash_msg msg cat (s_notices s)) (s_log s).

Definition site_log (line : string) (s : site) : site :=
  mkSite (s_contents s) (s_categories s) (s_notices s) (s_log s ++ [line])%list.

Definition site_add (row : pyval) (s : site) : site :=
  mkSite (s_contents s ++ [row])%list (s_categories s) (s_notices s) (s_log s).

(** What the spec allows one request to do. *)
Inductive site_step (req : request) : site -> response -> site -> Prop :=
| SRouting s resp :
    routing_response req resp -> site_step req s resp s
| SList s fk rows :
    match_route (req_path req) = Some RIndex ->
    listing fk (s_categories s) (s_contents s) rows ->
    site_step req s (index_page rows) s
| SListDown s msg :
    match_route (req_path req) = Some RIndex ->
    site_step req s (index_page []) (site_log ("Database Error: " ++ msg) s)
| SShow s slug fk row rest :
    match_route (req_path req) = Some (RContent slug) ->
    filter (has_slug slug) (s_contents s) = row :: rest ->
    site_step req s (Render "single.html" [("content", with_category fk (s_categories s) row)]) s
| SMissing s slug :
    match_route (req_path req) = Some (RContent slug) ->
    Forall (fun r => ~ has_slug slug r) (s_contents s) ->
    site_step req s (ErrorPage 404) s
| SForm s :
    match_route (req_path req) = Some RUpload -> req_method req <> POST ->
    site_step req s (Render "upload.html"
                       [("categories", PList (map (fun r => PDict (row_kvs r)) (s_categories s)))]) s
| SDown s :
    (exists slug, match_route (req_path req) = Some (RContent slug)) \/
    (match_route (req_path req) = Some RUpload /\ req_method req <> POST) ->
    site_step req s (ErrorPage 500) s
| SNoFile s :
    match_route (req_path req) = Some RUpload -> req_method req = POST ->
    file_present (md_get "file" (req_files req)) = None ->
    site_step req s (Redirect (req_url req)) (site_notice MSG_NO_FILE "error" s)
| SRefused s :
    match_route (req_path req) = Some RUpload -> req_method req = POST ->
    is_Some (file_present (md_get "file" (req_files req))) ->
    site_step req s (Redirect (req_url req)) (site_notice MSG_UPLOAD_PROBLEM "error" s)
| SFailed s e :
    match_route (req_path req) = Some RUpload -> req_method req = POST ->
    site_step req s (Redirect (req_url req)) (site_notice (MSG_ERROR_PREFIX ++ str_exn e) "error" s)
| SCreated s u row :
    match_route (req_path req) = Some RUpload -> req_method req = POST ->
    is_Some (file_present (md_get "file" (req_files req))) ->
    created_row req u row ->
    site_step req s (Redirect url_for_index) (site_notice MSG_SUCCESS "success" (site_add row s)).

(** A run of the site: the responses to a sequence of requests. *)
Inductive site_run : site -> list request -> list response -> site -> Prop :=
| run_nil s : site_run s [] [] s
| run_cons s req resp s1 reqs resps s2 :
    site_step req s resp s1 -> site_run s1 reqs resps s2 ->
    site_run s (req :: reqs) (resp :: resps) s2.

(** The site a world implements. *)
Definition abs {D H} `{!Datastore D} (w : world D H) : site :=
  mkSite (default [] (table_rows "contents" (ds_tables (w_db w))))
         (default [] (table_rows "categories" (ds_tables (w_db w))))
         (w_flashes w) (w_stdout w).

(** The response Flask sends for what the view returned or raised. *)
Definition page_of (o : outcome exn response) : response :=
  match o with
  | Ok resp => resp
  | Raise (HTTPException code) => ErrorPage code
  | Raise _ => ErrorPage 500
  end.

Lemma serve_page {D H} `{!Datastore D} `{!ImageHost H} cfg req (w : world D H) :
  serve cfg req w = (page_of (fst (dispatch cfg req w)), snd (dispatch cfg req w)).
Proof. apply serve_dispatch. Qed.

Lemma site_step_to req s resp s1 s2 : site_step req s resp s1 -> s1 = s2 -> site_step req s resp s2.
Proof. by intros ? <-. Qed.

Section Simulation.
Context {D H : Type} `{!Datastore D} `{!DatastoreLaws D} `{!ImageHost H} (cfg : config).

(** A select leaves the site as it is. *)
Lemma abs_db_execute q (w : world D H) : abs (snd (db_execute q w)) = abs w.
Proof.
  pose proof (db_execute_tables q w) as Ht.
  destruct (db_execute q w) as [o w'] eqn:E. simpl in Ht |- *.
  destruct (db_execute_frame _ _ _ _ E) as (_ & Hf & Ho).
  unfold abs. by rewrite Ht, Hf, Ho.
Qed.

Lemma index_site_step req (w : world D H) :
  match_route (req_path req) = Some RIndex ->
  site_step req (abs w) (page_of (fst (index w))) (abs (snd (index w))).
Proof.
  intros Hr. destruct (ds_execute index_query (w_db w)) as [[rows|e] d'] eqn:E.
  - rewrite (index_query_ok _ _ _ E). simpl.
    destruct (eval_index_query_listing _ _ _ (ds_execute_ok _ _ _ _ E))
      as (fk & cats & contents & Hc & Hk & Hl).
    eapply site_step_to; [eapply SList; [done|]|].
    + unfold abs. simpl. rewrite Hc, Hk. exact Hl.
    + unfold abs. simpl. by rewrite (ds_execute_tables _ _ _ _ E).
  - rewrite (index_query_error _ _ _ E). simpl.
    eapply site_step_to; [by apply SListDown|].
    unfold abs, site_log. simpl. by rewrite (ds_execute_tables _ _ _ _ E).
Qed.

Lemma single_site_step req s (w : world D H) :
  match_route (req_path req) = Some (RContent s) ->
  site_step req (abs w) (page_of (fst (single_content s w))) (abs (snd (single_content s w))).
Proof.
  intros Hr. rewrite single_content_world, abs_db_execute.
  destruct (ds_execute (detail_query s) (w_db w)) as [[rows|e] d'] eqn:E.
  - rewrite (single_content_rows _ _ _ _ E). simpl.
    destruct (eval_detail_query _ _ _ _ (ds_execute_ok _ _ _ _ E))
      as (fk & cats & contents & Hc & Hk & ->).
    destruct (filter (has_slug s) contents) as [|r rest] eqn:Ef; simpl.
    + eapply SMissing; [done|]. unfold abs. simpl. rewrite Hc. exact (proj1 (filter_nil_iff _ _) Ef).
    + replace cats with (s_categories (abs w)) by (unfold abs; simpl; by rewrite Hk).
      eapply SShow; [done|]. unfold abs. simpl. rewrite Hc. exact Ef.
  - unfold single_content, m_bind. rewrite (db_execute_run _ _ _ _ E).
    pose proof (ds_execute_error _ _ _ _ E). destruct e; try contradiction; simpl; apply SDown; eauto.
Qed.

Lemma upload_site_step req (w : world D H) :
  match_route (req_path req) = Some RUpload ->
  site_step req (abs w) (page_of (fst (upload_content cfg req w))) (abs (snd (upload_content cfg req w))).
Proof.
  intros Hr. destruct (decide (req_method req = POST)) as [Hm|Hm].
  - pose proof (upload_post_stdout cfg req w Hm) as Ho.
    destruct (upload_post_cases cfg req w Hm) as (out & resp & w' & E & Hs).
    rewrite E in Ho |- *. simpl in Ho |- *.
    destruct out as [| |e|u row]; simpl in Hs.
    + destruct Hs as (Hf & -> & ->). eapply site_step_to; [by apply SNoFile | reflexivity].
    + destruct Hs as ((file & r & Hf & _) & -> & Hd & Hfl).
      eapply site_step_to; [apply SRefused; [done | done | by rewrite Hf]|].
      unfold abs, site_notice. simpl. by rewrite Hd, Hfl, Ho.
    + destruct Hs as (-> & Ht & Hfl). eapply site_step_to; [by apply SFailed|].
      unfold abs, site_notice. simpl. by rewrite Ht, Hfl, Ho.
    + destruct Hs as ((file & r & Hf & _) & -> & [c0 Hc0] & Ht & Hcr & _ & Hfl).
      eapply site_step_to; [eapply SCreated; [done | done | by rewrite Hf | exact Hcr]|].
      unfold abs, site_notice, site_add. simpl. rewrite Ht, !table_rows_add_row, Hc0, Hfl, Ho.
      done.
  - rewrite upload_get_world, abs_db_execute by done.
    unfold upload_content. rewrite decide_False by done. unfold m_bind.
    destruct (ds_execute categories_query (w_db w)) as [[rows|e] d'] eqn:E;
      rewrite (db_execute_run _ _ _ _ E); simpl.
    + destruct (eval_categories_query _ _ _ (ds_execute_ok _ _ _ _ E)) as (cats & Hk & ->).
      replace cats with (s_categories (abs w)) by (unfold abs; simpl; by rewrite Hk).
      by apply SForm.
    + pose proof (ds_execute_error _ _ _ _ E). destruct e; try contradiction; simpl; apply SDown; eauto.
Qed.

(** The simulation: one request of the server is one step of the site. *)
Lemma serve_site_step req (w : world D H) :
  site_step req (abs w) (fst (serve cfg req w)) (abs (snd (serve cfg req w))).
Proof.
  rewrite serve_page. cbn [fst snd].
  destruct (dispatch_cases cfg req w)
    as [(resp & Hresp & E) | [(Hr & E) | [(s & Hr & E) | (Hr & E)]]]; rewrite E.
  - by apply SRouting.
  - by apply index_site_step.
  - by apply single_site_step.
  - by apply upload_site_step.
Qed.

(** C1: refinement of the abstract site.  For every database and image
    host that satisfy their laws, the responses the server gives to any
    sequence of requests, and the state it leaves, are a run the spec's
    site allows, read through [abs]: listings of the approved items
    newest first, the first item with the slug or 404, the categories
    form, the notices of a submission and the one item a successful
    submission adds, or the failures the spec describes. *)
Theorem serve_all_refines_site reqs (w : world D H) :
  site_run (abs w) reqs (fst (serve_all cfg reqs w)) (abs (snd (serve_all cfg reqs w))).
Proof.
  revert w. induction reqs as [|req reqs IH]; intros w; [constructor|].
  cbn [serve_all]. pose proof (serve_site_step req w) as Hs.
  destruct (serve cfg req w) as [resp w1]. pose proof (IH w1) as Hr.
  destruct (serve_all cfg reqs w1) as [resps w2]. econstructor; eauto.
Qed.
End Simulation.

Lemma serve_all_refines_site_witness :
  site_run (abs demo_world) [submit_req; submit_req]
    (fst (serve_all demo_config [submit_req; submit_req] demo_world))
    (abs (snd (serve_all demo_config [submit_req; submit_req] demo_world))).
Proof. apply serve_all_refines_site. Defined.
